(** * Location-data pipeline and crop-suitability scoring

    A shallow embedding of the aggregation pipeline
    ([src/data_layer/pipeline.py]), the crop catalogue and matcher
    ([src/data_layer/crop_database.py]) and the pydantic models they use
    ([src/models/*.py]).

    Conventions of the embedding.
    - A Python [float] is the rational it denotes ([Q]), and every constant
      of the source is written with the same decimal literal.  Where the
      source adds, subtracts, multiplies or divides floats and the rounding
      of the result can decide a branch or an order (the blend of the two
      scores, the margins of the pH and temperature intervals, the mean
      temperature) or is the value a property speaks of (the profit
      formulas), the operation is the binary64 one ([Py.fadd], [Py.fsub],
      [Py.fmul], [Py.fdiv]) and the comparison is made on the binary64
      values ([Py.fle], [Py.fge]).  The other formulas are exact: the
      weighted sum that [round] cuts to three places, the rainfall totals,
      and [round] itself.
    - [Optional[T]] is [option T]; a raised exception is the [Raised]
      branch of [Result], or [None] where the source catches it at once.
    - A Python [dict] whose order matters (the catalogue, the location
      cache, a score breakdown) is an association list in insertion order.
    - [datetime.now()] is an explicit argument, in microseconds. *)

From Stdlib Require Import QArith Qabs Qminmax Qround Qpower ZArith List String Ascii.
From Stdlib Require Import Bool Lia Lqa Sorted Permutation.
Import ListNotations.
Open Scope Q_scope.

(** ** Python built-ins used by the source *)

Module Py.

Definition le (a b : Q) : bool := Qle_bool a b.
Definition lt (a b : Q) : bool := negb (Qle_bool b a).
Definition ge (a b : Q) : bool := Qle_bool b a.
Definition gt (a b : Q) : bool := negb (Qle_bool a b).

(** [bool(x)] for a float. *)
Definition truthy (x : Q) : bool := negb (Qeq_bool x 0).

(** [sum(xs)], starting from 0 and adding left to right. *)
Definition sum (xs : list Q) : Q := fold_left Qplus xs 0.

(** [len(xs)] as a Python int. *)
Definition len {A} (xs : list A) : Z := Z.of_nat (List.length xs).

(** [xs[:n]] for any int [n]: a negative [n] counts from the end. *)
Definition take {A} (n : Z) (xs : list A) : list A :=
  if (n <? 0)%Z then firstn (Z.to_nat (len xs + n)) xs
  else firstn (Z.to_nat n) xs.

(** [xs[-n:]] for a positive int [n]. *)
Definition last_n {A} (n : Z) (xs : list A) : list A :=
  skipn (Z.to_nat (len xs - n)) xs.

(** Nearest integer, ties to even. *)
Definition round_half_even (q : Q) : Z :=
  let f := Qfloor q in
  match Qcompare (q - inject_Z f) (1 # 2) with
  | Lt => f
  | Gt => (f + 1)%Z
  | Eq => if Z.even f then f else (f + 1)%Z
  end.

(** *** binary64

    [float x] is the binary64 number nearest to [x], ties to even: 53
    bits of precision, and below [2^-1022] the fixed spacing [2^-1074] of
    the subnormal numbers.  Magnitudes from [2^1024] on, where Python has
    [inf], are outside the embedding. *)

(** The integer part of the binary logarithm of [|x|], for [x <> 0]. *)
Definition ilog2 (x : Q) : Z :=
  let t := (Z.log2 (Z.abs (Qnum x)) - Z.log2 (Zpos (Qden x)))%Z in
  if Qle_bool (2 ^ t) (Qabs x) then t else (t - 1)%Z.

(** The exponent of the last bit of the significand. *)
Definition exponent (x : Q) : Z := Z.max (ilog2 x - 52) (-1074).

Definition float (x : Q) : Q :=
  if Qeq_bool x 0 then 0
  else inject_Z (round_half_even (x / 2 ^ exponent x)) * 2 ^ exponent x.

(** [x + y], [x - y], [x * y], [x / y] on floats. *)
Definition fadd (x y : Q) : Q := float (float x + float y).
Definition fsub (x y : Q) : Q := float (float x - float y).
Definition fmul (x y : Q) : Q := float (float x * float y).
Definition fdiv (x y : Q) : Q := float (float x / float y).

(** [x <= y] and [x >= y] on floats. *)
Definition fle (x y : Q) : bool := Qle_bool (float x) (float y).
Definition fge (x y : Q) : bool := Qle_bool (float y) (float x).

(** [sum(xs)] on floats: from 0, left to right, rounding after each
    addition (CPython up to 3.11; later versions compensate the error). *)
Definition fsum (xs : list Q) : Q := fold_left fadd xs 0.

(** [round(x, ndigits)]. *)
Definition round (x : Q) (ndigits : nat) : Q :=
  let s := inject_Z (10 ^ Z.of_nat ndigits) in
  inject_Z (round_half_even (x * s)) / s.

(** [s.lower()] on ASCII text. *)
Definition lower_ascii (c : ascii) : ascii :=
  let n := nat_of_ascii c in
  if ((65 <=? n) && (n <=? 90))%nat then ascii_of_nat (n + 32) else c.

Fixpoint lower (s : string) : string :=
  match s with
  | EmptyString => EmptyString
  | String c r => String (lower_ascii c) (lower r)
  end.

(** An insertion-ordered [dict]. *)
Section Dict.
Context {K V : Type} (eqb : K -> K -> bool).

Fixpoint get (d : list (K * V)) (k : K) : option V :=
  match d with
  | [] => None
  | (k', v) :: r => if eqb k' k then Some v else get r k
  end.

Definition contains (d : list (K * V)) (k : K) : bool :=
  match get d k with Some _ => true | None => false end.

(** [d[k] = v]: an existing key keeps its position. *)
Fixpoint assign (d : list (K * V)) (k : K) (v : V) : list (K * V) :=
  match d with
  | [] => [(k, v)]
  | (k', v') :: r =>
      if eqb k' k then (k', v) :: r else (k', v') :: assign r k v
  end.

(** [del d[k]]. *)
Fixpoint del (d : list (K * V)) (k : K) : list (K * V) :=
  match d with
  | [] => []
  | (k', v') :: r => if eqb k' k then r else (k', v') :: del r k
  end.

Definition keys (d : list (K * V)) : list K := map fst d.
End Dict.

(** [d.get(k, default)] on a string-keyed dict. *)
Definition get_default (d : list (string * Q)) (k : string) (dflt : Q) : Q :=
  match get String.eqb d k with Some v => v | None => dflt end.

End Py.

(** ** [src/models/soil.py] *)

Inductive SoilTexture :=
| TX_CLAY | TX_CLAY_LOAM | TX_LOAM | TX_LOAMY_SAND | TX_SAND | TX_SANDY_CLAY
| TX_SANDY_CLAY_LOAM | TX_SANDY_LOAM | TX_SILT | TX_SILTY_CLAY
| TX_SILTY_CLAY_LOAM | TX_SILTY_LOAM.

Definition SoilTexture_value (t : SoilTexture) : string :=
  match t with
  | TX_CLAY => "clay" | TX_CLAY_LOAM => "clay_loam" | TX_LOAM => "loam"
  | TX_LOAMY_SAND => "loamy_sand" | TX_SAND => "sand"
  | TX_SANDY_CLAY => "sandy_clay" | TX_SANDY_CLAY_LOAM => "sandy_clay_loam"
  | TX_SANDY_LOAM => "sandy_loam" | TX_SILT => "silt"
  | TX_SILTY_CLAY => "silty_clay" | TX_SILTY_CLAY_LOAM => "silty_clay_loam"
  | TX_SILTY_LOAM => "silty_loam"
  end%string.

(** Only the fields the scorer reads are kept. *)
Record SoilProperties := { ph_h2o : option Q }.

Record SoilProfile := {
  properties : SoilProperties;
  texture : option SoilTexture
}.

(** ** [src/models/weather.py] *)

Record WeatherCondition := { temperature_c : Q }.

Record WeatherForecast := {
  temperature_min_c : Q;
  temperature_max_c : Q
}.

Record WeatherData := {
  current : WeatherCondition;
  forecast : list WeatherForecast
}.

Definition get_average_temperature (w : WeatherData) (days : Z) : option Q :=
  match forecast w with
  | [] => None
  | _ =>
      if (days <=? 0)%Z then None
      else
        let forecast_days := Py.take days (forecast w) in
        match forecast_days with
        | [] => None
        | _ =>
            let avg_temps :=
              map (fun day =>
                     Py.fdiv (Py.fadd (temperature_min_c day) (temperature_max_c day)) 2)
                  forecast_days in
            Some (Py.fdiv (Py.fsum avg_temps) (inject_Z (Py.len avg_temps)))
        end
  end.

(** ** [src/models/water.py] *)

Record RainfallRecord := { precipitation_mm : Q }.

Record RainfallData := { records : list RainfallRecord }.

Definition get_total_precipitation (r : RainfallData) (days : Z) : Q :=
  match records r with
  | [] => 0.0
  | _ =>
      if (days <=? 0)%Z then 0.0
      else
        let recent_records :=
          if (Py.len (records r) >=? days)%Z then Py.last_n days (records r)
          else records r in
        Py.sum (map precipitation_mm recent_records)
  end.

(** [WaterAvailability.calculate_water_stress_index]; the matcher repeats
    the same four thresholds inline. *)
Definition calculate_water_stress_index (recent_precipitation : Q) : Q :=
  if Py.ge recent_precipitation 150 then 0.0
  else if Py.ge recent_precipitation 100 then 0.3
  else if Py.ge recent_precipitation 50 then 0.6
  else 0.9.

(** ** [src/models/market.py] *)

Inductive PriceTrend := RISING | FALLING | STABLE | VOLATILE.

Module PriceAnalysis.
Record t := {
  crop_name : string;
  current_price : Q;
  price_trend : PriceTrend;
  volatility_index : Q
}.
End PriceAnalysis.

Record MarketPrices := { analyses : list PriceAnalysis.t }.

Fixpoint get_crop_analysis_in (l : list PriceAnalysis.t) (crop_name : string)
  : option PriceAnalysis.t :=
  match l with
  | [] => None
  | analysis :: r =>
      if String.eqb (Py.lower (PriceAnalysis.crop_name analysis))
                    (Py.lower crop_name)
      then Some analysis
      else get_crop_analysis_in r crop_name
  end.

Definition get_crop_analysis (m : MarketPrices) (crop_name : string)
  : option PriceAnalysis.t :=
  get_crop_analysis_in (analyses m) crop_name.

Definition trend_multiplier (t : PriceTrend) : Q :=
  match t with
  | RISING => 1.2
  | FALLING => 0.8
  | VOLATILE => 0.9
  | STABLE => 1.0
  end.

Definition calculate_profitability_score
  (m : MarketPrices) (crop_name : string) (yield_per_acre : Q) : option Q :=
  match get_crop_analysis m crop_name with
  | None => None
  | Some analysis =>
      let base_profit := Py.fmul (PriceAnalysis.current_price analysis) yield_per_acre in
      let trend_multiplier := trend_multiplier (PriceAnalysis.price_trend analysis) in
      let volatility_adjustment :=
        Py.fsub 1.0 (Py.fmul (PriceAnalysis.volatility_index analysis) 0.3) in
      let normalized_profit :=
        Qmin (Py.fdiv (Py.fmul (Py.fmul base_profit trend_multiplier)
                         volatility_adjustment) 100000)
             1.0 in
      Some (Qmax 0.0 normalized_profit)
  end.

(** ** Exceptions *)

Inductive Exn :=
| ValueError          (* raised by the pipeline's own range check *)
| ValidationError     (* raised by a pydantic constructor *)
| FileNotFoundError.

Inductive Result (A : Type) :=
| Returned (a : A)
| Raised (e : Exn).
Arguments Returned {A} a.
Arguments Raised {A} e.

(** A pydantic constructor either builds the model or raises; the option
    monad carries the first failure. *)
Definition bind {A B} (o : option A) (k : A -> option B) : option B :=
  match o with Some a => k a | None => None end.

Notation "x <- e ;; k" := (bind e (fun x => k))
  (at level 61, e at next level, right associativity).

(** [Field(..., ge=lo, le=hi)]. *)
Definition field_ge_le (lo hi v : Q) : option Q :=
  if Py.le lo v && Py.le v hi then Some v else None.

(** [Field(..., ge=lo)]. *)
Definition field_ge (lo v : Q) : option Q :=
  if Py.le lo v then Some v else None.

(** ** [src/models/crop.py] *)

Inductive WaterRequirement := LOW | MEDIUM | HIGH.

(** [WaterRequirement(s)]: the member whose value is [s], else [ValueError]. *)
Definition WaterRequirement_of (s : string) : option WaterRequirement :=
  if String.eqb s "low" then Some LOW
  else if String.eqb s "medium" then Some MEDIUM
  else if String.eqb s "high" then Some HIGH
  else None.

Inductive SoilType :=
| ST_CLAY | ST_CLAY_LOAM | ST_LOAM | ST_SANDY_LOAM | ST_SANDY_CLAY_LOAM
| ST_SANDY_CLAY | ST_SILTY_CLAY | ST_SILTY_CLAY_LOAM | ST_SILTY_LOAM
| ST_SAND | ST_SILT | ST_ANY.

Definition SoilType_value (t : SoilType) : string :=
  match t with
  | ST_CLAY => "clay" | ST_CLAY_LOAM => "clay_loam" | ST_LOAM => "loam"
  | ST_SANDY_LOAM => "sandy_loam" | ST_SANDY_CLAY_LOAM => "sandy_clay_loam"
  | ST_SANDY_CLAY => "sandy_clay" | ST_SILTY_CLAY => "silty_clay"
  | ST_SILTY_CLAY_LOAM => "silty_clay_loam" | ST_SILTY_LOAM => "silty_loam"
  | ST_SAND => "sand" | ST_SILT => "silt" | ST_ANY => "any"
  end%string.

Definition SoilType_members : list SoilType :=
  [ST_CLAY; ST_CLAY_LOAM; ST_LOAM; ST_SANDY_LOAM; ST_SANDY_CLAY_LOAM;
   ST_SANDY_CLAY; ST_SILTY_CLAY; ST_SILTY_CLAY_LOAM; ST_SILTY_LOAM;
   ST_SAND; ST_SILT; ST_ANY].

(** [SoilType(s)]. *)
Definition SoilType_of (s : string) : option SoilType :=
  find (fun t => String.eqb (SoilType_value t) s) SoilType_members.

Module CropRequirements.
Record t := {
  crop_name : string;
  ph_min : Q;
  ph_max : Q;
  ph_optimal : Q;
  temp_min_c : Q;
  temp_max_c : Q;
  temp_optimal_c : Q;
  rainfall_min_mm : Q;
  rainfall_max_mm : option Q;
  growing_season_months : list Z;
  soil_types : list SoilType;
  water_requirement : WaterRequirement;
  growth_duration_days : Z;
  typical_yield_per_acre : Q;
  base_market_price_per_kg : Q
}.
End CropRequirements.

(** The mapping [crop_data] of one catalogue entry.  The loader replaces
    the two enum entries in place, so their types are parameters: strings
    as read from YAML, enum members when the constructor is called. *)
Record CropData (W S : Type) := {
  kw_crop_name : string;
  kw_ph_min : Q;
  kw_ph_max : Q;
  kw_ph_optimal : Q;
  kw_temp_min_c : Q;
  kw_temp_max_c : Q;
  kw_temp_optimal_c : Q;
  kw_rainfall_min_mm : Q;
  kw_rainfall_max_mm : option Q;
  kw_growing_season_months : list Z;
  kw_soil_types : S;
  kw_water_requirement : W;
  kw_growth_duration_days : Z;
  kw_typical_yield_per_acre : Q;
  kw_base_market_price_per_kg : Q
}.
Arguments kw_crop_name {W S} c.
Arguments kw_ph_min {W S} c.
Arguments kw_ph_max {W S} c.
Arguments kw_ph_optimal {W S} c.
Arguments kw_temp_min_c {W S} c.
Arguments kw_temp_max_c {W S} c.
Arguments kw_temp_optimal_c {W S} c.
Arguments kw_rainfall_min_mm {W S} c.
Arguments kw_rainfall_max_mm {W S} c.
Arguments kw_growing_season_months {W S} c.
Arguments kw_soil_types {W S} c.
Arguments kw_water_requirement {W S} c.
Arguments kw_growth_duration_days {W S} c.
Arguments kw_typical_yield_per_acre {W S} c.
Arguments kw_base_market_price_per_kg {W S} c.

(** As parsed from YAML: either enum entry may be missing. *)
Definition YamlCrop := CropData (option string) (option (list string)).

(** As passed to the constructor. *)
Definition CropKwargs := CropData WaterRequirement (list SoilType).

(** [values]: the float fields validated so far, by name.  Pydantic
    validates the fields in the order of their declaration, and a
    validator sees only the fields declared before its own. *)
Definition Values := list (string * Q).

Definition values_get (values : Values) (k : string) : option Q :=
  Py.get String.eqb values k.

Definition opt_truthy (o : option Q) : bool :=
  match o with Some x => Py.truthy x | None => false end.

(** [@validator('ph_max')]. *)
Definition validate_ph_range (v : Q) (values : Values) : option Q :=
  let ph_min := values_get values "ph_min" in
  let ph_optimal := values_get values "ph_optimal" in
  match ph_min, ph_optimal with
  | Some mn, Some opt =>
      if Py.truthy mn && Py.truthy opt && negb (Py.le mn opt && Py.le opt v)
      then None else Some v
  | _, _ => Some v
  end.

(** [@validator('temp_max_c')]. *)
Definition validate_temp_range (v : Q) (values : Values) : option Q :=
  let temp_min := values_get values "temp_min_c" in
  let temp_optimal := values_get values "temp_optimal_c" in
  match temp_min, temp_optimal with
  | Some mn, Some opt =>
      if Py.truthy mn && Py.truthy opt && negb (Py.le mn opt && Py.le opt v)
      then None else Some v
  | _, _ => Some v
  end.

(** [@validator('rainfall_max_mm')]. *)
Definition validate_rainfall_range (v : Q) (values : Values) : option Q :=
  match values_get values "rainfall_min_mm" with
  | Some rainfall_min =>
      if Py.truthy rainfall_min && Py.truthy v && Py.gt rainfall_min v
      then None else Some v
  | None => Some v
  end.

(** [sorted(list(set(v)))]. *)
Fixpoint insert_month (m : Z) (l : list Z) : list Z :=
  match l with
  | [] => [m]
  | x :: r =>
      if (m <? x)%Z then m :: l
      else if (m =? x)%Z then l
      else x :: insert_month m r
  end.

Definition sorted_set (v : list Z) : list Z :=
  fold_right insert_month [] v.

(** [@validator('growing_season_months')]. *)
Definition validate_growing_months (v : list Z) : option (list Z) :=
  match v with
  | [] => None
  | _ =>
      if forallb (fun month => (1 <=? month)%Z && (month <=? 12)%Z) v
      then Some (sorted_set v) else None
  end.

(** The [CropRequirements] constructor: the fields in declaration order. *)
Definition CropRequirements_new (kw : CropKwargs) : option CropRequirements.t :=
  let values : Values := [] in
  ph_min <- field_ge_le 3.0 10.0 (kw_ph_min kw) ;;
  let values := values ++ [("ph_min"%string, ph_min)] in
  ph_max <- (v <- field_ge_le 3.0 10.0 (kw_ph_max kw) ;; validate_ph_range v values) ;;
  let values := values ++ [("ph_max"%string, ph_max)] in
  ph_optimal <- field_ge_le 3.0 10.0 (kw_ph_optimal kw) ;;
  let values := values ++ [("ph_optimal"%string, ph_optimal)] in
  temp_min_c <- field_ge_le (-10) 50 (kw_temp_min_c kw) ;;
  let values := values ++ [("temp_min_c"%string, temp_min_c)] in
  temp_max_c <- (v <- field_ge_le (-10) 50 (kw_temp_max_c kw) ;; validate_temp_range v values) ;;
  let values := values ++ [("temp_max_c"%string, temp_max_c)] in
  temp_optimal_c <- field_ge_le (-10) 50 (kw_temp_optimal_c kw) ;;
  let values := values ++ [("temp_optimal_c"%string, temp_optimal_c)] in
  rainfall_min_mm <- field_ge 0 (kw_rainfall_min_mm kw) ;;
  let values := values ++ [("rainfall_min_mm"%string, rainfall_min_mm)] in
  rainfall_max_mm <-
    match kw_rainfall_max_mm kw with
    | None => Some None
    | Some v0 =>
        v <- field_ge 0 v0 ;; v' <- validate_rainfall_range v values ;; Some (Some v')
    end ;;
  growing_season_months <- validate_growing_months (kw_growing_season_months kw) ;;
  growth_duration_days <-
    (if (30 <=? kw_growth_duration_days kw)%Z && (kw_growth_duration_days kw <=? 365)%Z
     then Some (kw_growth_duration_days kw) else None) ;;
  typical_yield_per_acre <- field_ge 0 (kw_typical_yield_per_acre kw) ;;
  base_market_price_per_kg <- field_ge 0 (kw_base_market_price_per_kg kw) ;;
  Some {|
    CropRequirements.crop_name := kw_crop_name kw;
    CropRequirements.ph_min := ph_min;
    CropRequirements.ph_max := ph_max;
    CropRequirements.ph_optimal := ph_optimal;
    CropRequirements.temp_min_c := temp_min_c;
    CropRequirements.temp_max_c := temp_max_c;
    CropRequirements.temp_optimal_c := temp_optimal_c;
    CropRequirements.rainfall_min_mm := rainfall_min_mm;
    CropRequirements.rainfall_max_mm := rainfall_max_mm;
    CropRequirements.growing_season_months := growing_season_months;
    CropRequirements.soil_types := kw_soil_types kw;
    CropRequirements.water_requirement := kw_water_requirement kw;
    CropRequirements.growth_duration_days := growth_duration_days;
    CropRequirements.typical_yield_per_acre := typical_yield_per_acre;
    CropRequirements.base_market_price_per_kg := base_market_price_per_kg
  |}.

Module CropRecommendation.
(** [key_factors] and [summary] are left out: both are computed without
    failing and nothing below reads them. *)
Record t := {
  crop_name : string;
  suitability_score : Q;
  expected_profit_per_acre : Q;
  profitability_score : Q;
  soil_ph_score : Q;
  temperature_score : Q;
  rainfall_score : Q;
  soil_type_score : Q;
  water_availability_score : Q;
  risk_level : string;
  risk_factors : list string
}.
End CropRecommendation.

(** [@validator('risk_level')]. *)
Definition validate_risk_level (v : string) : option string :=
  if existsb (String.eqb v) ["low"; "medium"; "high"]%string then Some v else None.

(** [CropRecommendation(...)]. *)
Definition CropRecommendation_new
  (crop_name : string) (suitability_score expected_profit_per_acre
   profitability_score soil_ph_score temperature_score rainfall_score
   soil_type_score water_availability_score : Q)
  (risk_level : string) (risk_factors : list string)
  : option CropRecommendation.t :=
  suitability_score <- field_ge_le 0.0 1.0 suitability_score ;;
  profitability_score <- field_ge_le 0.0 1.0 profitability_score ;;
  soil_ph_score <- field_ge_le 0.0 1.0 soil_ph_score ;;
  temperature_score <- field_ge_le 0.0 1.0 temperature_score ;;
  rainfall_score <- field_ge_le 0.0 1.0 rainfall_score ;;
  soil_type_score <- field_ge_le 0.0 1.0 soil_type_score ;;
  water_availability_score <- field_ge_le 0.0 1.0 water_availability_score ;;
  risk_level <- validate_risk_level risk_level ;;
  Some {|
    CropRecommendation.crop_name := crop_name;
    CropRecommendation.suitability_score := suitability_score;
    CropRecommendation.expected_profit_per_acre := expected_profit_per_acre;
    CropRecommendation.profitability_score := profitability_score;
    CropRecommendation.soil_ph_score := soil_ph_score;
    CropRecommendation.temperature_score := temperature_score;
    CropRecommendation.rainfall_score := rainfall_score;
    CropRecommendation.soil_type_score := soil_type_score;
    CropRecommendation.water_availability_score := water_availability_score;
    CropRecommendation.risk_level := risk_level;
    CropRecommendation.risk_factors := risk_factors
  |}.

(** ** [src/models/location.py] *)

Record Coordinates := {
  latitude : Q;
  longitude : Q
}.

(** [@validator('latitude', 'longitude')]. *)
Definition validate_coordinates (v : Q) : option Q :=
  if Py.gt (Qabs v) 0 && Py.lt (Qabs v) 0.0001 then None
  else Some (Py.round v 6).

(** [Coordinates(latitude=..., longitude=...)]. *)
Definition Coordinates_new (lat lon : Q) : option Coordinates :=
  latitude <- (v <- field_ge_le (-90) 90 lat ;; validate_coordinates v) ;;
  longitude <- (v <- field_ge_le (-180) 180 lon ;; validate_coordinates v) ;;
  Some {| latitude := latitude; longitude := longitude |}.

Record Location := {
  coordinates : Coordinates;
  city : option string;
  state : option string
}.

Record LocationData := {
  location : Location;
  soil_profile : option SoilProfile;
  weather_data : option WeatherData;
  rainfall_data : option RainfallData;
  market_prices : option MarketPrices;
  timestamp : option Z
}.

(** ** [src/data_layer/crop_database.py]: [CropDatabase] *)

Record CropDatabase := {
  crop_requirements : list (string * CropRequirements.t)
}.

Fixpoint all_some {A} (l : list (option A)) : option (list A) :=
  match l with
  | [] => Some []
  | o :: r => x <- o ;; xs <- all_some r ;; Some (x :: xs)
  end.

(** The body of the inner [try] of [_load_crop_data]; [None] is any
    exception, which the loop logs before it continues. *)
Definition load_entry (crop_data : YamlCrop) : option CropRequirements.t :=
  water_requirement <-
    (s <- kw_water_requirement crop_data ;; WaterRequirement_of s) ;;
  soil_types <-
    all_some (map SoilType_of
                (match kw_soil_types crop_data with Some l => l | None => [] end)) ;;
  CropRequirements_new {|
    kw_crop_name := kw_crop_name crop_data;
    kw_ph_min := kw_ph_min crop_data;
    kw_ph_max := kw_ph_max crop_data;
    kw_ph_optimal := kw_ph_optimal crop_data;
    kw_temp_min_c := kw_temp_min_c crop_data;
    kw_temp_max_c := kw_temp_max_c crop_data;
    kw_temp_optimal_c := kw_temp_optimal_c crop_data;
    kw_rainfall_min_mm := kw_rainfall_min_mm crop_data;
    kw_rainfall_max_mm := kw_rainfall_max_mm crop_data;
    kw_growing_season_months := kw_growing_season_months crop_data;
    kw_soil_types := soil_types;
    kw_water_requirement := water_requirement;
    kw_growth_duration_days := kw_growth_duration_days crop_data;
    kw_typical_yield_per_acre := kw_typical_yield_per_acre crop_data;
    kw_base_market_price_per_kg := kw_base_market_price_per_kg crop_data
  |}.

(** The [for] loop of [_load_crop_data] over [crops_data.items()]. *)
Fixpoint load_entries (crops_data : list (string * YamlCrop))
  (acc : list (string * CropRequirements.t)) : list (string * CropRequirements.t) :=
  match crops_data with
  | [] => acc
  | (crop_name, crop_data) :: rest =>
      match load_entry crop_data with
      | Some crop_req => load_entries rest (Py.assign String.eqb acc crop_name crop_req)
      | None => load_entries rest acc
      end
  end.

(** [_load_crop_data]: [None] is a missing file, otherwise the [crops]
    mapping of the document. *)
Definition _load_crop_data (file : option (list (string * YamlCrop)))
  : Result CropDatabase :=
  match file with
  | None => Raised FileNotFoundError
  | Some crops_data => Returned {| crop_requirements := load_entries crops_data [] |}
  end.

Definition get_crop_requirements (db : CropDatabase) (crop_name : string)
  : option CropRequirements.t :=
  Py.get String.eqb (crop_requirements db) (Py.lower crop_name).

Definition get_all_crops (db : CropDatabase) : list string :=
  Py.keys (crop_requirements db).

Definition get_crops_by_season (db : CropDatabase) (month : Z) : list string :=
  map fst
    (filter (fun e => existsb (Z.eqb month)
                        (CropRequirements.growing_season_months (snd e)))
            (crop_requirements db)).

(** ** [src/data_layer/crop_database.py]: [CropMatcher] *)

(** [scoring_weights], read from the configuration; the five keys the
    scorer indexes are taken to be there, as in the built-in default. *)
Record ScoringWeights := {
  soil_ph_match : Q;
  temperature_suitability : Q;
  rainfall_adequacy : Q;
  soil_type_match : Q;
  water_availability : Q
}.

Definition default_scoring_weights : ScoringWeights := {|
  soil_ph_match := 0.30;
  temperature_suitability := 0.25;
  rainfall_adequacy := 0.25;
  soil_type_match := 0.10;
  water_availability := 0.10
|}.

Record CropMatcher := {
  crop_database : CropDatabase;
  scoring_weights : ScoringWeights
}.

Definition _calculate_ph_score
  (crop_requirements : CropRequirements.t) (soil_profile : option SoilProfile) : Q :=
  match soil_profile with
  | None => 0.5
  | Some sp =>
      match ph_h2o (properties sp) with
      | None => 0.5
      | Some ph =>
          if Py.fle (CropRequirements.ph_min crop_requirements) ph
             && Py.fle ph (CropRequirements.ph_max crop_requirements)
          then
            if Py.fle (Qabs (Py.fsub ph (CropRequirements.ph_optimal crop_requirements)))
                      0.5
            then 1.0 else 0.8
          else if Py.fle (Py.fsub (CropRequirements.ph_min crop_requirements) 0.5) ph
                  && Py.fle ph (Py.fadd (CropRequirements.ph_max crop_requirements) 0.5)
          then 0.6
          else 0.2
      end
  end.

Definition _calculate_temperature_score
  (crop_requirements : CropRequirements.t) (weather_data : option WeatherData) : Q :=
  match weather_data with
  | None => 0.5
  | Some wd =>
      let avg_temp :=
        match get_average_temperature wd 7 with
        | Some t => t
        | None => temperature_c (current wd)
        end in
      if Py.fle (CropRequirements.temp_min_c crop_requirements) avg_temp
         && Py.fle avg_temp (CropRequirements.temp_max_c crop_requirements)
      then
        if Py.fle (Qabs (Py.fsub avg_temp
                           (CropRequirements.temp_optimal_c crop_requirements))) 3
        then 1.0 else 0.8
      else if Py.fle (Py.fsub (CropRequirements.temp_min_c crop_requirements) 5) avg_temp
              && Py.fle avg_temp
                   (Py.fadd (CropRequirements.temp_max_c crop_requirements) 5)
      then 0.6
      else 0.2
  end.

(** [x <= (rainfall_max_mm or float('inf'))]. *)
Definition le_max_or_inf (x : Q) (rainfall_max_mm : option Q) : bool :=
  match rainfall_max_mm with
  | Some m => if Py.truthy m then Py.le x m else true
  | None => true
  end.

Definition _calculate_rainfall_score
  (crop_requirements : CropRequirements.t) (rainfall_data : option RainfallData) : Q :=
  match rainfall_data with
  | None => 0.5
  | Some rd =>
      match records rd with
      | [] => 0.5
      | _ =>
          let recent_rainfall := get_total_precipitation rd 30 in
          if Py.le (CropRequirements.rainfall_min_mm crop_requirements) recent_rainfall
             && le_max_or_inf recent_rainfall
                  (CropRequirements.rainfall_max_mm crop_requirements)
          then 1.0
          else if Py.ge recent_rainfall
                    (CropRequirements.rainfall_min_mm crop_requirements * 0.8)
          then 0.7
          else if Py.ge recent_rainfall
                    (CropRequirements.rainfall_min_mm crop_requirements * 0.5)
          then 0.4
          else 0.1
      end
  end.

Definition _get_similar_soil_types (soil_texture : SoilTexture) : list SoilType :=
  match soil_texture with
  | TX_LOAM => [ST_CLAY_LOAM; ST_SANDY_LOAM; ST_SILTY_LOAM]
  | TX_CLAY_LOAM => [ST_LOAM; ST_CLAY; ST_SILTY_CLAY_LOAM]
  | TX_SANDY_LOAM => [ST_LOAM; ST_SAND; ST_SANDY_CLAY_LOAM]
  | TX_CLAY => [ST_CLAY_LOAM; ST_SILTY_CLAY]
  | TX_SAND => [ST_SANDY_LOAM; ST_SANDY_CLAY_LOAM]
  | TX_SILT => [ST_SILTY_LOAM; ST_SILTY_CLAY_LOAM]
  | _ => []
  end.

(** [x in soil_types]: both enums mix in [str], so members compare by
    their string values. *)
Definition value_in (v : string) (soil_types : list SoilType) : bool :=
  existsb (fun st => String.eqb v (SoilType_value st)) soil_types.

Definition _calculate_soil_type_score
  (crop_requirements : CropRequirements.t) (soil_profile : option SoilProfile) : Q :=
  match soil_profile with
  | None => 0.5
  | Some sp =>
      match texture sp with
      | None => 0.5
      | Some soil_texture =>
          if value_in (SoilTexture_value soil_texture)
                      (CropRequirements.soil_types crop_requirements)
          then 1.0
          else if existsb
                    (fun similar_type =>
                       value_in (SoilType_value similar_type)
                                (CropRequirements.soil_types crop_requirements))
                    (_get_similar_soil_types soil_texture)
          then 0.7
          else 0.3
      end
  end.

Definition stress_tolerance (w : WaterRequirement) : Q :=
  match w with
  | LOW => 0.8
  | MEDIUM => 0.5
  | HIGH => 0.2
  end.

(** The last [if] chain of [_calculate_water_availability_score]. *)
Definition stress_vs_tolerance (water_stress tolerance : Q) : Q :=
  if Py.le water_stress tolerance then 1.0
  else if Py.le water_stress (tolerance + 0.2) then 0.7
  else if Py.le water_stress (tolerance + 0.4) then 0.4
  else 0.1.

Definition _calculate_water_availability_score
  (crop_requirements : CropRequirements.t) (rainfall_data : option RainfallData) : Q :=
  match rainfall_data with
  | None => 0.5
  | Some rd =>
      match records rd with
      | [] => 0.5
      | _ =>
          let recent_precipitation := get_total_precipitation rd 30 in
          let water_stress := calculate_water_stress_index recent_precipitation in
          let tolerance :=
            stress_tolerance (CropRequirements.water_requirement crop_requirements) in
          stress_vs_tolerance water_stress tolerance
      end
  end.

(** The [scores] dict, in the order its keys are assigned. *)
Definition ScoreBreakdown := list (string * Q).

Definition calculate_suitability_score
  (self : CropMatcher) (crop_requirements : CropRequirements.t)
  (location_data : LocationData) : Q * ScoreBreakdown :=
  let soil_ph_score :=
    _calculate_ph_score crop_requirements (soil_profile location_data) in
  let temperature_score :=
    _calculate_temperature_score crop_requirements (weather_data location_data) in
  let rainfall_score :=
    _calculate_rainfall_score crop_requirements (rainfall_data location_data) in
  let soil_type_score :=
    _calculate_soil_type_score crop_requirements (soil_profile location_data) in
  let water_availability_score :=
    _calculate_water_availability_score crop_requirements (rainfall_data location_data) in
  let w := scoring_weights self in
  let overall_score :=
    soil_ph_score * soil_ph_match w
    + temperature_score * temperature_suitability w
    + rainfall_score * rainfall_adequacy w
    + soil_type_score * soil_type_match w
    + water_availability_score * water_availability w in
  (Py.round overall_score 3,
   [("soil_ph_score", soil_ph_score);
    ("temperature_score", temperature_score);
    ("rainfall_score", rainfall_score);
    ("soil_type_score", soil_type_score);
    ("water_availability_score", water_availability_score)]%string).

(** [x or 0.5] for an optional float: [None] and [0.0] are both falsy. *)
Definition or_half (x : option Q) : Q :=
  match x with
  | Some v => if Py.truthy v then v else 0.5
  | None => 0.5
  end.

Definition _calculate_profitability_score
  (crop_name : string) (location_data : LocationData)
  (crop_requirements : CropRequirements.t) : Q :=
  match market_prices location_data with
  | None => 0.5
  | Some mp =>
      or_half (calculate_profitability_score mp crop_name
                 (CropRequirements.typical_yield_per_acre crop_requirements))
  end.

Definition _calculate_expected_profit
  (crop_requirements : CropRequirements.t) (profitability_score : Q) : Q :=
  let base_profit :=
    Py.fmul (CropRequirements.typical_yield_per_acre crop_requirements)
            (CropRequirements.base_market_price_per_kg crop_requirements) in
  Py.fmul base_profit profitability_score.

(** The sort key of [get_crop_recommendations], also the
    [combined_score] of [_calculate_risk_level]. *)
Definition combined_score (suitability_score profitability_score : Q) : Q :=
  Py.fadd (Py.fmul suitability_score 0.7) (Py.fmul profitability_score 0.3).

Definition _calculate_risk_level (suitability_score profitability_score : Q) : string :=
  let combined_score := combined_score suitability_score profitability_score in
  if Py.fge combined_score 0.8 then "low"%string
  else if Py.fge combined_score 0.6 then "medium"%string
  else "high"%string.

Definition _get_risk_factors
  (score_breakdown : ScoreBreakdown) (location_data : LocationData) : list string :=
  (if Py.lt (Py.get_default score_breakdown "soil_ph_score" 0) 0.4
   then ["Poor soil pH match"%string] else [])
  ++ (if Py.lt (Py.get_default score_breakdown "temperature_score" 0) 0.4
      then ["Temperature outside optimal range"%string] else [])
  ++ (if Py.lt (Py.get_default score_breakdown "rainfall_score" 0) 0.4
      then ["Insufficient rainfall"%string] else [])
  ++ (if Py.lt (Py.get_default score_breakdown "water_availability_score" 0) 0.4
      then ["High water stress"%string] else []).

(** [list.sort(key=..., reverse=True)].  Python's sort is stable, also
    under [reverse=True], and a list has exactly one stable arrangement
    in descending key order; insertion from the right computes it. *)
Section StableSort.
Context {A : Type} (key : A -> Q).

Fixpoint insert_desc (x : A) (l : list A) : list A :=
  match l with
  | [] => [x]
  | y :: r => if Py.lt (key x) (key y) then y :: insert_desc x r else x :: l
  end.

Fixpoint sort_desc (l : list A) : list A :=
  match l with
  | [] => []
  | x :: r => insert_desc x (sort_desc r)
  end.
End StableSort.

Definition sort_key (x : CropRecommendation.t) : Q :=
  combined_score (CropRecommendation.suitability_score x)
                 (CropRecommendation.profitability_score x).

(** The scoring loop of [get_crop_recommendations]; [None] is an
    exception raised by the [CropRecommendation] constructor. *)
Fixpoint score_crops (self : CropMatcher) (location_data : LocationData)
  (min_score : Q) (all_crops : list string) : option (list CropRecommendation.t) :=
  match all_crops with
  | [] => Some []
  | crop_name :: rest =>
      match get_crop_requirements (crop_database self) crop_name with
      | None => score_crops self location_data min_score rest
      | Some crop_requirements =>
          let '(suitability_score, score_breakdown) :=
            calculate_suitability_score self crop_requirements location_data in
          if Py.lt suitability_score min_score
          then score_crops self location_data min_score rest
          else
            let profitability_score :=
              _calculate_profitability_score crop_name location_data crop_requirements in
            let expected_profit :=
              _calculate_expected_profit crop_requirements profitability_score in
            recommendation <-
              CropRecommendation_new crop_name suitability_score expected_profit
                profitability_score
                (Py.get_default score_breakdown "soil_ph_score" 0.0)
                (Py.get_default score_breakdown "temperature_score" 0.0)
                (Py.get_default score_breakdown "rainfall_score" 0.0)
                (Py.get_default score_breakdown "soil_type_score" 0.0)
                (Py.get_default score_breakdown "water_availability_score" 0.0)
                (_calculate_risk_level suitability_score profitability_score)
                (_get_risk_factors score_breakdown location_data) ;;
            recommendations <- score_crops self location_data min_score rest ;;
            Some (recommendation :: recommendations)
      end
  end.

Definition get_crop_recommendations
  (self : CropMatcher) (location_data : LocationData)
  (max_crops : Z) (min_score : Q) : list CropRecommendation.t :=
  match score_crops self location_data min_score
          (get_all_crops (crop_database self)) with
  | Some recommendations => Py.take max_crops (sort_desc sort_key recommendations)
  | None => []
  end.

(** ** [src/data_layer/pipeline.py] *)

Inductive Source := soil | weather | rainfall | market.

Definition source_names : list Source := [soil; weather; rainfall; market].

(** Whether the model constructor accepts the mapping found under the
    source's key: it builds [m], or it raises. *)
Inductive Payload (M : Type) :=
| Valid (m : M)
| Invalid.
Arguments Valid {M} m.
Arguments Invalid {M}.

(** The dict a client returns, as far as the pipeline looks into it. *)
Inductive ApiDict (M : Type) :=
| EmptyDict                     (* a dict without keys: falsy *)
| WithoutEntry                  (* not empty, but [data.get(key)] is falsy *)
| WithEntry (p : Payload M).
Arguments EmptyDict {M}.
Arguments WithoutEntry {M}.
Arguments WithEntry {M} p.

(** What [client.fetch_data] does when it is awaited. *)
Inductive Behaviour (M : Type) :=
| Responds (d : option (ApiDict M))   (* returns within the timeout *)
| Throws                              (* raises an exception *)
| Stalls.                             (* is still running when the timeout fires *)
Arguments Responds {M} d.
Arguments Throws {M}.
Arguments Stalls {M}.

(** The four clients, as they behave during one call. *)
Record Clients := {
  soil_client : Behaviour SoilProfile;
  weather_client : Behaviour WeatherData;
  rainfall_client : Behaviour RainfallData;
  market_client : Behaviour MarketPrices
}.

(** A coroutine: done with a value, or not done in time. *)
Inductive Awaited (A : Type) :=
| Done (a : A)
| Hung.
Arguments Done {A} a.
Arguments Hung {A}.

(** [_fetch_soil_data] and its three siblings: any exception of the
    client becomes [None]. *)
Definition _fetch_data {M} (client : Behaviour M) : Awaited (option (ApiDict M)) :=
  match client with
  | Responds d => Done d
  | Throws => Done None
  | Stalls => Hung
  end.

(** [_fetch_with_timeout]: [asyncio.TimeoutError] becomes [None].  It
    raises nothing itself, so [gather] never hands back an exception. *)
Definition _fetch_with_timeout {A} (coro : Awaited (option A)) : option A :=
  match coro with
  | Done r => r
  | Hung => None
  end.

(** [_process_soil_data] and its three siblings: a falsy entry and a
    constructor error both give [None]. *)
Definition _process_data {M} (data : ApiDict M) : option M :=
  match data with
  | WithEntry (Valid m) => Some m
  | WithEntry Invalid => None
  | WithoutEntry => None
  | EmptyDict => None
  end.

(** One round of the result loop: [if result:] and then the processor. *)
Definition process_result {M} (result : option (ApiDict M)) : option M :=
  match result with
  | None => None
  | Some EmptyDict => None
  | Some data => _process_data data
  end.

Definition CacheKey := (Q * Q)%type.

(** The key is the text of the two floats.  Two keys are the same text
    when the floats are equal; the two zeros, [0.0] and [-0.0], which
    print differently, are one number here. *)
Definition key_eqb (a b : CacheKey) : bool :=
  Qeq_bool (fst a) (fst b) && Qeq_bool (snd a) (snd b).

Definition cache_key (latitude longitude : Q) : CacheKey := (latitude, longitude).

Record DataPipeline := {
  crop_matcher : CropMatcher;
  location_cache : list (CacheKey * LocationData);
  cache_ttl_days : Z
}.

Definition with_cache (self : DataPipeline) (c : list (CacheKey * LocationData))
  : DataPipeline :=
  {| crop_matcher := crop_matcher self;
     location_cache := c;
     cache_ttl_days := cache_ttl_days self |}.

(** [DataPipeline()] for a loaded catalogue. *)
Definition DataPipeline_new (m : CropMatcher) (ttl : Z) : DataPipeline :=
  {| crop_matcher := m; location_cache := []; cache_ttl_days := ttl |}.

(** [timedelta(days=d)] in microseconds. *)
Definition timedelta_days (d : Z) : Z := (d * 86400000000)%Z.

Definition _validate_coordinates (latitude longitude : Q) : bool :=
  (Py.le (-90) latitude && Py.le latitude 90)
  && (Py.le (-180) longitude && Py.le longitude 180).

(** [_get_cached_data], with the reading of the clock as [now]. *)
Definition _get_cached_data (self : DataPipeline) (now : Z) (latitude longitude : Q)
  : option LocationData * DataPipeline :=
  let cache_key := cache_key latitude longitude in
  match Py.get key_eqb (location_cache self) cache_key with
  | Some cached_data =>
      match timestamp cached_data with
      | Some cached_time =>
          let expiry_time := (cached_time + timedelta_days (cache_ttl_days self))%Z in
          if (now <? expiry_time)%Z then (Some cached_data, self)
          else (None, with_cache self (Py.del key_eqb (location_cache self) cache_key))
      | None => (None, self)
      end
  | None => (None, self)
  end.

Definition _cache_data (self : DataPipeline) (latitude longitude : Q)
  (location_data : LocationData) : DataPipeline :=
  let cache_key := cache_key latitude longitude in
  let cache := Py.assign key_eqb (location_cache self) cache_key location_data in
  if (Py.len cache >? 100)%Z then
    let oldest_keys := Py.take (Py.len cache - 100) (Py.keys cache) in
    with_cache self (fold_left (Py.del key_eqb) oldest_keys cache)
  else with_cache self cache.

Definition clear_cache (self : DataPipeline) : DataPipeline := with_cache self [].

Definition city_mapping : list (Q * Q * string) :=
  [(18.5204, 73.8567, "Pune"); (19.0760, 72.8777, "Mumbai");
   (12.9716, 77.5946, "Bangalore"); (17.3850, 78.4867, "Hyderabad");
   (28.7041, 77.1025, "Delhi"); (22.5726, 88.3639, "Kolkata");
   (26.2389, 73.0243, "Jodhpur"); (25.2048, 55.2708, "Dubai")]%string.

Definition state_mapping : list (Q * Q * string) :=
  [(18.5204, 73.8567, "Maharashtra"); (19.0760, 72.8777, "Maharashtra");
   (12.9716, 77.5946, "Karnataka"); (17.3850, 78.4867, "Telangana");
   (28.7041, 77.1025, "Delhi"); (22.5726, 88.3639, "West Bengal");
   (26.2389, 73.0243, "Rajasthan")]%string.

Definition closest (mapping : list (Q * Q * string)) (within latitude longitude : Q)
  : option string :=
  option_map snd
    (find (fun e => Py.lt (Qabs (latitude - fst (fst e))) within
                    && Py.lt (Qabs (longitude - snd (fst e))) within)
          mapping).

Definition _get_city_name (latitude longitude : Q) : option string :=
  closest city_mapping 0.5 latitude longitude.

Definition _get_state_name (latitude longitude : Q) : option string :=
  closest state_mapping 1.0 latitude longitude.

(** The two readings of [datetime.now()] of one call. *)
Record Clock := {
  now_at_lookup : Z;      (* in [_get_cached_data] *)
  now_at_assembly : Z     (* when [LocationData] is built *)
}.

(** [fetch_location_data]: the outcome, the pipeline afterwards, and the
    sources whose client was awaited. *)
Definition fetch_location_data
  (self : DataPipeline) (clock : Clock) (clients : Clients) (latitude longitude : Q)
  : Result LocationData * DataPipeline * list Source :=
  if negb (_validate_coordinates latitude longitude)
  then (Raised ValueError, self, [])
  else
    let '(cached_data, self) :=
      _get_cached_data self (now_at_lookup clock) latitude longitude in
    match cached_data with
    | Some cached_data => (Returned cached_data, self, [])
    | None =>
        match Coordinates_new latitude longitude with
        | None => (Raised ValidationError, self, [])
        | Some coordinates =>
            let location :=
              {| coordinates := coordinates;
                 city := _get_city_name latitude longitude;
                 state := _get_state_name latitude longitude |} in
            let r_soil := _fetch_with_timeout (_fetch_data (soil_client clients)) in
            let r_weather := _fetch_with_timeout (_fetch_data (weather_client clients)) in
            let r_rainfall := _fetch_with_timeout (_fetch_data (rainfall_client clients)) in
            let r_market := _fetch_with_timeout (_fetch_data (market_client clients)) in
            let location_data :=
              {| location := location;
                 soil_profile := process_result r_soil;
                 weather_data := process_result r_weather;
                 rainfall_data := process_result r_rainfall;
                 market_prices := process_result r_market;
                 timestamp := Some (now_at_assembly clock) |} in
            let self := _cache_data self latitude longitude location_data in
            (Returned location_data, self, source_names)
        end
    end.


(** ** Further methods and constructors of the models *)

(** An optional field with a constraint: [None] passes unchecked. *)
Definition optional_field (check : Q -> option Q) (o : option Q) : option (option Q) :=
  match o with
  | None => Some None
  | Some v => v' <- check v ;; Some (Some v')
  end.

(** *** [src/models/water.py] *)

Definition get_average_daily_precipitation (r : RainfallData) (days : Z) : Q :=
  let total := get_total_precipitation r days in
  if (days >? 0)%Z then total / inject_Z days else 0.0.

(** [WaterAvailability.determine_irrigation_requirement], for the
    [rainfall_data] of the assessment. *)
Definition determine_irrigation_requirement (rainfall_data : RainfallData) : string :=
  let stress_index :=
    calculate_water_stress_index (get_total_precipitation rainfall_data 30) in
  if Py.le stress_index 0.2 then "low"%string
  else if Py.le stress_index 0.5 then "medium"%string
  else if Py.le stress_index 0.8 then "high"%string
  else "critical"%string.

(** [@validator('irrigation_requirement')]. *)
Definition validate_irrigation_level (v : option string) : option (option string) :=
  match v with
  | None => Some None
  | Some s =>
      if existsb (String.eqb s) ["low"; "medium"; "high"; "critical"]%string
      then Some v else None
  end.

(** *** [src/models/weather.py] *)

(** The keyword arguments of [WeatherForecast]. *)
Record WeatherForecastKwargs := {
  fk_date : string;
  fk_temperature_min_c : Q;
  fk_temperature_max_c : Q;
  fk_humidity_percent : option Q;
  fk_precipitation_mm : option Q;
  fk_wind_speed_ms : option Q;
  fk_description : option string
}.

(** [@validator('temperature_min_c', 'temperature_max_c')]: it compares
    only when both names are already in [values]. *)
Definition validate_temperature_range (v : Q) (values : Values) : option Q :=
  match values_get values "temperature_min_c", values_get values "temperature_max_c" with
  | Some min_temp, Some max_temp =>
      if Py.gt min_temp max_temp then None else Some v
  | _, _ => Some v
  end.

(** The [WeatherForecast] constructor: the fields in declaration order. *)
Definition WeatherForecast_new (kw : WeatherForecastKwargs) : option WeatherForecast :=
  let values : Values := [] in
  temperature_min_c <-
    (v <- field_ge_le (-50) 60 (fk_temperature_min_c kw) ;;
     validate_temperature_range v values) ;;
  let values := values ++ [("temperature_min_c"%string, temperature_min_c)] in
  temperature_max_c <-
    (v <- field_ge_le (-50) 60 (fk_temperature_max_c kw) ;;
     validate_temperature_range v values) ;;
  _humidity_percent <- optional_field (field_ge_le 0 100) (fk_humidity_percent kw) ;;
  _precipitation_mm <- optional_field (field_ge 0) (fk_precipitation_mm kw) ;;
  _wind_speed_ms <- optional_field (field_ge 0) (fk_wind_speed_ms kw) ;;
  Some {| temperature_min_c := temperature_min_c;
          temperature_max_c := temperature_max_c |}.

(** [@validator('forecast')]. *)
Definition validate_forecast_length (v : list WeatherForecast) : option (list WeatherForecast) :=
  if (Py.len v >? 14)%Z then None else Some v.

(** *** [src/models/soil.py] *)

(** All six fields of [SoilProperties]; the scorer's view of the model
    above keeps [ph_h2o] only. *)
Record SoilPropertiesFields := {
  sf_ph_h2o : option Q;
  sf_organic_carbon : option Q;
  sf_bulk_density : option Q;
  sf_clay_content : option Q;
  sf_sand_content : option Q;
  sf_silt_content : option Q
}.

(** [validate_texture_percentages], on a value that is given. *)
Definition validate_texture_percentages (v : Q) : option Q :=
  if Py.lt v 0 || Py.gt v 100 then None else Some v.

(** [validate_texture_sum], declared with [always=True]: it runs for a
    missing value too, and adds up only when the value and all three
    names in [values] are there. *)
Definition validate_texture_sum (v : option Q) (values : Values) : option (option Q) :=
  match v, values_get values "clay_content", values_get values "sand_content",
        values_get values "silt_content" with
  | Some x, Some clay, Some sand, Some silt =>
      let total := Py.sum [x; clay; sand; silt] in
      if Py.gt (Qabs (total - 100)) 5 then None else Some v
  | _, _, _, _ => Some v
  end.

(** One of the three texture fields: range, then the two validators. *)
Definition texture_field (o : option Q) (values : Values) : option (option Q) :=
  v <- optional_field (fun x => y <- field_ge_le 0.0 100.0 x ;; validate_texture_percentages y) o ;;
  validate_texture_sum v values.

Definition remember (values : Values) (name : string) (o : option Q) : Values :=
  match o with
  | Some v => values ++ [(name, v)]
  | None => values
  end.

(** The [SoilProperties] constructor: the fields in declaration order. *)
Definition SoilProperties_new (kw : SoilPropertiesFields) : option SoilPropertiesFields :=
  let values : Values := [] in
  ph_h2o <- optional_field (field_ge_le 3.0 10.0) (sf_ph_h2o kw) ;;
  let values := remember values "ph_h2o" ph_h2o in
  organic_carbon <- optional_field (field_ge 0.0) (sf_organic_carbon kw) ;;
  let values := remember values "organic_carbon" organic_carbon in
  bulk_density <- optional_field (field_ge_le 0.5 2.5) (sf_bulk_density kw) ;;
  let values := remember values "bulk_density" bulk_density in
  clay_content <- texture_field (sf_clay_content kw) values ;;
  let values := remember values "clay_content" clay_content in
  sand_content <- texture_field (sf_sand_content kw) values ;;
  let values := remember values "sand_content" sand_content in
  silt_content <- texture_field (sf_silt_content kw) values ;;
  Some {| sf_ph_h2o := ph_h2o;
          sf_organic_carbon := organic_carbon;
          sf_bulk_density := bulk_density;
          sf_clay_content := clay_content;
          sf_sand_content := sand_content;
          sf_silt_content := silt_content |}.

(** [SoilProfile.determine_texture], declared with [always=True]: [v] is
    the texture that was given, [props] the validated properties. *)
Definition determine_texture (v : option SoilTexture) (props : SoilPropertiesFields)
  : option SoilTexture :=
  match v with
  | Some _ => v
  | None =>
      match sf_clay_content props, sf_sand_content props, sf_silt_content props with
      | Some clay, Some sand, Some silt =>
          if Py.ge clay 40 then Some TX_CLAY
          else if Py.ge sand 70 then Some TX_SAND
          else if Py.ge silt 80 then Some TX_SILT
          else if (Py.le 20 clay && Py.le clay 40) && Py.le sand 50 then Some TX_CLAY_LOAM
          else if (Py.le 20 clay && Py.le clay 40) && Py.gt sand 50
               then Some TX_SANDY_CLAY_LOAM
          else if Py.lt clay 20 && Py.le sand 50 then Some TX_LOAM
          else Some TX_SANDY_LOAM
      | _, _, _ => None
      end
  end.

(** *** [src/models/crop.py] *)

(** [CropRecommendation.calculate_risk_level]. *)
Definition calculate_risk_level (r : CropRecommendation.t) : string :=
  if Py.ge (CropRecommendation.suitability_score r) 0.8
     && Py.ge (CropRecommendation.profitability_score r) 0.7
  then "low"%string
  else if Py.ge (CropRecommendation.suitability_score r) 0.6
          && Py.ge (CropRecommendation.profitability_score r) 0.5
  then "medium"%string
  else "high"%string.

(** *** [src/data_layer/pipeline.py] *)


(** [DataPipeline.get_available_crops] and [DataPipeline.get_crops_by_season]. *)
Definition get_available_crops (self : DataPipeline) : list string :=
  get_all_crops (crop_database (crop_matcher self)).

Definition pipeline_get_crops_by_season (self : DataPipeline) (month : Z) : list string :=
  get_crops_by_season (crop_database (crop_matcher self)) month.

(** [DataPipeline.get_crop_recommendations]: the matcher's list. *)
Definition pipeline_get_crop_recommendations (self : DataPipeline)
  (location_data : LocationData) (max_crops : Z) (min_score : Q)
  : list CropRecommendation.t :=
  get_crop_recommendations (crop_matcher self) location_data max_crops min_score.
(** * Vocabulary of the properties *)

(** ** Sample data *)

Definition scenario_A_requirements : CropRequirements.t := {|
  CropRequirements.crop_name := "wheat";
  CropRequirements.ph_min := 6.0;
  CropRequirements.ph_max := 7.5;
  CropRequirements.ph_optimal := 6.5;
  CropRequirements.temp_min_c := 10;
  CropRequirements.temp_max_c := 30;
  CropRequirements.temp_optimal_c := 20;
  CropRequirements.rainfall_min_mm := 100;
  CropRequirements.rainfall_max_mm := None;
  CropRequirements.growing_season_months := [10; 11; 12]%Z;
  CropRequirements.soil_types := [ST_LOAM; ST_CLAY_LOAM];
  CropRequirements.water_requirement := MEDIUM;
  CropRequirements.growth_duration_days := 120%Z;
  CropRequirements.typical_yield_per_acre := 1800;
  CropRequirements.base_market_price_per_kg := 25
|}.

(** A crop with a wide pH interval: 5.0 to 8.0, optimal 6.0. *)
Definition wide_ph_requirements : CropRequirements.t := {|
  CropRequirements.crop_name := "barley";
  CropRequirements.ph_min := 5.0;
  CropRequirements.ph_max := 8.0;
  CropRequirements.ph_optimal := 6.0;
  CropRequirements.temp_min_c := 10;
  CropRequirements.temp_max_c := 30;
  CropRequirements.temp_optimal_c := 20;
  CropRequirements.rainfall_min_mm := 100;
  CropRequirements.rainfall_max_mm := None;
  CropRequirements.growing_season_months := [10; 11; 12]%Z;
  CropRequirements.soil_types := [ST_CLAY];
  CropRequirements.water_requirement := LOW;
  CropRequirements.growth_duration_days := 120%Z;
  CropRequirements.typical_yield_per_acre := 1500;
  CropRequirements.base_market_price_per_kg := 20
|}.

(** A crop of acid soils: pH 4.4 to 6.0, optimal 5.0. *)
Definition acid_soil_requirements : CropRequirements.t := {|
  CropRequirements.crop_name := "tea";
  CropRequirements.ph_min := 4.4;
  CropRequirements.ph_max := 6.0;
  CropRequirements.ph_optimal := 5.0;
  CropRequirements.temp_min_c := 10;
  CropRequirements.temp_max_c := 30;
  CropRequirements.temp_optimal_c := 20;
  CropRequirements.rainfall_min_mm := 100;
  CropRequirements.rainfall_max_mm := None;
  CropRequirements.growing_season_months := [6; 7; 8]%Z;
  CropRequirements.soil_types := [ST_LOAM];
  CropRequirements.water_requirement := HIGH;
  CropRequirements.growth_duration_days := 180%Z;
  CropRequirements.typical_yield_per_acre := 900;
  CropRequirements.base_market_price_per_kg := 150
|}.

Definition soil_with_ph (ph : Q) : SoilProfile :=
  {| properties := {| ph_h2o := Some ph |}; texture := Some TX_LOAM |}.

(** A rainfall series of one day. *)
Definition one_day_of_rain (mm : Q) : RainfallData :=
  {| records := [{| precipitation_mm := mm |}] |}.

Definition pune : Location := {|
  coordinates := {| latitude := 18.5204; longitude := 73.8567 |};
  city := Some "Pune"%string;
  state := Some "Maharashtra"%string
|}.

(** A snapshot for which every source was unavailable. *)
Definition bare_snapshot : LocationData := {|
  location := pune;
  soil_profile := None;
  weather_data := None;
  rainfall_data := None;
  market_prices := None;
  timestamp := Some 0%Z
|}.

(** ** Comparing floats *)

(** [a <= b] and [a < b] between the binary64 values of [a] and [b], which
    is how the code compares two floats. *)
Definition le64 (a b : Q) : Prop := Py.float a <= Py.float b.
Definition lt64 (a b : Q) : Prop := Py.float a < Py.float b.

(** ** The pH sub-score *)

Section PhScore.
Variable req : CropRequirements.t.
Variable ph : Q.

Let lo := CropRequirements.ph_min req.
Let hi := CropRequirements.ph_max req.
Let opt := CropRequirements.ph_optimal req.

(** The soil profiles that carry the measured pH. *)
Definition measures (sp : SoilProfile) : Prop := ph_h2o (properties sp) = Some ph.

(** The differences [ph - opt], [lo - 0.5] and [hi + 0.5] are the binary64
    ones: [4.4 - 0.5] is [3.9000000000000004] there, above [3.9]. *)
Definition inside_interval : Prop := le64 lo ph /\ le64 ph hi.
Definition near_optimal : Prop := le64 (Qabs (Py.fsub ph opt)) 0.5.
Definition within_margins : Prop :=
  le64 (Py.fsub lo 0.5) ph /\ le64 ph (Py.fadd hi 0.5).
Definition just_beyond_an_edge : Prop :=
  (le64 (Py.fsub lo 0.5) ph /\ lt64 ph lo) \/ (lt64 hi ph /\ le64 ph (Py.fadd hi 0.5)).

(** The three tiers of the specification, read literally. *)
Definition ph_three_tiers (score : Q) : Prop :=
  (inside_interval /\ near_optimal -> score == 1.0)
  /\ (just_beyond_an_edge -> score == 0.6)
  /\ (~ (inside_interval /\ near_optimal) -> ~ just_beyond_an_edge -> score == 0.2).

(** The four tiers of [_calculate_ph_score]. *)
Definition ph_four_tiers (score : Q) : Prop :=
  (inside_interval /\ near_optimal -> score = 1.0)
  /\ (inside_interval /\ ~ near_optimal -> score = 0.8)
  /\ (~ inside_interval /\ within_margins -> score = 0.6)
  /\ (~ inside_interval /\ ~ within_margins -> score = 0.2).
End PhScore.

(** ** Water availability *)

(** The bands of the 30-day rainfall total. *)
Inductive RainBand := band_150_up | band_100_150 | band_50_100 | band_below_50.

Definition in_band (total : Q) (b : RainBand) : Prop :=
  match b with
  | band_150_up => 150 <= total
  | band_100_150 => 100 <= total /\ total < 150
  | band_50_100 => 50 <= total /\ total < 100
  | band_below_50 => total < 50
  end.

Definition band_stress (b : RainBand) : Q :=
  match b with
  | band_150_up => 0.0
  | band_100_150 => 0.3
  | band_50_100 => 0.6
  | band_below_50 => 0.9
  end.

(** How far the stress lies above the tolerance, in steps of 0.2. *)
Definition decayed (stress tolerance score : Q) : Prop :=
  (stress <= tolerance -> score = 1.0)
  /\ (tolerance < stress <= tolerance + 0.2 -> score = 0.7)
  /\ (tolerance + 0.2 < stress <= tolerance + 0.4 -> score = 0.4)
  /\ (tolerance + 0.4 < stress -> score = 0.1).

(** The score for each band and tier: it falls by 0.3 per step. *)
Definition water_table (b : RainBand) (w : WaterRequirement) : Q :=
  match w, b with
  | LOW, band_below_50 => 0.7
  | LOW, _ => 1.0
  | MEDIUM, band_below_50 => 0.4
  | MEDIUM, band_50_100 => 0.7
  | MEDIUM, _ => 1.0
  | HIGH, band_below_50 => 0.1
  | HIGH, band_50_100 => 0.4
  | HIGH, band_100_150 => 0.7
  | HIGH, band_150_up => 1.0
  end.

(** ** Missing data *)

Definition soil_ph_absent (d : LocationData) : Prop :=
  soil_profile d = None
  \/ exists sp, soil_profile d = Some sp /\ ph_h2o (properties sp) = None.

Definition soil_texture_absent (d : LocationData) : Prop :=
  soil_profile d = None
  \/ exists sp, soil_profile d = Some sp /\ texture sp = None.

Definition weather_absent (d : LocationData) : Prop := weather_data d = None.

Definition rainfall_absent (d : LocationData) : Prop :=
  rainfall_data d = None
  \/ exists rd, rainfall_data d = Some rd /\ records rd = [].

(** [scores[k]] of a breakdown. *)
Definition sub_score (bd : ScoreBreakdown) (k : string) : option Q :=
  Py.get String.eqb bd k.

Definition sub_score_names : list string :=
  ["soil_ph_score"; "temperature_score"; "rainfall_score"; "soil_type_score";
   "water_availability_score"]%string.

(** ** Profitability *)

Definition profit_ceiling : Q := 100000.

(** Clamping to the unit interval. *)
Definition clamp01 (x : Q) : Q :=
  if Py.lt x 0 then 0 else if Py.lt 1 x then 1 else x.

(** The normalised profit of the specification for a trend multiplier
    [m]: price * yield * m * (1 - volatility * 0.3) / ceiling, in binary64
    arithmetic from left to right, clamped. *)
Definition normalized_profit (a : PriceAnalysis.t) (yield_per_acre m : Q) : Q :=
  clamp01
    (Py.fdiv
       (Py.fmul (Py.fmul (Py.fmul (PriceAnalysis.current_price a) yield_per_acre) m)
                (Py.fsub 1.0 (Py.fmul (PriceAnalysis.volatility_index a) 0.3)))
       profit_ceiling).

Definition specified_multiplier (t : PriceTrend) (m : Q) : Prop :=
  match t with
  | RISING => m = 1.2
  | FALLING => m = 0.8
  | VOLATILE => m = 0.9
  | STABLE => m = 1.0
  end.

Definition wheat_analysis : PriceAnalysis.t := {|
  PriceAnalysis.crop_name := "Wheat";
  PriceAnalysis.current_price := 25.5;
  PriceAnalysis.price_trend := RISING;
  PriceAnalysis.volatility_index := 0.3
|}.

Definition wheat_market : MarketPrices := {| analyses := [wheat_analysis] |}.

(** The specification read literally: the profitability score of the
    recommendation is the normalised profit of its crop. *)
Definition profitability_is_normalized_profit (a : PriceAnalysis.t)
  (req : CropRequirements.t) (r : CropRecommendation.t) : Prop :=
  exists m,
    specified_multiplier (PriceAnalysis.price_trend a) m
    /\ CropRecommendation.profitability_score r
       == normalized_profit a (CropRequirements.typical_yield_per_acre req) m.

(** Wheat that sells for nothing. *)
Definition free_wheat_analysis : PriceAnalysis.t := {|
  PriceAnalysis.crop_name := "wheat";
  PriceAnalysis.current_price := 0;
  PriceAnalysis.price_trend := STABLE;
  PriceAnalysis.volatility_index := 0.2
|}.

(** ** Recommendations *)

(** How [get_crop_recommendations] fills in a recommendation. *)
Definition built_from (self : CropMatcher) (d : LocationData)
  (r : CropRecommendation.t) : Prop :=
  exists req,
    get_crop_requirements (crop_database self) (CropRecommendation.crop_name r) = Some req
    /\ let sb := calculate_suitability_score self req d in
       CropRecommendation.suitability_score r = fst sb
       /\ CropRecommendation.profitability_score r
          = _calculate_profitability_score (CropRecommendation.crop_name r) d req
       /\ CropRecommendation.expected_profit_per_acre r
          = _calculate_expected_profit req (CropRecommendation.profitability_score r)
       /\ CropRecommendation.soil_ph_score r = Py.get_default (snd sb) "soil_ph_score" 0.0
       /\ CropRecommendation.temperature_score r
          = Py.get_default (snd sb) "temperature_score" 0.0
       /\ CropRecommendation.rainfall_score r = Py.get_default (snd sb) "rainfall_score" 0.0
       /\ CropRecommendation.soil_type_score r
          = Py.get_default (snd sb) "soil_type_score" 0.0
       /\ CropRecommendation.water_availability_score r
          = Py.get_default (snd sb) "water_availability_score" 0.0
       /\ CropRecommendation.risk_level r
          = _calculate_risk_level (CropRecommendation.suitability_score r)
              (CropRecommendation.profitability_score r)
       /\ CropRecommendation.risk_factors r = _get_risk_factors (snd sb) d.

(** The blend that ranks recommendations and sets their risk tier:
    0.7*suitability + 0.3*profitability, in binary64 arithmetic. *)
Definition blend (suitability profitability : Q) : Q :=
  Py.fadd (Py.fmul 0.7 suitability) (Py.fmul 0.3 profitability).

Definition combined (r : CropRecommendation.t) : Q :=
  blend (CropRecommendation.suitability_score r) (CropRecommendation.profitability_score r).

(** ** Risk *)

Definition risk_tier (combined : Q) (tier : string) : Prop :=
  (le64 0.8 combined -> tier = "low"%string)
  /\ (le64 0.6 combined /\ lt64 combined 0.8 -> tier = "medium"%string)
  /\ (lt64 combined 0.6 -> tier = "high"%string).

Definition sub_scores (r : CropRecommendation.t) : list Q :=
  [CropRecommendation.soil_ph_score r;
   CropRecommendation.temperature_score r;
   CropRecommendation.rainfall_score r;
   CropRecommendation.soil_type_score r;
   CropRecommendation.water_availability_score r].

(** The specification read literally: as many risk factors as there are
    sub-scores below 0.4, one named for each. *)
Definition names_every_low_sub_score (r : CropRecommendation.t) : Prop :=
  (List.length (filter (fun s => Py.lt s 0.4) (sub_scores r))
   <= List.length (CropRecommendation.risk_factors r))%nat.

(** What [_get_risk_factors] names. *)
Definition names_low_sub_scores (r : CropRecommendation.t) : Prop :=
  let named := CropRecommendation.risk_factors r in
  (CropRecommendation.soil_ph_score r < 0.4 -> In "Poor soil pH match"%string named)
  /\ (CropRecommendation.temperature_score r < 0.4
      -> In "Temperature outside optimal range"%string named)
  /\ (CropRecommendation.rainfall_score r < 0.4 -> In "Insufficient rainfall"%string named)
  /\ (CropRecommendation.water_availability_score r < 0.4
      -> In "High water stress"%string named)
  /\ (forall f, In f named ->
        In f ["Poor soil pH match"; "Temperature outside optimal range";
              "Insufficient rainfall"; "High water stress"]%string).

(** A catalogue of one clay crop, and a site on loamy sand for which no
    other source answered. *)
Definition clay_crop_matcher : CropMatcher := {|
  crop_database := {| crop_requirements := [("barley"%string, wide_ph_requirements)] |};
  scoring_weights := default_scoring_weights
|}.

Definition loamy_sand_snapshot : LocationData := {|
  location := pune;
  soil_profile :=
    Some {| properties := {| ph_h2o := None |}; texture := Some TX_LOAMY_SAND |};
  weather_data := None;
  rainfall_data := None;
  market_prices := None;
  timestamp := Some 0%Z
|}.

(** ** Coordinates *)

(** Nonzero, but smaller than 0.0001 in absolute value. *)
Definition tiny (v : Q) : Prop := 0 < Qabs v /\ Qabs v < 0.0001.

(** The documented ranges, which are also the pipeline's range check. *)
Definition in_range (lat lon : Q) : Prop :=
  (-90 <= lat /\ lat <= 90) /\ (-180 <= lon /\ lon <= 180).

Definition cache_miss (self : DataPipeline) (now : Z) (lat lon : Q) : Prop :=
  fst (_get_cached_data self now lat lon) = None.

Definition default_matcher : CropMatcher := {|
  crop_database := {| crop_requirements := [("wheat"%string, scenario_A_requirements)] |};
  scoring_weights := default_scoring_weights
|}.

(** A pipeline that has served no request yet, with the default TTL of
    seven days. *)
Definition fresh_pipeline : DataPipeline := DataPipeline_new default_matcher 7.

(** Every client raises. *)
Definition all_down : Clients := {|
  soil_client := Throws;
  weather_client := Throws;
  rainfall_client := Throws;
  market_client := Throws
|}.

Definition at_time (t : Z) : Clock := {| now_at_lookup := t; now_at_assembly := t |}.

(** ** Catalogue entries *)

Definition yaml_wheat : YamlCrop := {|
  kw_crop_name := "wheat";
  kw_ph_min := 6.0;
  kw_ph_max := 7.5;
  kw_ph_optimal := 6.5;
  kw_temp_min_c := 10;
  kw_temp_max_c := 30;
  kw_temp_optimal_c := 20;
  kw_rainfall_min_mm := 100;
  kw_rainfall_max_mm := Some 400;
  kw_growing_season_months := [10; 11; 12]%Z;
  kw_soil_types := Some ["loam"; "clay_loam"]%string;
  kw_water_requirement := Some "medium"%string;
  kw_growth_duration_days := 120%Z;
  kw_typical_yield_per_acre := 1800;
  kw_base_market_price_per_kg := 25
|}.

(** Scenario D: [ph_min = 8.0] above [ph_optimal = 6.0]; every field lies
    in its own range. *)
Definition yaml_X : YamlCrop := {|
  kw_crop_name := "X";
  kw_ph_min := 8.0;
  kw_ph_max := 9.0;
  kw_ph_optimal := 6.0;
  kw_temp_min_c := 10;
  kw_temp_max_c := 30;
  kw_temp_optimal_c := 20;
  kw_rainfall_min_mm := 100;
  kw_rainfall_max_mm := Some 400;
  kw_growing_season_months := [10; 11; 12]%Z;
  kw_soil_types := Some ["loam"; "clay_loam"]%string;
  kw_water_requirement := Some "medium"%string;
  kw_growth_duration_days := 120%Z;
  kw_typical_yield_per_acre := 1800;
  kw_base_market_price_per_kg := 25
|}.

(** An entry whose rainfall minimum exceeds its maximum. *)
Definition yaml_dry : YamlCrop := {|
  kw_crop_name := "dry";
  kw_ph_min := 6.0;
  kw_ph_max := 7.5;
  kw_ph_optimal := 6.5;
  kw_temp_min_c := 10;
  kw_temp_max_c := 30;
  kw_temp_optimal_c := 20;
  kw_rainfall_min_mm := 500;
  kw_rainfall_max_mm := Some 400;
  kw_growing_season_months := [10; 11; 12]%Z;
  kw_soil_types := Some ["loam"]%string;
  kw_water_requirement := Some "medium"%string;
  kw_growth_duration_days := 120%Z;
  kw_typical_yield_per_acre := 1800;
  kw_base_market_price_per_kg := 25
|}.

Definition loaded (r : Result CropDatabase) : list string :=
  match r with
  | Returned db => get_all_crops db
  | Raised _ => []
  end.

(** Only the market answered, and wheat sells for nothing there. *)
Definition glut_snapshot : LocationData := {|
  location := pune;
  soil_profile := None;
  weather_data := None;
  rainfall_data := None;
  market_prices := Some {| analyses := [free_wheat_analysis] |};
  timestamp := Some 0%Z
|}.

(** ** Ranking *)

(** [before l a b]: [a] stands at an earlier position of [l] than [b]. *)
Inductive before {A : Type} : list A -> A -> A -> Prop :=
| before_head (x : A) (l : list A) (b : A) : In b l -> before (x :: l) x b
| before_tail (x : A) (l : list A) (a b : A) : before l a b -> before (x :: l) a b.

Definition descending (l : list CropRecommendation.t) : Prop :=
  StronglySorted (fun a b => combined b <= combined a) l.

(** The tie-break of the specification. *)
Definition ties_alphabetical (l : list CropRecommendation.t) : Prop :=
  forall a b,
    before l a b -> combined a == combined b ->
    String.leb (CropRecommendation.crop_name a) (CropRecommendation.crop_name b) = true.

(** The tie-break of a stable sort: the order of the catalogue. *)
Definition ties_in_catalogue_order (all_crops : list string)
  (l : list CropRecommendation.t) : Prop :=
  forall a b,
    before l a b -> combined a == combined b ->
    before all_crops (CropRecommendation.crop_name a) (CropRecommendation.crop_name b).

(** A catalogue that lists wheat before barley. *)
Definition wheat_then_barley : CropMatcher := {|
  crop_database :=
    {| crop_requirements :=
         [("wheat"%string, scenario_A_requirements);
          ("barley"%string, wide_ph_requirements)] |};
  scoring_weights := default_scoring_weights
|}.

(** ** Partial failure *)

(** The client raises, or it is still running when the timeout fires. *)
Definition fails {M} (b : Behaviour M) : Prop := b = Throws \/ b = Stalls.

(** The client returns in time a dict whose entry builds the model [m]. *)
Definition delivers {M} (b : Behaviour M) (m : M) : Prop :=
  b = Responds (Some (WithEntry (Valid m))).

Definition failed (s : Source) (c : Clients) : Prop :=
  match s with
  | soil => fails (soil_client c)
  | weather => fails (weather_client c)
  | rainfall => fails (rainfall_client c)
  | market => fails (market_client c)
  end.

Definition succeeded (s : Source) (c : Clients) : Prop :=
  match s with
  | soil => exists m, delivers (soil_client c) m
  | weather => exists m, delivers (weather_client c) m
  | rainfall => exists m, delivers (rainfall_client c) m
  | market => exists m, delivers (market_client c) m
  end.

Definition field_absent (s : Source) (d : LocationData) : Prop :=
  match s with
  | soil => soil_profile d = None
  | weather => weather_data d = None
  | rainfall => rainfall_data d = None
  | market => market_prices d = None
  end.

(** The field holds the model that its client delivered. *)
Definition field_delivered (s : Source) (c : Clients) (d : LocationData) : Prop :=
  match s with
  | soil => exists m, delivers (soil_client c) m /\ soil_profile d = Some m
  | weather => exists m, delivers (weather_client c) m /\ weather_data d = Some m
  | rainfall => exists m, delivers (rainfall_client c) m /\ rainfall_data d = Some m
  | market => exists m, delivers (market_client c) m /\ market_prices d = Some m
  end.

Definition mild_weather : WeatherData := {|
  current := {| temperature_c := 24 |};
  forecast := [{| temperature_min_c := 18; temperature_max_c := 28 |}]
|}.

(** Scenario C: soil, rainfall and market answer, weather times out. *)
Definition scenario_C_clients : Clients := {|
  soil_client := Responds (Some (WithEntry (Valid (soil_with_ph 6.8))));
  weather_client := Stalls;
  rainfall_client := Responds (Some (WithEntry (Valid (one_day_of_rain 40))));
  market_client := Responds (Some (WithEntry (Valid wheat_market)))
|}.

(** The snapshot that [fetch_location_data] assembles on a cache miss. *)
Definition assembled (clock : Clock) (clients : Clients) (lat lon : Q) (c : Coordinates)
  : LocationData := {|
  location := {| coordinates := c;
                 city := _get_city_name lat lon;
                 state := _get_state_name lat lon |};
  soil_profile := process_result (_fetch_with_timeout (_fetch_data (soil_client clients)));
  weather_data :=
    process_result (_fetch_with_timeout (_fetch_data (weather_client clients)));
  rainfall_data :=
    process_result (_fetch_with_timeout (_fetch_data (rainfall_client clients)));
  market_prices :=
    process_result (_fetch_with_timeout (_fetch_data (market_client clients)));
  timestamp := Some (now_at_assembly clock)
|}.

(** ** The cache *)

(** The cache holds [snap] under the key of the coordinates. *)
Definition holds (self : DataPipeline) (lat lon : Q) (snap : LocationData) : Prop :=
  Py.get key_eqb (location_cache self) (cache_key lat lon) = Some snap.

(** No key occurs twice in the dict. *)
Fixpoint distinct_keys {K V : Type} (eqb : K -> K -> bool) (c : list (K * V)) : Prop :=
  match c with
  | [] => True
  | (k, _) :: r => Py.get eqb r k = None /\ distinct_keys eqb r
  end.

(** What every pipeline satisfies that started with an empty cache: no
    key twice, every snapshot stamped. *)
Definition well_formed (self : DataPipeline) : Prop :=
  distinct_keys key_eqb (location_cache self)
  /\ Forall (fun e => timestamp (snd e) <> None) (location_cache self).

(** One call of [fetch_location_data]. *)
Record Call := {
  call_clock : Clock;
  call_clients : Clients;
  call_lat : Q;
  call_lon : Q
}.

Definition after_call (self : DataPipeline) (c : Call) : DataPipeline :=
  snd (fst (fetch_location_data self (call_clock c) (call_clients c)
              (call_lat c) (call_lon c))).

(** The pipeline after a sequence of calls. *)
Definition run (self : DataPipeline) (calls : list Call) : DataPipeline :=
  fold_left after_call calls self.

(** The states a pipeline goes through: it starts with an empty cache and
    is then only touched by [fetch_location_data] and [clear_cache]. *)
Inductive reachable : DataPipeline -> Prop :=
| reach_new (m : CropMatcher) (ttl : Z) : reachable (DataPipeline_new m ttl)
| reach_fetch (self : DataPipeline) (c : Call) :
    reachable self -> reachable (after_call self c)
| reach_clear (self : DataPipeline) : reachable self -> reachable (clear_cache self).






(** A hundred requests for as many other sites, all at time 1. *)
Definition hundred_other_sites : list Call :=
  map (fun k => {| call_clock := at_time 1;
                   call_clients := all_down;
                   call_lat := inject_Z (Z.of_nat k) / 2;
                   call_lon := 30 |})
      (seq 1 100).

(** * Vocabulary of the further properties *)

(** ** Scores *)

Definition in_unit_interval (x : Q) : Prop := 0 <= x /\ x <= 1.

(** Weights that are not negative and add up to at most one. *)
Definition weights_within_unit (w : ScoringWeights) : Prop :=
  0 <= soil_ph_match w
  /\ 0 <= temperature_suitability w
  /\ 0 <= rainfall_adequacy w
  /\ 0 <= soil_type_match w
  /\ 0 <= water_availability w
  /\ soil_ph_match w + temperature_suitability w + rainfall_adequacy w
     + soil_type_match w + water_availability w <= 1.

(** Every weight is 1: the weighted sum can reach 5. *)
Definition unit_weights : ScoringWeights := {|
  soil_ph_match := 1;
  temperature_suitability := 1;
  rainfall_adequacy := 1;
  soil_type_match := 1;
  water_availability := 1
|}.

(** The wheat catalogue scored with [unit_weights]. *)
Definition overweight_matcher : CropMatcher := {|
  crop_database := {| crop_requirements := [("wheat"%string, scenario_A_requirements)] |};
  scoring_weights := unit_weights
|}.

(** ** The catalogue *)

(** The entry was accepted by the loader. *)
Definition accepted (e : YamlCrop) : Prop := load_entry e <> None.

(** A catalogue whose only key has a capital letter. *)
Definition capital_key_matcher : CropMatcher := {|
  crop_database := {| crop_requirements := [("Wheat"%string, scenario_A_requirements)] |};
  scoring_weights := default_scoring_weights
|}.

(** What the constructor guarantees of a [CropRequirements] record. *)
Definition validated (r : CropRequirements.t) : Prop :=
  (3 <= CropRequirements.ph_min r /\ CropRequirements.ph_min r <= 10)
  /\ (3 <= CropRequirements.ph_max r /\ CropRequirements.ph_max r <= 10)
  /\ (3 <= CropRequirements.ph_optimal r /\ CropRequirements.ph_optimal r <= 10)
  /\ (-10 <= CropRequirements.temp_min_c r /\ CropRequirements.temp_min_c r <= 50)
  /\ (-10 <= CropRequirements.temp_max_c r /\ CropRequirements.temp_max_c r <= 50)
  /\ (-10 <= CropRequirements.temp_optimal_c r /\ CropRequirements.temp_optimal_c r <= 50)
  /\ 0 <= CropRequirements.rainfall_min_mm r
  /\ (forall m, CropRequirements.rainfall_max_mm r = Some m ->
        0 <= m
        /\ (~ m == 0 -> ~ CropRequirements.rainfall_min_mm r == 0 ->
            CropRequirements.rainfall_min_mm r <= m))
  /\ (CropRequirements.growing_season_months r <> []
      /\ StronglySorted Z.lt (CropRequirements.growing_season_months r)
      /\ Forall (fun m => (1 <= m <= 12)%Z) (CropRequirements.growing_season_months r))
  /\ (30 <= CropRequirements.growth_duration_days r <= 365)%Z
  /\ 0 <= CropRequirements.typical_yield_per_acre r
  /\ 0 <= CropRequirements.base_market_price_per_kg r.

(** ** The cache, further *)

Definition cache_size (self : DataPipeline) : nat := List.length (location_cache self).

(** A dictionary client answer that does not build a model. *)
Definition empty_answers : Clients := {|
  soil_client := Responds None;
  weather_client := Responds (Some EmptyDict);
  rainfall_client := Responds (Some WithoutEntry);
  market_client := Responds (Some (WithEntry Invalid))
|}.

(** ** Rainfall and water *)

(** The irrigation level that goes with a band of the 30-day total. *)
Definition band_irrigation (b : RainBand) : string :=
  match b with
  | band_150_up => "low"
  | band_100_150 => "medium"
  | band_50_100 => "high"
  | band_below_50 => "critical"
  end%string.



(** ** Weather *)

(** Day by day, the forecast of [w2] is at least as warm as that of [w1]. *)
Definition no_warmer (w1 w2 : WeatherData) : Prop :=
  Forall2 (fun a b => temperature_min_c a <= temperature_min_c b
                      /\ temperature_max_c a <= temperature_max_c b)
          (forecast w1) (forecast w2).

(** ** Constructors of the models *)

(** A property of an optional value that is given. *)
Definition if_given (P : Q -> Prop) (o : option Q) : Prop :=
  match o with
  | Some v => P v
  | None => True
  end.

(** The field constraints of [WeatherForecast], one by one. *)
Definition forecast_fields_in_range (kw : WeatherForecastKwargs) : Prop :=
  (-50 <= fk_temperature_min_c kw /\ fk_temperature_min_c kw <= 60)
  /\ (-50 <= fk_temperature_max_c kw /\ fk_temperature_max_c kw <= 60)
  /\ if_given (fun v => 0 <= v /\ v <= 100) (fk_humidity_percent kw)
  /\ if_given (fun v => 0 <= v) (fk_precipitation_mm kw)
  /\ if_given (fun v => 0 <= v) (fk_wind_speed_ms kw).

(** A day announced colder at its warmest than at its coldest. *)
Definition upside_down_day : WeatherForecastKwargs := {|
  fk_date := "2024-01-16";
  fk_temperature_min_c := 30;
  fk_temperature_max_c := 10;
  fk_humidity_percent := Some 70;
  fk_precipitation_mm := Some 5;
  fk_wind_speed_ms := None;
  fk_description := None
|}.

(** The field constraints of [SoilProperties], one by one. *)
Definition soil_fields_in_range (kw : SoilPropertiesFields) : Prop :=
  if_given (fun v => 3 <= v /\ v <= 10) (sf_ph_h2o kw)
  /\ if_given (fun v => 0 <= v) (sf_organic_carbon kw)
  /\ if_given (fun v => 0.5 <= v /\ v <= 2.5) (sf_bulk_density kw)
  /\ if_given (fun v => 0 <= v /\ v <= 100) (sf_clay_content kw)
  /\ if_given (fun v => 0 <= v /\ v <= 100) (sf_sand_content kw)
  /\ if_given (fun v => 0 <= v /\ v <= 100) (sf_silt_content kw).

(** Fractions that add up to 270%. *)
Definition overfull_soil : SoilPropertiesFields := {|
  sf_ph_h2o := Some 6.5;
  sf_organic_carbon := Some 2.1;
  sf_bulk_density := Some 1.3;
  sf_clay_content := Some 90;
  sf_sand_content := Some 90;
  sf_silt_content := Some 90
|}.

(** The textures that [determine_texture] can derive. *)
Definition derivable_textures : list SoilTexture :=
  [TX_CLAY; TX_SAND; TX_SILT; TX_CLAY_LOAM; TX_SANDY_CLAY_LOAM; TX_LOAM; TX_SANDY_LOAM].

Definition all_fractions_given (p : SoilPropertiesFields) : Prop :=
  sf_clay_content p <> None /\ sf_sand_content p <> None /\ sf_silt_content p <> None.

(** ** Market analyses *)

(** No analysis of the list is for [name], whatever the case of the letters. *)
Definition no_match (name : string) (l : list PriceAnalysis.t) : Prop :=
  Forall (fun y => Py.lower (PriceAnalysis.crop_name y) <> Py.lower name) l.

(** Falling, volatile, stable, rising: from the worst trend to the best. *)
Definition trend_rank (t : PriceTrend) : Z :=
  match t with
  | FALLING => 0
  | VOLATILE => 1
  | STABLE => 2
  | RISING => 3
  end%Z.

(** [a2] is at least as good as [a1] on every count: price, trend and
    volatility; the price and the volatility of [a1] within the ranges of
    the [PriceAnalysis] fields. *)
Definition no_better (a1 a2 : PriceAnalysis.t) : Prop :=
  0 <= PriceAnalysis.current_price a1
  /\ PriceAnalysis.current_price a1 <= PriceAnalysis.current_price a2
  /\ (trend_rank (PriceAnalysis.price_trend a1)
      <= trend_rank (PriceAnalysis.price_trend a2))%Z
  /\ PriceAnalysis.volatility_index a2 <= PriceAnalysis.volatility_index a1
  /\ PriceAnalysis.volatility_index a1 <= 1.

(** Wheat at a falling price of 20 with more volatility. *)
Definition cheap_wheat_analysis : PriceAnalysis.t := {|
  PriceAnalysis.crop_name := "WHEAT";
  PriceAnalysis.current_price := 20;
  PriceAnalysis.price_trend := FALLING;
  PriceAnalysis.volatility_index := 0.5
|}.

Definition cheap_wheat_market : MarketPrices := {| analyses := [cheap_wheat_analysis] |}.

(** ** Risk and place names *)

(** A recommendation with a perfect suitability and a profitability of 0.4. *)
Definition suitable_but_poor : CropRecommendation.t := {|
  CropRecommendation.crop_name := "wheat"%string;
  CropRecommendation.suitability_score := 1;
  CropRecommendation.expected_profit_per_acre := 18000;
  CropRecommendation.profitability_score := 0.4;
  CropRecommendation.soil_ph_score := 1;
  CropRecommendation.temperature_score := 1;
  CropRecommendation.rainfall_score := 1;
  CropRecommendation.soil_type_score := 1;
  CropRecommendation.water_availability_score := 1;
  CropRecommendation.risk_level := "low"%string;
  CropRecommendation.risk_factors := []
|}.

(** A recommendation with a suitability and a profitability of 0.8. *)
Definition evenly_good : CropRecommendation.t := {|
  CropRecommendation.crop_name := "wheat"%string;
  CropRecommendation.suitability_score := 0.8;
  CropRecommendation.expected_profit_per_acre := 36000;
  CropRecommendation.profitability_score := 0.8;
  CropRecommendation.soil_ph_score := 1;
  CropRecommendation.temperature_score := 1;
  CropRecommendation.rainfall_score := 1;
  CropRecommendation.soil_type_score := 1;
  CropRecommendation.water_availability_score := 1;
  CropRecommendation.risk_level := "medium"%string;
  CropRecommendation.risk_factors := []
|}.

(** The state of each city of the table, as a map of India has it. *)
Definition state_of (city : string) : option string :=
  (if String.eqb city "Pune" then Some "Maharashtra"
  else if String.eqb city "Mumbai" then Some "Maharashtra"
  else if String.eqb city "Bangalore" then Some "Karnataka"
  else if String.eqb city "Hyderabad" then Some "Telangana"
  else if String.eqb city "Delhi" then Some "Delhi"
  else if String.eqb city "Kolkata" then Some "West Bengal"
  else if String.eqb city "Jodhpur" then Some "Rajasthan"
  else None)%string.

(** * Properties *)

(** ** Comparisons *)

Lemma le_true (a b : Q) : Py.le a b = true <-> a <= b.
Proof. unfold Py.le. apply Qle_bool_iff. Qed.

Lemma le_false (a b : Q) : Py.le a b = false <-> b < a.
Proof.
  unfold Py.le. split; intro H.
  - apply Qnot_le_lt. intro Hab. apply Qle_bool_iff in Hab. congruence.
  - destruct (Qle_bool a b) eqn:E; [|reflexivity].
    apply Qle_bool_iff in E. exfalso. apply (Qlt_not_le _ _ H E).
Qed.

Lemma lt_true (a b : Q) : Py.lt a b = true <-> a < b.
Proof.
  unfold Py.lt. rewrite negb_true_iff. apply (le_false b a).
Qed.

Lemma lt_false (a b : Q) : Py.lt a b = false <-> b <= a.
Proof.
  unfold Py.lt. rewrite negb_false_iff. apply (le_true b a).
Qed.

Lemma ge_true (a b : Q) : Py.ge a b = true <-> b <= a.
Proof. apply (le_true b a). Qed.

Lemma ge_false (a b : Q) : Py.ge a b = false <-> a < b.
Proof. apply (le_false b a). Qed.

Lemma gt_true (a b : Q) : Py.gt a b = true <-> b < a.
Proof. unfold Py.gt. rewrite negb_true_iff. apply (le_false a b). Qed.

Lemma gt_false (a b : Q) : Py.gt a b = false <-> a <= b.
Proof. unfold Py.gt. rewrite negb_false_iff. apply (le_true a b). Qed.

(** Turn every boolean comparison of the context and of the goal into
    the order of [Q]. *)
Ltac reflect_cmp :=
  repeat match goal with
  | H : _ && _ = true |- _ => apply andb_true_iff in H; destruct H
  | H : _ && _ = false |- _ => apply andb_false_iff in H
  | H : Py.le _ _ = true |- _ => apply le_true in H
  | H : Py.le _ _ = false |- _ => apply le_false in H
  | H : Py.lt _ _ = true |- _ => apply lt_true in H
  | H : Py.lt _ _ = false |- _ => apply lt_false in H
  | H : Py.ge _ _ = true |- _ => apply ge_true in H
  | H : Py.ge _ _ = false |- _ => apply ge_false in H
  | H : Py.gt _ _ = true |- _ => apply gt_true in H
  | H : Py.gt _ _ = false |- _ => apply gt_false in H
  end.

(** ** Rounding to the nearest integer *)

Lemma round_half_even_near (q : Q) :
  inject_Z (Qfloor q) <= inject_Z (Py.round_half_even q)
  /\ - (1 # 2) <= inject_Z (Py.round_half_even q) - q
  /\ inject_Z (Py.round_half_even q) - q <= 1 # 2.
Proof.
  unfold Py.round_half_even.
  pose proof (Qfloor_le q) as Hlo. pose proof (Qlt_floor q) as Hhi.
  rewrite inject_Z_plus in Hhi. change (inject_Z 1) with 1 in Hhi.
  destruct (Qcompare (q - inject_Z (Qfloor q)) (1 # 2)) eqn:E.
  - apply Qeq_alt in E.
    destruct (Z.even (Qfloor q)); rewrite ?inject_Z_plus; change (inject_Z 1) with 1;
      repeat split; lra.
  - apply Qlt_alt in E. repeat split; lra.
  - apply Qgt_alt in E. rewrite inject_Z_plus. change (inject_Z 1) with 1.
    repeat split; lra.
Qed.

Lemma round_half_even_lower (a : Z) (q : Q) :
  inject_Z a <= q -> (a <= Py.round_half_even q)%Z.
Proof.
  intros H. apply Qfloor_resp_le in H. rewrite Qfloor_Z in H.
  destruct (round_half_even_near q) as (Hf & _ & _).
  rewrite <- Zle_Qle in Hf. lia.
Qed.

Lemma round_half_even_upper (b : Z) (q : Q) :
  q <= inject_Z b -> (Py.round_half_even q <= b)%Z.
Proof.
  intros H.
  destruct (round_half_even_near q) as (_ & _ & Hr).
  assert (Hlt : inject_Z (Py.round_half_even q) < inject_Z (b + 1)).
  { rewrite inject_Z_plus. change (inject_Z 1) with 1. lra. }
  rewrite <- Zlt_Qlt in Hlt. lia.
Qed.

Lemma round_half_even_Z (z : Z) : Py.round_half_even (inject_Z z) = z.
Proof.
  apply Z.le_antisymm.
  - apply round_half_even_upper. apply Qle_refl.
  - apply round_half_even_lower. apply Qle_refl.
Qed.

Lemma round_half_even_comp (p q : Q) :
  p == q -> Py.round_half_even p = Py.round_half_even q.
Proof.
  intros E. unfold Py.round_half_even. rewrite (Qfloor_comp p q E).
  assert (Ec : Qcompare (p - inject_Z (Qfloor q)) (1 # 2)
               = Qcompare (q - inject_Z (Qfloor q)) (1 # 2)).
  { rewrite E. reflexivity. }
  rewrite Ec. reflexivity.
Qed.

(** ** binary64 *)

Lemma round_half_even_monotone (x y : Q) :
  x <= y -> (Py.round_half_even x <= Py.round_half_even y)%Z.
Proof.
  intros H.
  destruct (round_half_even_near x) as (_ & _ & Hx).
  destruct (round_half_even_near y) as (_ & Hy & _).
  destruct (Qlt_le_dec x y) as [Hlt | Hge].
  - assert (Hq : inject_Z (Py.round_half_even x) < inject_Z (Py.round_half_even y + 1)).
    { rewrite inject_Z_plus. change (inject_Z 1) with 1. lra. }
    rewrite <- Zlt_Qlt in Hq. lia.
  - rewrite (round_half_even_comp x y); [lia|]. apply Qle_antisym; assumption.
Qed.

Lemma two_nonzero : ~ 2 == 0.
Proof. intros H. discriminate H. Qed.

Lemma pow2_pos (e : Z) : 0 < 2 ^ e.
Proof. apply Qpower_0_lt. reflexivity. Qed.

Lemma pow2_add (a b : Z) : 2 ^ (a + b) == 2 ^ a * 2 ^ b.
Proof. apply Qpower_plus. apply two_nonzero. Qed.

Lemma pow2_succ (a : Z) : 2 ^ (a + 1) == 2 * 2 ^ a.
Proof. rewrite pow2_add. change (2 ^ 1) with 2. ring. Qed.

Lemma pow2_le (a b : Z) : (a <= b)%Z -> 2 ^ a <= 2 ^ b.
Proof. intros H. apply Qpower_le_compat_l; [exact H | discriminate]. Qed.

Lemma pow2_lt_inv (a b : Z) : 2 ^ a < 2 ^ b -> (a < b)%Z.
Proof. intros H. apply (Qpower_lt_compat_l_inv 2); [exact H | reflexivity]. Qed.

Lemma pow2_Z (n : Z) : (0 <= n)%Z -> inject_Z (2 ^ n) == 2 ^ n.
Proof. intros H. rewrite Zpower_Qpower by exact H. reflexivity. Qed.

Lemma Qabs_as_fraction (x : Q) :
  Qabs x == inject_Z (Z.abs (Qnum x)) / inject_Z (Zpos (Qden x)).
Proof. destruct x as [n d]. unfold Qabs. simpl. apply Qmake_Qdiv. Qed.

Lemma ilog2_spec (x : Q) :
  ~ x == 0 -> 2 ^ Py.ilog2 x <= Qabs x /\ Qabs x < 2 ^ (Py.ilog2 x + 1).
Proof.
  intros Hx. unfold Py.ilog2.
  set (n := Z.abs (Qnum x)). set (d := Zpos (Qden x)).
  assert (Hn : (0 < n)%Z).
  { unfold n. destruct x as [[|p|p] q]; simpl; try lia. exfalso. apply Hx. reflexivity. }
  assert (Hd : (0 < d)%Z) by reflexivity.
  destruct (Z.log2_spec n Hn) as [Ha1 Ha2]. destruct (Z.log2_spec d Hd) as [Hb1 Hb2].
  pose proof (Z.log2_nonneg n) as Ha0. pose proof (Z.log2_nonneg d) as Hb0.
  set (a := Z.log2 n) in *. set (b := Z.log2 d) in *.
  rewrite (Qabs_as_fraction x). fold n d.
  assert (EA : inject_Z (2 ^ a) == 2 ^ a) by (apply pow2_Z; exact Ha0).
  assert (EB : inject_Z (2 ^ b) == 2 ^ b) by (apply pow2_Z; exact Hb0).
  assert (EA1 : inject_Z (2 ^ Z.succ a) == 2 * 2 ^ a).
  { rewrite pow2_Z by lia. unfold Z.succ. apply pow2_succ. }
  assert (EB1 : inject_Z (2 ^ Z.succ b) == 2 * 2 ^ b).
  { rewrite pow2_Z by lia. unfold Z.succ. apply pow2_succ. }
  rewrite Zle_Qle in Ha1, Hb1. rewrite Zlt_Qlt in Ha2, Hb2.
  rewrite EA in Ha1. rewrite EB in Hb1. rewrite EA1 in Ha2. rewrite EB1 in Hb2.
  pose proof (pow2_pos a) as PA. pose proof (pow2_pos b) as PB.
  set (N := inject_Z n) in *. set (D := inject_Z d) in *.
  set (A := 2 ^ a) in *. set (B := 2 ^ b) in *.
  assert (PD : 0 < D) by lra.
  assert (Et : 2 ^ (a - b) == A / B) by (apply Qpower_minus; apply two_nonzero).
  assert (Hup : N / D < 2 * (A / B)).
  { apply Qlt_shift_div_r; [exact PD|].
    apply Qlt_le_trans with (2 * A); [exact Ha2|].
    assert (E : 2 * A == 2 * (A / B) * B) by (field; lra).
    rewrite E. apply Qmult_le_l; [|exact Hb1].
    apply Qmult_lt_0_compat; [reflexivity|]. apply Qlt_shift_div_l; [exact PB | lra]. }
  assert (Hlo : A / B < 2 * (N / D)).
  { apply Qlt_shift_div_r; [exact PB|].
    assert (E : 2 * (N / D) * B == (N / D) * (2 * B)) by ring.
    rewrite E.
    apply Qle_lt_trans with N; [exact Ha1|].
    assert (E2 : N == N / D * D) by (field; lra).
    rewrite E2 at 1. apply Qmult_lt_l; [|exact Hb2].
    apply Qlt_shift_div_l; [exact PD | lra]. }
  destruct (Qle_bool (2 ^ (a - b)) (N / D)) eqn:Ec.
  - apply Qle_bool_iff in Ec. split; [exact Ec|].
    rewrite pow2_succ, Et. exact Hup.
  - assert (Hlt : N / D < 2 ^ (a - b)).
    { apply Qnot_le_lt. intros H. apply Qle_bool_iff in H. congruence. }
    replace (a - b - 1 + 1)%Z with (a - b)%Z by lia. split; [|exact Hlt].
    assert (E3 : 2 ^ (a - b) == 2 * 2 ^ (a - b - 1)).
    { rewrite <- pow2_succ. replace (a - b - 1 + 1)%Z with (a - b)%Z by lia. reflexivity. }
    rewrite Et in E3. lra.
Qed.

Lemma ilog2_monotone (x y : Q) :
  ~ x == 0 -> ~ y == 0 -> Qabs x <= Qabs y -> (Py.ilog2 x <= Py.ilog2 y)%Z.
Proof.
  intros Hx Hy H.
  destruct (ilog2_spec x Hx) as [Hx1 _]. destruct (ilog2_spec y Hy) as [_ Hy2].
  assert (Hlt : 2 ^ Py.ilog2 x < 2 ^ (Py.ilog2 y + 1)) by lra.
  apply pow2_lt_inv in Hlt. lia.
Qed.

(** The scaled magnitude stays below 2^53, and reaches 2^52 unless the
    number is subnormal. *)
Lemma exponent_spec (x : Q) :
  ~ x == 0 ->
  Qabs x / 2 ^ Py.exponent x < inject_Z (2 ^ 53)
  /\ ((-1074 < Py.exponent x)%Z -> inject_Z (2 ^ 52) <= Qabs x / 2 ^ Py.exponent x).
Proof.
  intros Hx. destruct (ilog2_spec x Hx) as [H1 H2].
  pose proof (pow2_pos (Py.exponent x)) as Pe. split.
  - apply Qlt_shift_div_r; [exact Pe|].
    rewrite (pow2_Z 53) by lia. rewrite <- pow2_add.
    apply Qlt_le_trans with (2 ^ (Py.ilog2 x + 1)); [exact H2|].
    apply pow2_le. unfold Py.exponent. lia.
  - intros He. apply Qle_shift_div_l; [exact Pe|].
    rewrite (pow2_Z 52) by lia. rewrite <- pow2_add.
    apply Qle_trans with (2 ^ Py.ilog2 x); [|exact H1].
    apply pow2_le. unfold Py.exponent in *. lia.
Qed.

Lemma float_nonzero (x : Q) :
  ~ x == 0 ->
  Py.float x = inject_Z (Py.round_half_even (x / 2 ^ Py.exponent x)) * 2 ^ Py.exponent x.
Proof.
  intros Hx. unfold Py.float. destruct (Qeq_bool x 0) eqn:E; [|reflexivity].
  apply Qeq_bool_iff in E. contradiction.
Qed.

Lemma float_zero (x : Q) : x == 0 -> Py.float x = 0.
Proof.
  intros Hx. unfold Py.float. apply Qeq_bool_iff in Hx. rewrite Hx. reflexivity.
Qed.

Lemma float_nonneg (x : Q) : 0 <= x -> 0 <= Py.float x.
Proof.
  intros H. unfold Py.float. destruct (Qeq_bool x 0); [apply Qle_refl|].
  pose proof (pow2_pos (Py.exponent x)) as Pe.
  apply Qmult_le_0_compat; [|lra].
  change 0 with (inject_Z 0). rewrite <- Zle_Qle. apply round_half_even_lower.
  change (inject_Z 0) with 0. apply Qle_shift_div_l; [exact Pe | lra].
Qed.

Lemma float_nonpos (x : Q) : x <= 0 -> Py.float x <= 0.
Proof.
  intros H. unfold Py.float. destruct (Qeq_bool x 0); [apply Qle_refl|].
  pose proof (pow2_pos (Py.exponent x)) as Pe.
  assert (Hr : inject_Z (Py.round_half_even (x / 2 ^ Py.exponent x)) <= 0).
  { change 0 with (inject_Z 0). rewrite <- Zle_Qle. apply round_half_even_upper.
    change (inject_Z 0) with 0. apply Qle_shift_div_r; [exact Pe | lra]. }
  set (r := inject_Z (Py.round_half_even (x / 2 ^ Py.exponent x))) in *.
  set (p := 2 ^ Py.exponent x) in *. nra.
Qed.

Lemma float_monotone_pos (x y : Q) : 0 < x -> x <= y -> Py.float x <= Py.float y.
Proof.
  intros Hx Hxy.
  assert (Nx : ~ x == 0) by lra. assert (Ny : ~ y == 0) by lra.
  rewrite (float_nonzero x Nx), (float_nonzero y Ny).
  assert (Hl : (Py.exponent x <= Py.exponent y)%Z).
  { pose proof (ilog2_monotone x y Nx Ny) as Hm.
    rewrite !Qabs_pos in Hm by lra. specialize (Hm Hxy). unfold Py.exponent. lia. }
  destruct (exponent_spec x Nx) as [Hxu _]. destruct (exponent_spec y Ny) as [_ Hyl].
  rewrite Qabs_pos in Hxu by lra. rewrite Qabs_pos in Hyl by lra.
  pose proof (pow2_pos (Py.exponent x)) as Px. pose proof (pow2_pos (Py.exponent y)) as Pyy.
  destruct (Z.eq_dec (Py.exponent x) (Py.exponent y)) as [E | Hne].
  - rewrite E in *. apply Qmult_le_compat_r; [|lra].
    rewrite <- Zle_Qle. apply round_half_even_monotone.
    apply Qmult_le_compat_r; [exact Hxy|]. apply Qlt_le_weak. apply Qinv_lt_0_compat. exact Pyy.
  - assert (Hlt : (Py.exponent x + 1 <= Py.exponent y)%Z) by lia.
    assert (Hyl' : inject_Z (2 ^ 52) <= y / 2 ^ Py.exponent y).
    { apply Hyl. unfold Py.exponent in *. lia. }
    assert (Hrx : inject_Z (Py.round_half_even (x / 2 ^ Py.exponent x)) <= inject_Z (2 ^ 53)).
    { rewrite <- Zle_Qle. apply round_half_even_upper. lra. }
    assert (Hry : inject_Z (2 ^ 52) <= inject_Z (Py.round_half_even (y / 2 ^ Py.exponent y))).
    { rewrite <- Zle_Qle. apply round_half_even_lower. exact Hyl'. }
    apply Qle_trans with (inject_Z (2 ^ 53) * 2 ^ Py.exponent x).
    { apply Qmult_le_compat_r; [exact Hrx | lra]. }
    apply Qle_trans with (inject_Z (2 ^ 52) * 2 ^ Py.exponent y).
    2:{ apply Qmult_le_compat_r; [exact Hry | lra]. }
    rewrite (pow2_Z 53), (pow2_Z 52) by lia. rewrite <- !pow2_add.
    apply pow2_le. lia.
Qed.

Lemma float_monotone_neg (x y : Q) : y < 0 -> x <= y -> Py.float x <= Py.float y.
Proof.
  intros Hy Hxy.
  assert (Nx : ~ x == 0) by lra. assert (Ny : ~ y == 0) by lra.
  rewrite (float_nonzero x Nx), (float_nonzero y Ny).
  assert (Hl : (Py.exponent y <= Py.exponent x)%Z).
  { pose proof (ilog2_monotone y x Ny Nx) as Hm.
    rewrite !Qabs_neg in Hm by lra. assert (Ho : - y <= - x) by lra.
    specialize (Hm Ho). unfold Py.exponent. lia. }
  destruct (exponent_spec y Ny) as [Hyu _]. destruct (exponent_spec x Nx) as [_ Hxl].
  rewrite Qabs_neg in Hyu by lra. rewrite Qabs_neg in Hxl by lra.
  pose proof (pow2_pos (Py.exponent x)) as Px. pose proof (pow2_pos (Py.exponent y)) as Pyy.
  destruct (Z.eq_dec (Py.exponent x) (Py.exponent y)) as [E | Hne].
  - rewrite E in *. apply Qmult_le_compat_r; [|lra].
    rewrite <- Zle_Qle. apply round_half_even_monotone.
    apply Qmult_le_compat_r; [exact Hxy|]. apply Qlt_le_weak. apply Qinv_lt_0_compat. exact Pyy.
  - assert (Hlt : (Py.exponent y + 1 <= Py.exponent x)%Z) by lia.
    assert (Hxl' : inject_Z (2 ^ 52) <= - x / 2 ^ Py.exponent x).
    { apply Hxl. unfold Py.exponent in *. lia. }
    assert (Hry : inject_Z (- 2 ^ 53) <= inject_Z (Py.round_half_even (y / 2 ^ Py.exponent y))).
    { rewrite <- Zle_Qle. apply round_half_even_lower.
      rewrite inject_Z_opp.
      assert (E : y / 2 ^ Py.exponent y == - (- y / 2 ^ Py.exponent y)) by (field; lra).
      rewrite E. lra. }
    assert (Hrx : inject_Z (Py.round_half_even (x / 2 ^ Py.exponent x)) <= inject_Z (- 2 ^ 52)).
    { rewrite <- Zle_Qle. apply round_half_even_upper.
      rewrite inject_Z_opp.
      assert (E : x / 2 ^ Py.exponent x == - (- x / 2 ^ Py.exponent x)) by (field; lra).
      rewrite E. lra. }
    apply Qle_trans with (inject_Z (- 2 ^ 52) * 2 ^ Py.exponent x).
    { apply Qmult_le_compat_r; [exact Hrx | lra]. }
    apply Qle_trans with (inject_Z (- 2 ^ 53) * 2 ^ Py.exponent y).
    2:{ apply Qmult_le_compat_r; [exact Hry | lra]. }
    rewrite !inject_Z_opp. rewrite (pow2_Z 53), (pow2_Z 52) by lia.
    assert (Hp : 2 ^ 53 * 2 ^ Py.exponent y <= 2 ^ 52 * 2 ^ Py.exponent x).
    { rewrite <- !pow2_add. apply pow2_le. lia. }
    lra.
Qed.

Lemma float_monotone (x y : Q) : x <= y -> Py.float x <= Py.float y.
Proof.
  intros H. destruct (Qlt_le_dec 0 x) as [Hx | Hx].
  - apply float_monotone_pos; assumption.
  - destruct (Qlt_le_dec y 0) as [Hy | Hy].
    + apply float_monotone_neg; assumption.
    + apply Qle_trans with 0; [apply float_nonpos | apply float_nonneg]; assumption.
Qed.

Lemma float_comp (x y : Q) : x == y -> Py.float x == Py.float y.
Proof.
  intros E. apply Qle_antisym; apply float_monotone; rewrite E; apply Qle_refl.
Qed.

Lemma fle_true (a b : Q) : Py.fle a b = true <-> Py.float a <= Py.float b.
Proof. unfold Py.fle. apply Qle_bool_iff. Qed.

Lemma fle_false (a b : Q) : Py.fle a b = false <-> Py.float b < Py.float a.
Proof. unfold Py.fle. apply (le_false (Py.float a) (Py.float b)). Qed.

Lemma fge_true (a b : Q) : Py.fge a b = true <-> Py.float b <= Py.float a.
Proof. unfold Py.fge. apply Qle_bool_iff. Qed.

Lemma fge_false (a b : Q) : Py.fge a b = false <-> Py.float a < Py.float b.
Proof. unfold Py.fge. apply (le_false (Py.float b) (Py.float a)). Qed.

(** The blend of the specification and the sort key of the code differ
    in the order of the factors only. *)
Lemma combined_score_is_blend (s p : Q) : combined_score s p == blend s p.
Proof.
  unfold combined_score, blend, Py.fadd, Py.fmul. apply float_comp.
  apply Qplus_comp; apply float_comp; apply float_comp; apply Qmult_comm.
Qed.

(** Two hypotheses that order the same pair both ways, strictly one way. *)
Ltac absurd_order :=
  match goal with
  | L : ?a < ?b, H : ?b <= ?a |- _ => exact (Qlt_not_le _ _ L H)
  end.

Lemma fadd_monotone (a b c d : Q) : a <= b -> c <= d -> Py.fadd a c <= Py.fadd b d.
Proof.
  intros H1 H2. unfold Py.fadd. apply float_monotone.
  apply float_monotone in H1, H2. lra.
Qed.

Lemma fsub_monotone (a b c d : Q) : a <= b -> d <= c -> Py.fsub a c <= Py.fsub b d.
Proof.
  intros H1 H2. unfold Py.fsub. apply float_monotone.
  apply float_monotone in H1, H2. lra.
Qed.

(** The product of two floats that are not negative. *)
Lemma fmul_monotone2 (a b c d : Q) :
  0 <= a -> a <= b -> 0 <= c -> c <= d -> Py.fmul a c <= Py.fmul b d.
Proof.
  intros Ha Hab Hc Hcd. unfold Py.fmul. apply float_monotone.
  apply float_nonneg in Ha, Hc. apply float_monotone in Hab, Hcd.
  apply Qle_trans with (Py.float b * Py.float c).
  - apply Qmult_le_compat_r; assumption.
  - rewrite (Qmult_comm (Py.float b) (Py.float c)), (Qmult_comm (Py.float b) (Py.float d)).
    apply Qmult_le_compat_r; [exact Hcd|]. apply Qle_trans with (Py.float a); assumption.
Qed.

Lemma fmul_nonneg (a c : Q) : 0 <= a -> 0 <= c -> 0 <= Py.fmul a c.
Proof.
  intros Ha Hc. unfold Py.fmul. apply float_nonneg.
  apply Qmult_le_0_compat; apply float_nonneg; assumption.
Qed.

(** Multiplying by a constant that is not negative. *)
Lemma fmul_monotone (a b c : Q) : a <= b -> 0 <= c -> Py.fmul a c <= Py.fmul b c.
Proof.
  intros H Hc. unfold Py.fmul. apply float_monotone.
  apply float_monotone in H. apply float_nonneg in Hc.
  apply Qmult_le_compat_r; assumption.
Qed.

(** ** The pH sub-score *)

(** pH 7.5 lies inside [5.0, 8.0] but 1.5 away from the optimum: the
    three-tier reading predicts 0.2, the code returns 0.8. *)
Lemma ph_three_tiers_fails :
  ~ ph_three_tiers wide_ph_requirements 7.5
      (_calculate_ph_score wide_ph_requirements (Some (soil_with_ph 7.5))).
Proof.
  unfold ph_three_tiers. intros (_ & _ & H).
  assert (E : _calculate_ph_score wide_ph_requirements (Some (soil_with_ph 7.5)) == 0.2).
  { apply H.
    - intros [_ Hn]. unfold near_optimal in Hn. vm_compute in Hn. apply Hn. reflexivity.
    - intros [[_ Hl] | [Hl _]]; vm_compute in Hl; discriminate Hl. }
  vm_compute in E. discriminate E.
Qed.

(** In binary64 [4.4 - 0.5] is [3.9000000000000004]: a pH of 3.9 is
    outside the margin of a crop whose interval starts at 4.4. *)
Lemma margin_is_rounded :
  _calculate_ph_score acid_soil_requirements (Some (soil_with_ph 3.9)) = 0.2
  /\ 4.4 - 0.5 <= 3.9.
Proof. split; [vm_compute; reflexivity | discriminate]. Qed.

(** C7, as amended: with the pH measured, the sub-score is 1.0 inside
    the interval and within 0.5 of the optimum, 0.8 inside the interval
    but farther from the optimum, 0.6 outside the interval but within 0.5
    of an edge, and 0.2 otherwise, where the distance to the optimum and
    the two margins are computed and compared in binary64, as the code
    does; pH 6.8 against {6.0, 7.5, 6.5} scores 1.0, and pH 3.9 against
    an interval that starts at 4.4 scores 0.2, since 4.4 - 0.5 is
    3.9000000000000004 there. *)
Theorem ph_score_four_tiers :
  forall (req : CropRequirements.t) (sp : SoilProfile) (ph : Q),
    measures ph sp ->
    ph_four_tiers req ph (_calculate_ph_score req (Some sp))
    /\ _calculate_ph_score scenario_A_requirements (Some (soil_with_ph 6.8)) = 1.0
    /\ _calculate_ph_score acid_soil_requirements (Some (soil_with_ph 3.9)) = 0.2.
Proof.
  intros req sp ph Hm. split; [|split; vm_compute; reflexivity].
  unfold measures in Hm.
  unfold ph_four_tiers, inside_interval, near_optimal, within_margins, le64.
  unfold _calculate_ph_score. rewrite Hm.
  destruct (Py.fle (CropRequirements.ph_min req) ph) eqn:E1;
    [apply fle_true in E1 | apply fle_false in E1];
    (destruct (Py.fle ph (CropRequirements.ph_max req)) eqn:E2;
      [apply fle_true in E2 | apply fle_false in E2]);
    cbn [andb];
    try (destruct (Py.fle (Qabs (Py.fsub ph (CropRequirements.ph_optimal req))) 0.5)
           eqn:E3; [apply fle_true in E3 | apply fle_false in E3]);
    try (destruct (Py.fle (Py.fsub (CropRequirements.ph_min req) 0.5) ph) eqn:E4;
          [apply fle_true in E4 | apply fle_false in E4];
         (destruct (Py.fle ph (Py.fadd (CropRequirements.ph_max req) 0.5)) eqn:E5;
           [apply fle_true in E5 | apply fle_false in E5]);
         cbn [andb]);
    repeat split; intros; try reflexivity; exfalso; intuition (try absurd_order).
Qed.

Lemma ph_score_four_tiers_witness :
  measures 7.5 (soil_with_ph 7.5)
  /\ ph_four_tiers wide_ph_requirements 7.5
       (_calculate_ph_score wide_ph_requirements (Some (soil_with_ph 7.5))).
Proof.
  split; [reflexivity|].
  apply (ph_score_four_tiers wide_ph_requirements (soil_with_ph 7.5) 7.5).
  reflexivity.
Defined.

(** ** Water availability *)

Lemma band_exists (total : Q) : exists b, in_band total b.
Proof.
  destruct (Qlt_le_dec total 50); [exists band_below_50; assumption|].
  destruct (Qlt_le_dec total 100); [exists band_50_100; split; assumption|].
  destruct (Qlt_le_dec total 150); [exists band_100_150; split; assumption|].
  exists band_150_up; assumption.
Qed.

Lemma stress_of_band (total : Q) (b : RainBand) :
  in_band total b -> calculate_water_stress_index total = band_stress b.
Proof.
  unfold calculate_water_stress_index.
  destruct b; simpl; intros H;
    destruct (Py.ge total 150) eqn:E1; reflect_cmp; try reflexivity; try lra;
    destruct (Py.ge total 100) eqn:E2; reflect_cmp; try reflexivity; try lra;
    destruct (Py.ge total 50) eqn:E3; reflect_cmp; try reflexivity; lra.
Qed.

Lemma stress_vs_tolerance_decays (stress tolerance : Q) :
  decayed stress tolerance (stress_vs_tolerance stress tolerance).
Proof.
  unfold decayed, stress_vs_tolerance.
  destruct (Py.le stress tolerance) eqn:E1; reflect_cmp;
    [repeat split; intros; try reflexivity; lra|].
  destruct (Py.le stress (tolerance + 0.2)) eqn:E2; reflect_cmp;
    [repeat split; intros; try reflexivity; lra|].
  destruct (Py.le stress (tolerance + 0.4)) eqn:E3; reflect_cmp;
    repeat split; intros; try reflexivity; lra.
Qed.

(** C6: with rainfall records present, the water-availability sub-score
    takes the stress 0.0, 0.3, 0.6 or 0.9 of the band of the 30-day total
    (from 150mm, from 100mm, from 50mm, below), the tolerance 0.8, 0.5 or
    0.2 of the crop's tier (low, medium, high), and falls from 1.0 by 0.3
    for every 0.2 by which the stress exceeds the tolerance; a total of
    40mm has stress 0.9. *)
Theorem water_availability_score_bands :
  forall (req : CropRequirements.t) (rd : RainfallData) (b : RainBand),
    records rd <> [] ->
    in_band (get_total_precipitation rd 30) b ->
    let stress := calculate_water_stress_index (get_total_precipitation rd 30) in
    let tolerance := stress_tolerance (CropRequirements.water_requirement req) in
    let score := _calculate_water_availability_score req (Some rd) in
    stress = band_stress b
    /\ tolerance = match CropRequirements.water_requirement req with
                   | LOW => 0.8 | MEDIUM => 0.5 | HIGH => 0.2
                   end
    /\ decayed stress tolerance score
    /\ score = water_table b (CropRequirements.water_requirement req)
    /\ calculate_water_stress_index 40 = 0.9.
Proof.
  intros req rd b Hrec Hband stress tolerance score.
  assert (Hs : stress = band_stress b) by (apply stress_of_band; exact Hband).
  assert (Hscore : score = stress_vs_tolerance stress tolerance).
  { unfold score, _calculate_water_availability_score.
    destruct (records rd) eqn:E; [contradiction|reflexivity]. }
  split; [exact Hs|].
  split; [unfold tolerance; destruct (CropRequirements.water_requirement req); reflexivity|].
  split; [rewrite Hscore; apply stress_vs_tolerance_decays|].
  split; [|reflexivity].
  rewrite Hscore, Hs. unfold tolerance.
  destruct b, (CropRequirements.water_requirement req); reflexivity.
Qed.

Lemma water_availability_score_bands_witness :
  _calculate_water_availability_score scenario_A_requirements
    (Some (one_day_of_rain 40)) = 0.4.
Proof.
  assert (Hrec : records (one_day_of_rain 40) <> []) by discriminate.
  assert (Hband : in_band (get_total_precipitation (one_day_of_rain 40) 30) band_below_50)
    by reflexivity.
  exact (proj1 (proj2 (proj2 (proj2
    (water_availability_score_bands scenario_A_requirements
       (one_day_of_rain 40) band_below_50 Hrec Hband))))).
Defined.

(** ** Missing data *)

(** C2: whatever the crop and the snapshot, the scorer returns a
    breakdown with all five sub-scores, and a sub-score is 0.5 whenever
    the snapshot lacks the field it reads: the soil profile or its pH, the
    weather data, the rainfall data or its records, the soil profile or
    its texture. *)
Theorem missing_data_scores_neutral :
  forall (self : CropMatcher) (req : CropRequirements.t) (d : LocationData),
    let bd := snd (calculate_suitability_score self req d) in
    Py.keys bd = sub_score_names
    /\ (soil_ph_absent d -> sub_score bd "soil_ph_score" = Some 0.5)
    /\ (weather_absent d -> sub_score bd "temperature_score" = Some 0.5)
    /\ (rainfall_absent d -> sub_score bd "rainfall_score" = Some 0.5)
    /\ (soil_texture_absent d -> sub_score bd "soil_type_score" = Some 0.5)
    /\ (rainfall_absent d -> sub_score bd "water_availability_score" = Some 0.5).
Proof.
  intros self req d bd. unfold bd, calculate_suitability_score, sub_score. simpl.
  split; [reflexivity|].
  split.
  { intros [H | (sp & H & Hph)]; rewrite H; simpl; [reflexivity|].
    rewrite Hph. reflexivity. }
  split.
  { intros H. unfold weather_absent in H. rewrite H. reflexivity. }
  split.
  { intros [H | (rd & H & Hrec)]; rewrite H; simpl; [reflexivity|].
    unfold _calculate_rainfall_score. rewrite Hrec. reflexivity. }
  split.
  { intros [H | (sp & H & Htx)]; rewrite H; simpl; [reflexivity|].
    rewrite Htx. reflexivity. }
  intros [H | (rd & H & Hrec)]; rewrite H; simpl; [reflexivity|].
  unfold _calculate_water_availability_score. rewrite Hrec. reflexivity.
Qed.

Lemma missing_data_scores_neutral_witness :
  sub_score
    (snd (calculate_suitability_score
            {| crop_database := {| crop_requirements := [] |};
               scoring_weights := default_scoring_weights |}
            scenario_A_requirements bare_snapshot))
    "soil_ph_score" = Some 0.5.
Proof.
  apply (missing_data_scores_neutral
           {| crop_database := {| crop_requirements := [] |};
              scoring_weights := default_scoring_weights |}
           scenario_A_requirements bare_snapshot).
  left. reflexivity.
Defined.

(** ** How recommendations are built *)

Lemma field_ge_le_some (lo hi v v' : Q) : field_ge_le lo hi v = Some v' -> v' = v.
Proof.
  unfold field_ge_le. destruct (Py.le lo v && Py.le v hi); congruence.
Qed.

Lemma validate_risk_level_some (v v' : string) : validate_risk_level v = Some v' -> v' = v.
Proof.
  unfold validate_risk_level. destruct (existsb _ _); congruence.
Qed.

Lemma bind_some {A B} (o : option A) (k : A -> option B) (b : B) :
  bind o k = Some b -> exists a, o = Some a /\ k a = Some b.
Proof.
  destruct o as [a|]; simpl; [|discriminate]. intros H. exists a. split; [reflexivity|exact H].
Qed.

Lemma CropRecommendation_new_fields
  (n : string) (s e p a b c d w : Q) (rl : string) (rf : list string)
  (r : CropRecommendation.t) :
  CropRecommendation_new n s e p a b c d w rl rf = Some r ->
  r = {| CropRecommendation.crop_name := n;
         CropRecommendation.suitability_score := s;
         CropRecommendation.expected_profit_per_acre := e;
         CropRecommendation.profitability_score := p;
         CropRecommendation.soil_ph_score := a;
         CropRecommendation.temperature_score := b;
         CropRecommendation.rainfall_score := c;
         CropRecommendation.soil_type_score := d;
         CropRecommendation.water_availability_score := w;
         CropRecommendation.risk_level := rl;
         CropRecommendation.risk_factors := rf |}.
Proof.
  unfold CropRecommendation_new. intros H.
  repeat match type of H with
  | bind _ _ = Some _ =>
      apply bind_some in H; destruct H as (? & ?Hf & H);
      first [apply field_ge_le_some in Hf | apply validate_risk_level_some in Hf]; subst
  end.
  injection H as <-. reflexivity.
Qed.

Lemma score_crops_built (self : CropMatcher) (d : LocationData) (min_score : Q) :
  forall (all_crops : list string) (recs : list CropRecommendation.t),
    score_crops self d min_score all_crops = Some recs ->
    Forall (built_from self d) recs.
Proof.
  induction all_crops as [|crop_name rest IH]; intros recs H; cbn [score_crops] in H.
  - injection H as <-. constructor.
  - destruct (get_crop_requirements (crop_database self) crop_name) as [req|] eqn:Ereq;
      [|apply IH; exact H].
    destruct (calculate_suitability_score self req d) as [s bd] eqn:Esb.
    destruct (Py.lt s min_score); [apply IH; exact H|].
    apply bind_some in H. destruct H as (r & Hr & H).
    apply bind_some in H. destruct H as (rs & Hrs & H).
    injection H as <-. constructor; [|apply IH; exact Hrs].
    apply CropRecommendation_new_fields in Hr. subst r.
    exists req.
    cbn -[calculate_suitability_score _calculate_profitability_score
          _calculate_expected_profit _calculate_risk_level _get_risk_factors
          Py.get_default].
    rewrite Esb. repeat split; try reflexivity. exact Ereq.
Qed.

Lemma In_insert_desc {A} (key : A -> Q) (x y : A) (l : list A) :
  In y (insert_desc key x l) <-> y = x \/ In y l.
Proof.
  induction l as [|z r IH]; simpl.
  - intuition.
  - destruct (Py.lt (key x) (key z)); simpl; rewrite ?IH; intuition.
Qed.

Lemma In_sort_desc {A} (key : A -> Q) (y : A) (l : list A) :
  In y (sort_desc key l) <-> In y l.
Proof.
  induction l as [|x r IH]; simpl; [reflexivity|].
  rewrite In_insert_desc, IH. intuition.
Qed.

Lemma In_prefix {A} (y : A) : forall (n : nat) (l : list A), In y (firstn n l) -> In y l.
Proof.
  induction n as [|n IH]; intros [|x l]; simpl; try tauto.
  intros [H | H]; [left; exact H | right; apply IH; exact H].
Qed.

Lemma In_take {A} (n : Z) (y : A) (l : list A) : In y (Py.take n l) -> In y l.
Proof.
  unfold Py.take. destruct (n <? 0)%Z; apply In_prefix.
Qed.

Lemma recommendations_built (self : CropMatcher) (d : LocationData)
  (max_crops : Z) (min_score : Q) (r : CropRecommendation.t) :
  In r (get_crop_recommendations self d max_crops min_score) -> built_from self d r.
Proof.
  unfold get_crop_recommendations.
  destruct (score_crops self d min_score (get_all_crops (crop_database self)))
    as [recs|] eqn:E; [|intros []].
  intros H. apply In_take, In_sort_desc in H.
  apply score_crops_built in E. rewrite Forall_forall in E. apply E. exact H.
Qed.

(** ** Profitability *)

Lemma clamp01_comp (x y : Q) : x == y -> clamp01 x == clamp01 y.
Proof.
  intros E. unfold clamp01.
  destruct (Py.lt x 0) eqn:Ex0, (Py.lt y 0) eqn:Ey0; reflect_cmp; try lra;
    destruct (Py.lt 1 x) eqn:Ex1, (Py.lt 1 y) eqn:Ey1; reflect_cmp; lra.
Qed.

Lemma max_min_is_clamp01 (x : Q) : Qmax 0.0 (Qmin x 1.0) == clamp01 x.
Proof.
  unfold clamp01.
  destruct (Q.min_spec_le x 1.0) as [[Hm Em] | [Hm Em]];
  destruct (Q.max_spec_le 0.0 (Qmin x 1.0)) as [[HM EM] | [HM EM]];
    rewrite EM; rewrite Em in *;
    destruct (Py.lt x 0) eqn:E0; reflect_cmp; try lra;
    destruct (Py.lt 1 x) eqn:E1; reflect_cmp; lra.
Qed.

Lemma clamp01_bounds (x : Q) : 0 <= clamp01 x /\ clamp01 x <= 1.
Proof.
  unfold clamp01.
  destruct (Py.lt x 0) eqn:E0; reflect_cmp; [lra|].
  destruct (Py.lt 1 x) eqn:E1; reflect_cmp; lra.
Qed.

(** A score of exactly zero is replaced like a missing one: the matcher
    writes [score or 0.5]. *)
Lemma zero_profitability_becomes_half
  (name : string) (d : LocationData) (req : CropRequirements.t) (mp : MarketPrices) (p : Q) :
  market_prices d = Some mp ->
  calculate_profitability_score mp name (CropRequirements.typical_yield_per_acre req)
    = Some p ->
  _calculate_profitability_score name d req = (if Qeq_bool p 0 then 0.5 else p).
Proof.
  intros Hm Hp. unfold _calculate_profitability_score. rewrite Hm, Hp.
  unfold or_half, Py.truthy. destruct (Qeq_bool p 0); reflexivity.
Qed.

(** Wheat that sells for nothing has a normalised profit of 0, but its
    recommendation carries a profitability score of 0.5. *)
Lemma worthless_crop_scores_half :
  exists r,
    get_crop_recommendations default_matcher glut_snapshot 5 0.3 = [r]
    /\ ~ profitability_is_normalized_profit free_wheat_analysis scenario_A_requirements r.
Proof.
  eexists. split; [vm_compute; reflexivity|].
  intros (m & Hm & H). simpl in Hm. subst m. vm_compute in H. discriminate H.
Qed.

(** C8, as amended: for a crop whose price analysis is present,
    [calculate_profitability_score] returns
    current_price * yield * m * (1 - volatility * 0.3) divided by the
    ceiling 100000 and clamped to [0, 1], where m is 1.2 for a rising,
    0.8 for a falling, 0.9 for a volatile and 1.0 for a stable trend; the
    profitability score of the crop's recommendation is that value for
    the crop's typical yield, except that a value of exactly 0 is
    replaced by 0.5; and the expected profit of the recommendation is
    typical_yield * base_price * its profitability score.  The products
    and the quotient are the binary64 ones, taken from left to right. *)
Theorem profitability_and_expected_profit :
  forall (mp : MarketPrices) (name : string) (yield_per_acre : Q) (a : PriceAnalysis.t),
    get_crop_analysis mp name = Some a ->
    exists m,
      specified_multiplier (PriceAnalysis.price_trend a) m
      /\ (exists p,
            calculate_profitability_score mp name yield_per_acre = Some p
            /\ p == normalized_profit a yield_per_acre m
            /\ 0 <= p <= 1)
      /\ (forall self d max_crops min_score r req,
            In r (get_crop_recommendations self d max_crops min_score) ->
            CropRecommendation.crop_name r = name ->
            market_prices d = Some mp ->
            get_crop_requirements (crop_database self) name = Some req ->
            let f := normalized_profit a (CropRequirements.typical_yield_per_acre req) m in
            (~ f == 0 -> CropRecommendation.profitability_score r == f)
            /\ (f == 0 -> CropRecommendation.profitability_score r == 0.5)
            /\ CropRecommendation.expected_profit_per_acre r
               = Py.fmul (Py.fmul (CropRequirements.typical_yield_per_acre req)
                                  (CropRequirements.base_market_price_per_kg req))
                         (CropRecommendation.profitability_score r)).
Proof.
  intros mp name yield_per_acre a Ha.
  exists (trend_multiplier (PriceAnalysis.price_trend a)).
  assert (Hf : forall y,
             exists p,
               calculate_profitability_score mp name y = Some p
               /\ p == normalized_profit a y (trend_multiplier (PriceAnalysis.price_trend a))
               /\ 0 <= p <= 1).
  { intros y. unfold calculate_profitability_score. rewrite Ha.
    eexists. split; [reflexivity|]. split.
    - rewrite max_min_is_clamp01. unfold normalized_profit, profit_ceiling.
      apply clamp01_comp. reflexivity.
    - rewrite max_min_is_clamp01. apply clamp01_bounds. }
  split; [destruct (PriceAnalysis.price_trend a); reflexivity|].
  split; [apply Hf|].
  intros self d max_crops min_score r req Hr Hname Hm Hreq f.
  apply recommendations_built in Hr. destruct Hr as (req' & Hreq' & Hb).
  rewrite Hname, Hreq in Hreq'. injection Hreq' as <-.
  destruct Hb as (_ & Hp & He & _).
  destruct (Hf (CropRequirements.typical_yield_per_acre req)) as (p & Ep & Epf & _).
  fold f in Epf. rewrite Hname in Hp.
  rewrite (zero_profitability_becomes_half name d req mp p Hm Ep) in Hp.
  split; [|split].
  - intros Hnz. rewrite Hp. destruct (Qeq_bool p 0) eqn:E; [|exact Epf].
    apply Qeq_bool_iff in E. exfalso. apply Hnz. rewrite <- Epf. exact E.
  - intros Hz. rewrite Hp.
    assert (E : Qeq_bool p 0 = true) by (apply Qeq_bool_iff; rewrite Epf; exact Hz).
    rewrite E. reflexivity.
  - rewrite He. reflexivity.
Qed.

Lemma profitability_and_expected_profit_witness :
  exists m p,
    specified_multiplier RISING m
    /\ calculate_profitability_score wheat_market "wheat" 1800 = Some p
    /\ p == normalized_profit wheat_analysis 1800 m
    /\ 0 <= p <= 1.
Proof.
  assert (H : get_crop_analysis wheat_market "wheat" = Some wheat_analysis)
    by reflexivity.
  destruct (profitability_and_expected_profit wheat_market "wheat" 1800
              wheat_analysis H) as (m & Hm & (p & Hp) & _).
  exists m, p. split; [exact Hm | exact Hp].
Defined.

(** ** Risk *)

(** The single recommendation has a soil-type score of 0.3 and an empty
    list of risk factors. *)
Lemma soil_type_risk_unnamed :
  ~ Forall names_every_low_sub_score
      (get_crop_recommendations clay_crop_matcher loamy_sand_snapshot 5 0.3).
Proof.
  intros H. vm_compute in H. apply Forall_inv in H. vm_compute in H. inversion H.
Qed.

Lemma breakdown_lookup (self : CropMatcher) (req : CropRequirements.t) (d : LocationData)
  (dflt : Q) :
  let bd := snd (calculate_suitability_score self req d) in
  Py.get_default bd "soil_ph_score" dflt = _calculate_ph_score req (soil_profile d)
  /\ Py.get_default bd "temperature_score" dflt
     = _calculate_temperature_score req (weather_data d)
  /\ Py.get_default bd "rainfall_score" dflt
     = _calculate_rainfall_score req (rainfall_data d)
  /\ Py.get_default bd "soil_type_score" dflt
     = _calculate_soil_type_score req (soil_profile d)
  /\ Py.get_default bd "water_availability_score" dflt
     = _calculate_water_availability_score req (rainfall_data d).
Proof.
  repeat split; reflexivity.
Qed.

Lemma risk_level_tiers (s p : Q) :
  risk_tier (blend s p) (_calculate_risk_level s p).
Proof.
  unfold risk_tier, _calculate_risk_level, le64, lt64. cbv zeta.
  rewrite <- (float_comp _ _ (combined_score_is_blend s p)).
  assert (H68 : Py.float 0.6 < Py.float 0.8) by (vm_compute; reflexivity).
  destruct (Py.fge (combined_score s p) 0.8) eqn:E1;
    [apply fge_true in E1 | apply fge_false in E1];
    [|destruct (Py.fge (combined_score s p) 0.6) eqn:E2;
       [apply fge_true in E2 | apply fge_false in E2]];
    set (c := Py.float (combined_score s p)) in *;
    set (t8 := Py.float 0.8) in *; set (t6 := Py.float 0.6) in *;
    clearbody c t8 t6;
    repeat split; intros; try reflexivity; exfalso; lra.
Qed.

(** C9, as amended: every recommendation has risk tier "low" when
    combined = 0.7*suitability + 0.3*profitability, computed in binary64
    as the code does, is at least 0.8, "medium" when it is at least 0.6
    and below 0.8, "high" otherwise; its risk-factor list names a factor
    for each of the pH, temperature, rainfall and water-availability
    sub-scores that is below 0.4, and nothing else: a low soil-type
    sub-score names no factor.  For a suitability and a profitability of
    0.8 the computed blend is 0.7999999999999999 and the tier is
    "medium". *)
Theorem risk_tier_and_factors :
  forall (self : CropMatcher) (d : LocationData) (max_crops : Z) (min_score : Q)
         (r : CropRecommendation.t),
    In r (get_crop_recommendations self d max_crops min_score) ->
    risk_tier (combined r) (CropRecommendation.risk_level r)
    /\ names_low_sub_scores r
    /\ _calculate_risk_level 0.8 0.8 = "medium"%string.
Proof.
  intros self d max_crops min_score r Hr.
  apply recommendations_built in Hr. destruct Hr as (req & _ & Hb).
  destruct Hb as (_ & _ & _ & Hph & Htemp & Hrain & _ & Hwater & Hlevel & Hfactors).
  split; [|split].
  - rewrite Hlevel. unfold combined.
    exact (risk_level_tiers (CropRecommendation.suitability_score r)
             (CropRecommendation.profitability_score r)).
  - unfold names_low_sub_scores. rewrite Hfactors, Hph, Htemp, Hrain, Hwater.
    destruct (breakdown_lookup self req d 0.0) as (-> & -> & -> & _ & ->).
    unfold _get_risk_factors.
    destruct (breakdown_lookup self req d 0) as (-> & -> & -> & _ & ->).
    set (a := _calculate_ph_score req (soil_profile d)).
    set (b := _calculate_temperature_score req (weather_data d)).
    set (c := _calculate_rainfall_score req (rainfall_data d)).
    set (w := _calculate_water_availability_score req (rainfall_data d)).
    cbv zeta. clearbody a b c w.
    destruct (Py.lt a 0.4) eqn:Ea, (Py.lt b 0.4) eqn:Eb, (Py.lt c 0.4) eqn:Ec,
             (Py.lt w 0.4) eqn:Ew; reflect_cmp; simpl;
      repeat split; intros; try lra; tauto.
  - vm_compute. reflexivity.
Qed.

Lemma risk_tier_and_factors_witness :
  exists r,
    In r (get_crop_recommendations clay_crop_matcher loamy_sand_snapshot 5 0.3)
    /\ risk_tier (combined r) (CropRecommendation.risk_level r)
    /\ names_low_sub_scores r.
Proof.
  assert (H : exists r,
             In r (get_crop_recommendations clay_crop_matcher loamy_sand_snapshot 5 0.3)).
  { eexists. vm_compute. left. reflexivity. }
  destruct H as (r & H). exists r. split; [exact H|].
  destruct (risk_tier_and_factors clay_crop_matcher loamy_sand_snapshot 5 0.3 r H)
    as (A & B & _).
  split; assumption.
Defined.

(** ** Coordinates *)

Lemma tiny_rejected (v : Q) : tiny v -> validate_coordinates v = None.
Proof.
  intros [H0 H1]. unfold validate_coordinates.
  apply gt_true in H0. apply lt_true in H1. rewrite H0, H1. reflexivity.
Qed.

Lemma not_tiny_rounded (v : Q) : ~ tiny v -> validate_coordinates v = Some (Py.round v 6).
Proof.
  intros H. unfold validate_coordinates.
  destruct (Py.gt (Qabs v) 0 && Py.lt (Qabs v) 0.0001) eqn:E; [|reflexivity].
  reflect_cmp. exfalso. apply H. split; assumption.
Qed.

Lemma in_range_passes (lat lon : Q) :
  in_range lat lon ->
  _validate_coordinates lat lon = true
  /\ field_ge_le (-90) 90 lat = Some lat
  /\ field_ge_le (-180) 180 lon = Some lon.
Proof.
  intros [[H1 H2] [H3 H4]]. unfold _validate_coordinates, field_ge_le.
  apply le_true in H1, H2, H3, H4. rewrite H1, H2, H3, H4. repeat split; reflexivity.
Qed.

(** C10: for latitude and longitude inside the documented ranges, the
    range check of the pipeline passes; if one of them is nonzero and
    smaller than 0.0001 in absolute value, [Coordinates] rejects the pair
    and [fetch_location_data] raises on a cache miss, before any client is
    awaited; otherwise [Coordinates] accepts the pair, each component
    rounded to six decimal places. *)
Theorem tiny_coordinates_raise :
  forall (self : DataPipeline) (clock : Clock) (clients : Clients) (lat lon : Q),
    in_range lat lon ->
    _validate_coordinates lat lon = true
    /\ (tiny lat \/ tiny lon ->
        Coordinates_new lat lon = None
        /\ (cache_miss self (now_at_lookup clock) lat lon ->
            exists self',
              fetch_location_data self clock clients lat lon
              = (Raised ValidationError, self', [])))
    /\ (~ tiny lat -> ~ tiny lon ->
        Coordinates_new lat lon
        = Some {| latitude := Py.round lat 6; longitude := Py.round lon 6 |}).
Proof.
  intros self clock clients lat lon Hr.
  destruct (in_range_passes lat lon Hr) as (Hv & Hlat & Hlon).
  split; [exact Hv|]. split.
  - intros Ht.
    assert (Hc : Coordinates_new lat lon = None).
    { unfold Coordinates_new. rewrite Hlat, Hlon. simpl.
      destruct Ht as [Ht | Ht].
      - rewrite (tiny_rejected lat Ht). reflexivity.
      - rewrite (tiny_rejected lon Ht).
        destruct (validate_coordinates lat); reflexivity. }
    split; [exact Hc|].
    intros Hmiss. unfold cache_miss in Hmiss.
    unfold fetch_location_data. rewrite Hv. simpl.
    destruct (_get_cached_data self (now_at_lookup clock) lat lon) as [c self'].
    simpl in Hmiss. subst c. rewrite Hc. exists self'. reflexivity.
  - intros Hnlat Hnlon. unfold Coordinates_new. rewrite Hlat, Hlon. simpl.
    rewrite (not_tiny_rounded lat Hnlat), (not_tiny_rounded lon Hnlon). reflexivity.
Qed.

Lemma tiny_coordinates_raise_witness :
  in_range 0.00005 73.8567
  /\ tiny 0.00005
  /\ cache_miss fresh_pipeline 0 0.00005 73.8567
  /\ exists self',
       fetch_location_data fresh_pipeline (at_time 0) all_down 0.00005 73.8567
       = (Raised ValidationError, self', []).
Proof.
  assert (Hr : in_range 0.00005 73.8567).
  { unfold in_range. repeat split; vm_compute; discriminate. }
  assert (Ht : tiny 0.00005) by (split; reflexivity).
  assert (Hm : cache_miss fresh_pipeline 0 0.00005 73.8567) by reflexivity.
  split; [exact Hr|]. split; [exact Ht|]. split; [exact Hm|].
  exact (proj2 (proj1 (proj2
    (tiny_coordinates_raise fresh_pipeline (at_time 0) all_down 0.00005 73.8567 Hr))
    (or_introl Ht)) Hm).
Defined.

(** ** Loading the catalogue *)

(** When the validator of [ph_max] runs, [values] holds [ph_min] but not
    yet [ph_optimal], which is declared after [ph_max]: the check of the
    order is skipped, whatever the three values are. *)
Lemma ph_order_not_checked (ph_min v : Q) :
  validate_ph_range v [("ph_min"%string, ph_min)] = Some v.
Proof. reflexivity. Qed.

(** The same holds for the temperatures. *)
Lemma temp_order_not_checked (ph_min ph_max ph_optimal temp_min v : Q) :
  validate_temp_range v
    [("ph_min", ph_min); ("ph_max", ph_max); ("ph_optimal", ph_optimal);
     ("temp_min_c", temp_min)]%string = Some v.
Proof. reflexivity. Qed.

(** The rainfall validator does see [rainfall_min_mm], and rejects. *)
Lemma rainfall_order_checked : load_entry yaml_dry = None.
Proof. reflexivity. Qed.

(** Loading never raises for a file that exists, and keeps going after
    an entry that is rejected. *)
Lemma loading_continues :
  loaded (_load_crop_data (Some [("dry", yaml_dry); ("wheat", yaml_wheat)]%string))
  = ["wheat"%string].
Proof. reflexivity. Qed.

(** C5, at the entry of scenario D: the entry "X" with [ph_min = 8.0]
    above [ph_optimal = 6.0] is not rejected; the loaded catalogue lists
    it. *)
Theorem inverted_ph_entry_is_loaded :
  kw_ph_optimal yaml_X < kw_ph_min yaml_X
  /\ load_entry yaml_X <> None
  /\ loaded (_load_crop_data (Some [("X", yaml_X); ("wheat", yaml_wheat)]%string))
     = ["X"; "wheat"]%string.
Proof.
  split; [reflexivity|]. split; [|reflexivity].
  vm_compute. discriminate.
Qed.

(** ** Ranking *)

Section StableSortFacts.
Context {A : Type} (key : A -> Q).

Lemma insert_desc_sorted (x : A) (l : list A) :
  StronglySorted (fun a b => key b <= key a) l ->
  StronglySorted (fun a b => key b <= key a) (insert_desc key x l).
Proof.
  induction 1 as [|y r Hr IH Hy]; simpl.
  - constructor; constructor.
  - destruct (Py.lt (key x) (key y)) eqn:E; reflect_cmp.
    + constructor; [exact IH|].
      apply Forall_forall. intros z Hz. apply In_insert_desc in Hz.
      destruct Hz as [-> | Hz].
      * apply Qlt_le_weak. exact E.
      * rewrite Forall_forall in Hy. apply Hy. exact Hz.
    + constructor; [constructor; assumption|].
      constructor; [exact E|].
      apply Forall_forall. intros z Hz. rewrite Forall_forall in Hy.
      apply Qle_trans with (key y); [apply Hy; exact Hz | exact E].
Qed.

Lemma sort_desc_sorted (l : list A) :
  StronglySorted (fun a b => key b <= key a) (sort_desc key l).
Proof.
  induction l as [|x r IH]; simpl; [constructor | apply insert_desc_sorted; exact IH].
Qed.

Lemma before_In (l : list A) (a b : A) : before l a b -> In a l /\ In b l.
Proof.
  induction 1 as [x l b Hb | x l a b _ [IHa IHb]]; simpl; tauto.
Qed.

Lemma before_insert_desc (x a b : A) (l : list A) :
  before (insert_desc key x l) a b ->
  (a = x /\ In b l) \/ (b = x /\ In a l /\ key x < key a) \/ before l a b.
Proof.
  induction l as [|y r IH]; simpl; intros H.
  - inversion H as [? ? ? Hb | ? ? ? ? Hb]; subst; [destruct Hb | inversion Hb].
  - destruct (Py.lt (key x) (key y)) eqn:E; reflect_cmp.
    + inversion H as [? ? ? Hb | ? ? ? ? Hb]; subst.
      * apply In_insert_desc in Hb. destruct Hb as [-> | Hb].
        -- right; left. simpl. auto.
        -- right; right. constructor. exact Hb.
      * destruct (IH Hb) as [[-> Hin] | [(-> & Hin & Hlt) | Hbef]].
        -- left. simpl. auto.
        -- right; left. simpl. auto.
        -- right; right. apply before_tail. exact Hbef.
    + inversion H as [? ? ? Hb | ? ? ? ? Hb]; subst.
      * left. auto.
      * right; right. exact Hb.
Qed.

(** Stability: two elements with equal keys keep their order. *)
Lemma sort_desc_stable (l : list A) (a b : A) :
  before (sort_desc key l) a b -> key a == key b -> before l a b.
Proof.
  induction l as [|x r IH]; simpl; intros H E.
  - inversion H.
  - apply before_insert_desc in H.
    destruct H as [[-> Hin] | [(-> & Hin & Hlt) | Hbef]].
    + constructor. apply In_sort_desc in Hin. exact Hin.
    + exfalso. rewrite E in Hlt. apply (Qlt_irrefl _ Hlt).
    + apply before_tail. apply IH; assumption.
Qed.
End StableSortFacts.

Lemma sorted_prefix {A} (R : A -> A -> Prop) :
  forall (n : nat) (l : list A), StronglySorted R l -> StronglySorted R (firstn n l).
Proof.
  induction n as [|n IH]; intros l H; [constructor|].
  destruct H as [|x l Hl Hx]; simpl; [constructor|].
  constructor; [apply IH; exact Hl|].
  apply Forall_forall. intros z Hz. rewrite Forall_forall in Hx.
  apply Hx. apply In_prefix in Hz. exact Hz.
Qed.

Lemma sorted_weaken {A} (R S : A -> A -> Prop) (l : list A) :
  (forall a b, R a b -> S a b) -> StronglySorted R l -> StronglySorted S l.
Proof.
  intros HRS. induction 1 as [|x l Hl IH Hx]; constructor; [exact IH|].
  apply Forall_forall. intros z Hz. rewrite Forall_forall in Hx. apply HRS, Hx, Hz.
Qed.

Lemma before_prefix {A} (a b : A) :
  forall (n : nat) (l : list A), before (firstn n l) a b -> before l a b.
Proof.
  induction n as [|n IH]; intros [|x l] H; simpl in H; try solve [inversion H].
  inversion H as [? ? ? Hb | ? ? ? ? Hb]; subst.
  - constructor. apply In_prefix in Hb. exact Hb.
  - apply before_tail. apply IH. exact Hb.
Qed.

Lemma before_take {A} (n : Z) (a b : A) (l : list A) :
  before (Py.take n l) a b -> before l a b.
Proof.
  unfold Py.take. destruct (n <? 0)%Z; apply before_prefix.
Qed.

Lemma sort_key_combined (r : CropRecommendation.t) : sort_key r == combined r.
Proof. unfold sort_key, combined. apply combined_score_is_blend. Qed.

Lemma score_crops_names (self : CropMatcher) (d : LocationData) (min_score : Q) :
  forall (all_crops : list string) (recs : list CropRecommendation.t) (b : CropRecommendation.t),
    score_crops self d min_score all_crops = Some recs ->
    In b recs -> In (CropRecommendation.crop_name b) all_crops.
Proof.
  induction all_crops as [|crop_name rest IH]; intros recs b H Hb; cbn [score_crops] in H.
  - injection H as <-. destruct Hb.
  - destruct (get_crop_requirements (crop_database self) crop_name) as [req|];
      [|right; apply (IH recs); assumption].
    destruct (calculate_suitability_score self req d) as [s bd].
    destruct (Py.lt s min_score); [right; apply (IH recs); assumption|].
    apply bind_some in H. destruct H as (r & Hr & H).
    apply bind_some in H. destruct H as (rs & Hrs & H).
    injection H as <-. apply CropRecommendation_new_fields in Hr.
    destruct Hb as [<- | Hb]; [left; subst r; reflexivity|].
    right. apply (IH rs); assumption.
Qed.

(** The recommendations come out of the scoring loop in the order of the
    catalogue. *)
Lemma score_crops_order (self : CropMatcher) (d : LocationData) (min_score : Q) :
  forall (all_crops : list string) (recs : list CropRecommendation.t)
         (a b : CropRecommendation.t),
    score_crops self d min_score all_crops = Some recs ->
    before recs a b ->
    before all_crops (CropRecommendation.crop_name a) (CropRecommendation.crop_name b).
Proof.
  induction all_crops as [|crop_name rest IH]; intros recs a b H Hab; cbn [score_crops] in H.
  - injection H as <-. inversion Hab.
  - destruct (get_crop_requirements (crop_database self) crop_name) as [req|];
      [|apply before_tail; apply (IH recs); assumption].
    destruct (calculate_suitability_score self req d) as [s bd].
    destruct (Py.lt s min_score); [apply before_tail; apply (IH recs); assumption|].
    apply bind_some in H. destruct H as (r & Hr & H).
    apply bind_some in H. destruct H as (rs & Hrs & H).
    injection H as <-. apply CropRecommendation_new_fields in Hr.
    inversion Hab as [? ? ? Hb | ? ? ? ? Hb]; subst.
    + simpl. constructor. apply (score_crops_names self d min_score rest rs); assumption.
    + apply before_tail. apply (IH rs); assumption.
Qed.

(** Wheat and barley tie at 0.5 on a bare snapshot, and wheat, listed
    first in the catalogue, stays first. *)
Lemma ties_not_alphabetical :
  ~ ties_alphabetical (get_crop_recommendations wheat_then_barley bare_snapshot 5 0.3).
Proof.
  intros H.
  assert (E : exists w b,
             get_crop_recommendations wheat_then_barley bare_snapshot 5 0.3 = [w; b]
             /\ CropRecommendation.crop_name w = "wheat"%string
             /\ CropRecommendation.crop_name b = "barley"%string
             /\ combined w == combined b).
  { eexists. eexists. split; [vm_compute; reflexivity|].
    split; [reflexivity|]. split; [reflexivity | vm_compute; reflexivity]. }
  destruct E as (w & b & E & Ew & Eb & Ec). rewrite E in H.
  specialize (H w b (before_head w [b] b (or_introl eq_refl)) Ec).
  rewrite Ew, Eb in H. vm_compute in H. discriminate H.
Qed.

(** C3, as amended: the list returned by [get_crop_recommendations] is
    in descending order of combined = 0.7*suitability + 0.3*profitability,
    computed in binary64 as the code does, and two recommendations with
    equal combined score appear in the order in which the catalogue lists
    their crops.  Two blends that are equal as decimals need not tie: the
    sort key of 0.65 with 0.2 is 0.5149999999999999 in binary64, below
    the 0.515 of 0.59 with 0.34. *)
Theorem ranking_descending_and_stable :
  forall (self : CropMatcher) (d : LocationData) (max_crops : Z) (min_score : Q),
    descending (get_crop_recommendations self d max_crops min_score)
    /\ ties_in_catalogue_order (get_all_crops (crop_database self))
         (get_crop_recommendations self d max_crops min_score)
    /\ combined_score 0.65 0.2 < combined_score 0.59 0.34.
Proof.
  intros self d max_crops min_score.
  assert (Hpair :
            descending (get_crop_recommendations self d max_crops min_score)
            /\ ties_in_catalogue_order (get_all_crops (crop_database self))
                 (get_crop_recommendations self d max_crops min_score));
    [|destruct Hpair as [Hd Ht]; split; [exact Hd|];
      split; [exact Ht | vm_compute; reflexivity]].
  unfold get_crop_recommendations.
  destruct (score_crops self d min_score (get_all_crops (crop_database self)))
    as [recs|] eqn:E.
  - split.
    + unfold descending, Py.take.
      assert (Hs : StronglySorted (fun a b => combined b <= combined a)
                     (sort_desc sort_key recs)).
      { apply sorted_weaken with (R := fun a b => sort_key b <= sort_key a).
        - intros a b Hab. rewrite <- !sort_key_combined. exact Hab.
        - apply sort_desc_sorted. }
      destruct (max_crops <? 0)%Z; apply sorted_prefix; exact Hs.
    + intros a b Hab Hc.
      apply before_take in Hab. apply sort_desc_stable in Hab.
      * apply (score_crops_order self d min_score _ recs); assumption.
      * rewrite !sort_key_combined. exact Hc.
  - split; [constructor|]. intros a b Hab. inversion Hab.
Qed.

(** ** Partial failure *)

Lemma failing_client_gives_none {M} (b : Behaviour M) :
  fails b -> process_result (_fetch_with_timeout (_fetch_data b)) = None.
Proof. intros [-> | ->]; reflexivity. Qed.

Lemma delivering_client_gives_model {M} (b : Behaviour M) (m : M) :
  delivers b m -> process_result (_fetch_with_timeout (_fetch_data b)) = Some m.
Proof. intros ->. reflexivity. Qed.

(** What a call that awaited the clients went through. *)
Lemma fetch_awaited (self self' : DataPipeline) (clock : Clock) (clients : Clients)
  (lat lon : Q) (r : Result LocationData) (s : Source) (tr : list Source) :
  fetch_location_data self clock clients lat lon = (r, self', s :: tr) ->
  exists c self0,
    _validate_coordinates lat lon = true
    /\ _get_cached_data self (now_at_lookup clock) lat lon = (None, self0)
    /\ Coordinates_new lat lon = Some c
    /\ r = Returned (assembled clock clients lat lon c)
    /\ self' = _cache_data self0 lat lon (assembled clock clients lat lon c).
Proof.
  unfold fetch_location_data.
  destruct (_validate_coordinates lat lon); [|discriminate]. simpl negb. cbv iota.
  destruct (_get_cached_data self (now_at_lookup clock) lat lon) as [[cached|] self0];
    [discriminate|].
  destruct (Coordinates_new lat lon) as [c|]; [|discriminate].
  intros H. injection H as <- <- _. exists c, self0. repeat split; reflexivity.
Qed.

(** C1: for coordinates that pass the range check, if the call awaits
    the four clients, one of them raises or times out, and the other
    three deliver, then the call returns a snapshot (it does not raise) in
    which the field of the failed source is [None] and each other field
    holds what its client delivered. *)
Theorem one_source_down :
  forall (self self' : DataPipeline) (clock : Clock) (clients : Clients) (lat lon : Q)
         (r : Result LocationData) (bad : Source),
    _validate_coordinates lat lon = true ->
    fetch_location_data self clock clients lat lon = (r, self', source_names) ->
    failed bad clients ->
    (forall s, s <> bad -> succeeded s clients) ->
    exists d,
      r = Returned d
      /\ field_absent bad d
      /\ (forall s, s <> bad -> field_delivered s clients d).
Proof.
  intros self self' clock clients lat lon r bad _ Hfetch Hbad Hothers.
  apply fetch_awaited in Hfetch. destruct Hfetch as (c & self0 & _ & _ & _ & -> & _).
  eexists. split; [reflexivity|]. split.
  - destruct bad; simpl in *; apply failing_client_gives_none; exact Hbad.
  - intros s Hs. specialize (Hothers s Hs).
    destruct s; simpl in *; destruct Hothers as (m & Hm); exists m;
      (split; [exact Hm | apply delivering_client_gives_model; exact Hm]).
Qed.

Lemma one_source_down_witness :
  exists d,
    fst (fst (fetch_location_data fresh_pipeline (at_time 0) scenario_C_clients
                18.5204 73.8567)) = Returned d
    /\ field_absent weather d
    /\ (forall s, s <> weather -> field_delivered s scenario_C_clients d).
Proof.
  assert (Hv : _validate_coordinates 18.5204 73.8567 = true) by reflexivity.
  assert (Hbad : failed weather scenario_C_clients) by (right; reflexivity).
  assert (Hothers : forall s, s <> weather -> succeeded s scenario_C_clients).
  { intros [] Hs; try (eexists; reflexivity). exfalso. apply Hs. reflexivity. }
  assert (Hfetch : exists r self',
             fetch_location_data fresh_pipeline (at_time 0) scenario_C_clients
               18.5204 73.8567 = (r, self', source_names)).
  { eexists. eexists. vm_compute. reflexivity. }
  destruct Hfetch as (r & self' & Hfetch).
  destruct (one_source_down fresh_pipeline self' (at_time 0) scenario_C_clients
              18.5204 73.8567 r weather Hv Hfetch Hbad Hothers) as (d & Hr & Hd).
  exists d. rewrite Hfetch. simpl. split; [exact Hr | exact Hd].
Defined.

(** ** Insertion-ordered dicts *)

Section DictFacts.
Context {K V : Type} (eqb : K -> K -> bool).
Hypothesis eqb_refl : forall k, eqb k k = true.
Hypothesis eqb_sym : forall a b, eqb a b = eqb b a.
Hypothesis eqb_trans : forall a b c, eqb a b = true -> eqb b c = true -> eqb a c = true.

Lemma eqb_neq_left (a b c : K) : eqb a b = true -> eqb b c = false -> eqb a c = false.
Proof.
  intros Hab Hbc. destruct (eqb a c) eqn:E; [|reflexivity].
  rewrite eqb_sym in Hab. rewrite (eqb_trans b a c Hab E) in Hbc. discriminate.
Qed.

Lemma get_compat (c : list (K * V)) (k k' : K) :
  eqb k k' = true -> Py.get eqb c k = Py.get eqb c k'.
Proof.
  intros E. induction c as [|[k0 v0] r IH]; simpl; [reflexivity|].
  destruct (eqb k0 k) eqn:E0.
  - rewrite (eqb_trans k0 k k' E0 E). reflexivity.
  - rewrite eqb_sym in E0. rewrite eqb_sym in E.
    assert (E1 : eqb k' k0 = false) by (apply (eqb_neq_left k' k k0); assumption).
    rewrite eqb_sym in E1. rewrite E1. exact IH.
Qed.

Lemma get_assign_same (c : list (K * V)) (k : K) (v : V) :
  Py.get eqb (Py.assign eqb c k v) k = Some v.
Proof.
  induction c as [|[k0 v0] r IH]; simpl.
  - rewrite eqb_refl. reflexivity.
  - destruct (eqb k0 k) eqn:E; simpl; rewrite E; [reflexivity | exact IH].
Qed.

Lemma get_del_other (c : list (K * V)) (k k' : K) :
  eqb k k' = false -> Py.get eqb (Py.del eqb c k) k' = Py.get eqb c k'.
Proof.
  intros E. induction c as [|[k0 v0] r IH]; simpl; [reflexivity|].
  destruct (eqb k0 k) eqn:E0; simpl.
  - rewrite (eqb_neq_left k0 k k' E0 E). reflexivity.
  - rewrite IH. reflexivity.
Qed.

Lemma assign_absent (c : list (K * V)) (k : K) (v : V) :
  Py.get eqb c k = None -> Py.assign eqb c k v = c ++ [(k, v)].
Proof.
  induction c as [|[k0 v0] r IH]; simpl; [reflexivity|].
  destruct (eqb k0 k); [discriminate|]. intros H. rewrite (IH H). reflexivity.
Qed.

Lemma get_none_keys (c : list (K * V)) (k : K) :
  Py.get eqb c k = None -> Forall (fun k' => eqb k' k = false) (Py.keys c).
Proof.
  induction c as [|[k0 v0] r IH]; simpl; [constructor|].
  destruct (eqb k0 k) eqn:E; [discriminate|].
  intros H. constructor; [exact E | apply IH; exact H].
Qed.

Lemma get_fold_del (ks : list K) (k : K) :
  Forall (fun k' => eqb k' k = false) ks ->
  forall c : list (K * V),
    Py.get eqb (fold_left (Py.del eqb) ks c) k = Py.get eqb c k.
Proof.
  induction 1 as [|k' ks Hk' _ IH]; intros c; simpl; [reflexivity|].
  rewrite IH. apply get_del_other. exact Hk'.
Qed.

Lemma get_In (c : list (K * V)) (k : K) (v : V) :
  Py.get eqb c k = Some v -> exists k', In (k', v) c.
Proof.
  induction c as [|[k0 v0] r IH]; simpl; [discriminate|].
  destruct (eqb k0 k).
  - intros H. injection H as <-. exists k0. left. reflexivity.
  - intros H. destruct (IH H) as (k' & Hk'). exists k'. right. exact Hk'.
Qed.

Lemma In_del (c : list (K * V)) (k : K) (e : K * V) : In e (Py.del eqb c k) -> In e c.
Proof.
  induction c as [|[k0 v0] r IH]; simpl; [tauto|].
  destruct (eqb k0 k); simpl; [tauto|]. intros [H | H]; [left; exact H | right; apply IH; exact H].
Qed.

Lemma In_fold_del (ks : list K) (e : K * V) :
  forall c : list (K * V), In e (fold_left (Py.del eqb) ks c) -> In e c.
Proof.
  induction ks as [|k ks IH]; intros c; simpl; [tauto|].
  intros H. apply IH in H. apply In_del in H. exact H.
Qed.

Lemma distinct_del (c : list (K * V)) (k : K) :
  distinct_keys eqb c -> distinct_keys eqb (Py.del eqb c k).
Proof.
  induction c as [|[k0 v0] r IH]; simpl; [tauto|].
  intros [H0 Hr]. destruct (eqb k0 k) eqn:E; simpl; [exact Hr|].
  split; [|apply IH; exact Hr].
  rewrite get_del_other; [exact H0|]. rewrite eqb_sym. exact E.
Qed.

Lemma distinct_fold_del (ks : list K) :
  forall c : list (K * V),
    distinct_keys eqb c -> distinct_keys eqb (fold_left (Py.del eqb) ks c).
Proof.
  induction ks as [|k ks IH]; intros c H; simpl; [exact H|].
  apply IH. apply distinct_del. exact H.
Qed.

(** Under [distinct_keys], [del d[k]] leaves no entry for [k]. *)
Lemma get_del_same (c : list (K * V)) (k : K) :
  distinct_keys eqb c -> Py.get eqb (Py.del eqb c k) k = None.
Proof.
  induction c as [|[k0 v0] r IH]; simpl; [reflexivity|].
  intros [H0 Hr]. destruct (eqb k0 k) eqn:E; simpl.
  - rewrite <- (get_compat r k0 k E). exact H0.
  - rewrite E. apply IH. exact Hr.
Qed.

Lemma distinct_append (c : list (K * V)) (k : K) (v : V) :
  distinct_keys eqb c -> Py.get eqb c k = None -> distinct_keys eqb (c ++ [(k, v)]).
Proof.
  induction c as [|[k0 v0] r IH]; simpl; [tauto|].
  intros [H0 Hr]. destruct (eqb k0 k) eqn:E; [discriminate|]. intros Hk.
  split; [|apply IH; assumption].
  rewrite <- (assign_absent r k v Hk).
  clear IH Hr. induction r as [|[k1 v1] r IH]; simpl in *.
  - rewrite eqb_sym, E. reflexivity.
  - destruct (eqb k1 k0) eqn:E1; [discriminate|].
    destruct (eqb k1 k) eqn:E2; [discriminate|].
    simpl. rewrite E1. apply IH; assumption.
Qed.
End DictFacts.

(** ** The cache *)

Lemma key_eqb_refl (k : CacheKey) : key_eqb k k = true.
Proof. unfold key_eqb. rewrite !Qeq_bool_refl. reflexivity. Qed.

Lemma Qeq_bool_comm (x y : Q) : Qeq_bool x y = Qeq_bool y x.
Proof.
  destruct (Qeq_bool x y) eqn:E, (Qeq_bool y x) eqn:E'; try reflexivity.
  - apply Qeq_bool_sym in E. congruence.
  - apply Qeq_bool_sym in E'. congruence.
Qed.

Lemma key_eqb_sym (a b : CacheKey) : key_eqb a b = key_eqb b a.
Proof.
  unfold key_eqb. rewrite (Qeq_bool_comm (fst a)), (Qeq_bool_comm (snd a)). reflexivity.
Qed.

Lemma key_eqb_trans (a b c : CacheKey) :
  key_eqb a b = true -> key_eqb b c = true -> key_eqb a c = true.
Proof.
  unfold key_eqb. rewrite !andb_true_iff. intros [H1 H2] [H3 H4]. split.
  - apply Qeq_bool_trans with (fst b); assumption.
  - apply Qeq_bool_trans with (snd b); assumption.
Qed.

Lemma lookup_miss (self self0 : DataPipeline) (now : Z) (lat lon : Q) :
  well_formed self ->
  _get_cached_data self now lat lon = (None, self0) ->
  well_formed self0
  /\ Py.get key_eqb (location_cache self0) (cache_key lat lon) = None
  /\ cache_ttl_days self0 = cache_ttl_days self.
Proof.
  intros [Hd Ht]. unfold _get_cached_data.
  destruct (Py.get key_eqb (location_cache self) (cache_key lat lon)) as [cached|] eqn:Eg.
  - destruct (timestamp cached) as [ts|] eqn:Ets.
    + destruct (now <? ts + timedelta_days (cache_ttl_days self))%Z; [discriminate|].
      intros H. injection H as <-. simpl. split; [split|split].
      * apply distinct_del; [apply key_eqb_sym | apply key_eqb_trans | exact Hd].
      * apply Forall_forall. intros e He. apply In_del in He.
        rewrite Forall_forall in Ht. apply Ht. exact He.
      * apply get_del_same; [apply key_eqb_sym | apply key_eqb_trans | exact Hd].
      * reflexivity.
    + exfalso. apply get_In in Eg. destruct Eg as (k' & Hin).
      rewrite Forall_forall in Ht. apply (Ht _ Hin). exact Ets.
  - intros H. injection H as <-. repeat split; assumption.
Qed.



Lemma prefix_of_append {A} (n : nat) (l : list A) (x : A) :
  (n <= List.length l)%nat -> firstn n (l ++ [x]) = firstn n l.
Proof.
  intros H. rewrite firstn_app.
  replace (n - List.length l)%nat with 0%nat by lia.
  simpl. apply app_nil_r.
Qed.

(** A snapshot stored under a key that was absent is found again: the
    eviction removes older keys only. *)
Lemma cache_data_holds (self : DataPipeline) (lat lon : Q) (d : LocationData) :
  well_formed self ->
  Py.get key_eqb (location_cache self) (cache_key lat lon) = None ->
  timestamp d <> None ->
  well_formed (_cache_data self lat lon d)
  /\ holds (_cache_data self lat lon d) lat lon d
  /\ cache_ttl_days (_cache_data self lat lon d) = cache_ttl_days self.
Proof.
  intros [Hd Ht] Habs Hstamp. unfold _cache_data, holds.
  rewrite (assign_absent key_eqb _ _ d Habs).
  set (k := cache_key lat lon) in *.
  set (old := location_cache self) in *.
  assert (Hd' : distinct_keys key_eqb (old ++ [(k, d)])).
  { apply distinct_append; [apply key_eqb_sym | assumption | assumption]. }
  assert (Ht' : Forall (fun e => timestamp (snd e) <> None) (old ++ [(k, d)])).
  { apply Forall_app. split; [exact Ht|]. constructor; [exact Hstamp | constructor]. }
  assert (Hg : Py.get key_eqb (old ++ [(k, d)]) k = Some d).
  { rewrite <- (assign_absent key_eqb old k d Habs).
    apply get_assign_same. apply key_eqb_refl. }
  destruct (Py.len (old ++ [(k, d)]) >? 100)%Z eqn:Elen; simpl.
  - split; [split|split].
    + apply distinct_fold_del; [apply key_eqb_sym | apply key_eqb_trans | exact Hd'].
    + apply Forall_forall. intros e He. apply In_fold_del in He.
      rewrite Forall_forall in Ht'. apply Ht'. exact He.
    + rewrite get_fold_del; [exact Hg | apply key_eqb_sym | apply key_eqb_trans |].
      unfold Py.take, Py.len, Py.keys. rewrite length_app. simpl List.length.
      destruct (Z.of_nat (List.length old + 1) - 100 <? 0)%Z eqn:Eneg.
      * apply Z.ltb_lt in Eneg. apply Z.gtb_lt in Elen. unfold Py.len in Elen.
        rewrite length_app in Elen. simpl in Elen. lia.
      * rewrite map_app. simpl map. rewrite prefix_of_append.
        -- apply Forall_forall. intros k' Hk'. apply In_prefix in Hk'.
           pose proof (get_none_keys key_eqb old k Habs) as Hall.
           rewrite Forall_forall in Hall. apply Hall. exact Hk'.
        -- rewrite length_map. lia.
    + reflexivity.
  - split; [split|split]; [exact Hd' | exact Ht' | exact Hg | reflexivity].
Qed.

(** Every call leaves the cache well formed. *)
Lemma fetch_keeps_well_formed (self : DataPipeline) (c : Call) :
  well_formed self -> well_formed (after_call self c).
Proof.
  intros Hwf. unfold after_call.
  destruct (fetch_location_data self (call_clock c) (call_clients c)
              (call_lat c) (call_lon c)) as [[r self'] tr] eqn:E.
  simpl. destruct tr as [|s tr].
  - unfold fetch_location_data in E.
    destruct (negb (_validate_coordinates (call_lat c) (call_lon c)));
      [injection E as _ <- ; exact Hwf|].
    destruct (_get_cached_data self (now_at_lookup (call_clock c)) (call_lat c) (call_lon c))
      as [[cached|] self0] eqn:Eg.
    + injection E as _ <-. unfold _get_cached_data in Eg.
      destruct (Py.get key_eqb (location_cache self) (cache_key (call_lat c) (call_lon c)))
        as [found|]; [|discriminate].
      destruct (timestamp found); [|discriminate].
      destruct (_ <? _)%Z; [|discriminate]. injection Eg as _ <-. exact Hwf.
    + destruct (Coordinates_new (call_lat c) (call_lon c)); [discriminate|].
      injection E as _ <-. apply (lookup_miss self self0 _ _ _ Hwf Eg).
  - apply fetch_awaited in E. destruct E as (co & self0 & _ & Eg & _ & _ & ->).
    destruct (lookup_miss self self0 _ _ _ Hwf Eg) as (Hwf0 & Habs & _).
    apply cache_data_holds; [exact Hwf0 | exact Habs | discriminate].
Qed.


Lemma run_reachable (calls : list Call) :
  forall self, reachable self -> reachable (run self calls).
Proof.
  unfold run. induction calls as [|c calls IH]; intros self H; simpl; [exact H|].
  apply IH. apply reach_fetch. exact H.
Qed.


(** * Further properties *)

(** ** Rounding *)

Lemma scale_positive (n : nat) : 0 < inject_Z (10 ^ Z.of_nat n).
Proof.
  change 0 with (inject_Z 0). rewrite <- Zlt_Qlt. apply Z.pow_pos_nonneg; lia.
Qed.

(** [round(x, n)] stays between two bounds that are themselves multiples
    of [10^-n]. *)
Lemma round_between (x : Q) (n : nat) (a b : Z) :
  inject_Z a / inject_Z (10 ^ Z.of_nat n) <= x ->
  x <= inject_Z b / inject_Z (10 ^ Z.of_nat n) ->
  inject_Z a / inject_Z (10 ^ Z.of_nat n) <= Py.round x n
  /\ Py.round x n <= inject_Z b / inject_Z (10 ^ Z.of_nat n).
Proof.
  intros Ha Hb. unfold Py.round. pose proof (scale_positive n) as Hs.
  set (s := inject_Z (10 ^ Z.of_nat n)) in *.
  assert (Hs0 : 0 <= s) by (apply Qlt_le_weak; exact Hs).
  assert (Ha' : inject_Z a <= x * s).
  { assert (E : inject_Z a == inject_Z a / s * s) by (field; lra).
    rewrite E. apply Qmult_le_compat_r; assumption. }
  assert (Hb' : x * s <= inject_Z b).
  { assert (E : inject_Z b == inject_Z b / s * s) by (field; lra).
    rewrite E. apply Qmult_le_compat_r; assumption. }
  apply round_half_even_lower in Ha'. apply round_half_even_upper in Hb'.
  rewrite Zle_Qle in Ha', Hb'.
  assert (Hi : 0 <= / s) by (apply Qlt_le_weak, Qinv_lt_0_compat; exact Hs).
  split; unfold Qdiv; apply Qmult_le_compat_r; assumption.
Qed.

(** Rounding moves a value by at most half a unit of the last place. *)
Lemma round_error (x : Q) (n : nat) :
  Qabs (Py.round x n - x) <= (1 # 2) / inject_Z (10 ^ Z.of_nat n).
Proof.
  unfold Py.round. pose proof (scale_positive n) as Hs.
  set (s := inject_Z (10 ^ Z.of_nat n)) in *.
  destruct (round_half_even_near (x * s)) as (_ & Hlo & Hhi).
  set (r := inject_Z (Py.round_half_even (x * s))) in *.
  assert (E : r / s - x == (r - x * s) / s) by (field; lra).
  rewrite E. apply Qabs_Qle_condition. split.
  - apply Qle_shift_div_l; [exact Hs|].
    assert (E' : - ((1 # 2) / s) * s == - (1 # 2)) by (field; lra).
    rewrite E'. exact Hlo.
  - apply Qle_shift_div_r; [exact Hs|].
    assert (E' : (1 # 2) / s * s == 1 # 2) by (field; lra).
    rewrite E'. exact Hhi.
Qed.

(** Rounding twice is rounding once. *)
Lemma round_idempotent (x : Q) (n : nat) : Py.round (Py.round x n) n = Py.round x n.
Proof.
  unfold Py.round. pose proof (scale_positive n) as Hs.
  set (s := inject_Z (10 ^ Z.of_nat n)) in *.
  set (z := Py.round_half_even (x * s)).
  assert (E : Py.round_half_even (inject_Z z / s * s) = z).
  { rewrite (round_half_even_comp _ (inject_Z z)); [apply round_half_even_Z|].
    field. lra. }
  rewrite E. reflexivity.
Qed.

(** ** Bounds of the scores *)

Ltac split_matches :=
  repeat match goal with
  | |- context [match ?x with _ => _ end] => destruct x
  end.

Ltac literal_bounds := split; vm_compute; discriminate.

Lemma ph_score_bounds req sp :
  0.1 <= _calculate_ph_score req sp /\ _calculate_ph_score req sp <= 1.
Proof. unfold _calculate_ph_score. split_matches; literal_bounds. Qed.

Lemma temperature_score_bounds req wd :
  0.1 <= _calculate_temperature_score req wd /\ _calculate_temperature_score req wd <= 1.
Proof.
  unfold _calculate_temperature_score. destruct wd as [wd|]; [|literal_bounds].
  cbv zeta. split_matches; literal_bounds.
Qed.

Lemma rainfall_score_bounds req rd :
  0.1 <= _calculate_rainfall_score req rd /\ _calculate_rainfall_score req rd <= 1.
Proof.
  unfold _calculate_rainfall_score. destruct rd as [rd|]; [|literal_bounds].
  destruct (records rd); [literal_bounds|]. cbv zeta. split_matches; literal_bounds.
Qed.

Lemma soil_type_score_bounds req sp :
  0.1 <= _calculate_soil_type_score req sp /\ _calculate_soil_type_score req sp <= 1.
Proof.
  unfold _calculate_soil_type_score. destruct sp as [sp|]; [|literal_bounds].
  destruct (texture sp); [|literal_bounds]. split_matches; literal_bounds.
Qed.

Lemma water_availability_score_bounds req rd :
  0.1 <= _calculate_water_availability_score req rd
  /\ _calculate_water_availability_score req rd <= 1.
Proof.
  unfold _calculate_water_availability_score. destruct rd as [rd|]; [|literal_bounds].
  destruct (records rd); [literal_bounds|]. cbv zeta. unfold stress_vs_tolerance.
  split_matches; literal_bounds.
Qed.

Lemma weighted_sum_bounds (a b c d e wa wb wc wd we : Q) :
  0.1 <= a <= 1 -> 0.1 <= b <= 1 -> 0.1 <= c <= 1 -> 0.1 <= d <= 1 -> 0.1 <= e <= 1 ->
  0 <= wa -> 0 <= wb -> 0 <= wc -> 0 <= wd -> 0 <= we ->
  wa + wb + wc + wd + we <= 1 ->
  0 <= a * wa + b * wb + c * wc + d * wd + e * we
  /\ a * wa + b * wb + c * wc + d * wd + e * we <= 1.
Proof.
  intros [Ha0 Ha1] [Hb0 Hb1] [Hc0 Hc1] [Hd0 Hd1] [He0 He1] Hwa Hwb Hwc Hwd Hwe Hsum.
  assert (Pa : 0 <= a * wa /\ a * wa <= wa) by nra.
  assert (Pb : 0 <= b * wb /\ b * wb <= wb) by nra.
  assert (Pc : 0 <= c * wc /\ c * wc <= wc) by nra.
  assert (Pd : 0 <= d * wd /\ d * wd <= wd) by nra.
  assert (Pe : 0 <= e * we /\ e * we <= we) by nra.
  lra.
Qed.

Lemma round3_unit (x : Q) : 0 <= x -> x <= 1 -> 0 <= Py.round x 3 /\ Py.round x 3 <= 1.
Proof.
  intros H0 H1.
  assert (E0 : inject_Z 0 / inject_Z (10 ^ Z.of_nat 3) == 0) by reflexivity.
  assert (E1 : inject_Z 1000 / inject_Z (10 ^ Z.of_nat 3) == 1) by reflexivity.
  destruct (round_between x 3 0 1000) as [L U].
  - rewrite E0. exact H0.
  - rewrite E1. exact H1.
  - rewrite E0 in L. rewrite E1 in U. split; assumption.
Qed.

Lemma suitability_in_unit (self : CropMatcher) (req : CropRequirements.t) (d : LocationData) :
  weights_within_unit (scoring_weights self) ->
  in_unit_interval (fst (calculate_suitability_score self req d)).
Proof.
  intros (Ha & Hb & Hc & Hd & He & Hsum).
  unfold calculate_suitability_score. cbv zeta. cbn [fst].
  unfold in_unit_interval.
  destruct (weighted_sum_bounds _ _ _ _ _ _ _ _ _ _
              (ph_score_bounds req (soil_profile d))
              (temperature_score_bounds req (weather_data d))
              (rainfall_score_bounds req (rainfall_data d))
              (soil_type_score_bounds req (soil_profile d))
              (water_availability_score_bounds req (rainfall_data d))
              Ha Hb Hc Hd He Hsum) as [L U].
  apply round3_unit; assumption.
Qed.

(** X1: for every crop and snapshot, each of the five sub-scores of the
    breakdown lies between 0.1 and 1; and when the weights are not
    negative and add up to at most 1, the overall score lies between 0
    and 1. *)
Theorem scores_are_bounded :
  forall (self : CropMatcher) (req : CropRequirements.t) (d : LocationData),
    Forall (fun kv => 0.1 <= snd kv /\ snd kv <= 1)
           (snd (calculate_suitability_score self req d))
    /\ (weights_within_unit (scoring_weights self) ->
        in_unit_interval (fst (calculate_suitability_score self req d))).
Proof.
  intros self req d. split; [|apply suitability_in_unit].
  unfold calculate_suitability_score. cbv zeta. cbn [snd].
  repeat constructor; cbn [snd].
  - apply ph_score_bounds.
  - apply ph_score_bounds.
  - apply temperature_score_bounds.
  - apply temperature_score_bounds.
  - apply rainfall_score_bounds.
  - apply rainfall_score_bounds.
  - apply soil_type_score_bounds.
  - apply soil_type_score_bounds.
  - apply water_availability_score_bounds.
  - apply water_availability_score_bounds.
Qed.

Lemma default_weights_within_unit : weights_within_unit default_scoring_weights.
Proof. unfold weights_within_unit. simpl. repeat split; vm_compute; discriminate. Qed.

Lemma scores_are_bounded_witness :
  in_unit_interval (fst (calculate_suitability_score default_matcher
                           scenario_A_requirements bare_snapshot)).
Proof.
  apply (scores_are_bounded default_matcher scenario_A_requirements bare_snapshot).
  unfold weights_within_unit. simpl. repeat split; vm_compute; discriminate.
Defined.

(** ** The constructor of a recommendation *)

Lemma field_ge_le_accepts (lo hi v : Q) :
  lo <= v -> v <= hi -> field_ge_le lo hi v = Some v.
Proof.
  intros H1 H2. unfold field_ge_le.
  apply le_true in H1, H2. rewrite H1, H2. reflexivity.
Qed.

Lemma field_ge_le_rejects (lo hi v : Q) :
  ~ (lo <= v /\ v <= hi) -> field_ge_le lo hi v = None.
Proof.
  intros H. unfold field_ge_le.
  destruct (Py.le lo v && Py.le v hi) eqn:E; [|reflexivity].
  reflect_cmp. exfalso. apply H. split; assumption.
Qed.

Lemma unit_field_accepts (v : Q) : 0.1 <= v /\ v <= 1 -> field_ge_le 0.0 1.0 v = Some v.
Proof. intros [H1 H2]. apply field_ge_le_accepts; lra. Qed.

Lemma risk_level_accepted (s p : Q) :
  validate_risk_level (_calculate_risk_level s p) = Some (_calculate_risk_level s p).
Proof.
  unfold _calculate_risk_level. cbv zeta.
  destruct (Py.fge (combined_score s p) 0.8); [reflexivity|].
  destruct (Py.fge (combined_score s p) 0.6); reflexivity.
Qed.

Lemma profitability_in_unit (name : string) (d : LocationData) (req : CropRequirements.t) :
  in_unit_interval (_calculate_profitability_score name d req).
Proof.
  unfold _calculate_profitability_score, in_unit_interval.
  destruct (market_prices d) as [mp|]; [|split; vm_compute; discriminate].
  unfold calculate_profitability_score.
  destruct (get_crop_analysis mp name) as [a|]; [|split; vm_compute; discriminate].
  cbv zeta. unfold or_half.
  destruct (Py.truthy _); [|split; vm_compute; discriminate].
  rewrite max_min_is_clamp01. apply clamp01_bounds.
Qed.

(** With the suitability inside the unit interval, the constructor of
    the recommendation of a crop accepts. *)
Lemma recommendation_accepted (self : CropMatcher) (d : LocationData) (name : string)
  (req : CropRequirements.t) :
  in_unit_interval (fst (calculate_suitability_score self req d)) ->
  let sb := calculate_suitability_score self req d in
  let p := _calculate_profitability_score name d req in
  exists r,
    CropRecommendation_new name (fst sb) (_calculate_expected_profit req p) p
      (Py.get_default (snd sb) "soil_ph_score" 0.0)
      (Py.get_default (snd sb) "temperature_score" 0.0)
      (Py.get_default (snd sb) "rainfall_score" 0.0)
      (Py.get_default (snd sb) "soil_type_score" 0.0)
      (Py.get_default (snd sb) "water_availability_score" 0.0)
      (_calculate_risk_level (fst sb) p)
      (_get_risk_factors (snd sb) d) = Some r.
Proof.
  intros [Hs0 Hs1] sb p.
  destruct (profitability_in_unit name d req) as [Hp0 Hp1]. fold p in Hp0, Hp1.
  unfold CropRecommendation_new.
  rewrite (field_ge_le_accepts 0.0 1.0 (fst sb)) by (unfold sb; lra). cbn [bind].
  rewrite (field_ge_le_accepts 0.0 1.0 p) by lra. cbn [bind].
  destruct (breakdown_lookup self req d 0.0) as (E1 & E2 & E3 & E4 & E5).
  unfold sb. rewrite E1, E2, E3, E4, E5.
  rewrite (unit_field_accepts _ (ph_score_bounds req (soil_profile d))). cbn [bind].
  rewrite (unit_field_accepts _ (temperature_score_bounds req (weather_data d))). cbn [bind].
  rewrite (unit_field_accepts _ (rainfall_score_bounds req (rainfall_data d))). cbn [bind].
  rewrite (unit_field_accepts _ (soil_type_score_bounds req (soil_profile d))). cbn [bind].
  rewrite (unit_field_accepts _ (water_availability_score_bounds req (rainfall_data d))).
  cbn [bind]. rewrite risk_level_accepted. cbn [bind]. eexists. reflexivity.
Qed.

Lemma score_crops_total (self : CropMatcher) (d : LocationData) (min_score : Q) :
  weights_within_unit (scoring_weights self) ->
  forall all_crops, exists recs, score_crops self d min_score all_crops = Some recs.
Proof.
  intros Hw. induction all_crops as [|crop_name rest (recs & IH)]; cbn [score_crops].
  - exists []. reflexivity.
  - destruct (get_crop_requirements (crop_database self) crop_name) as [req|];
      [|exists recs; exact IH].
    pose proof (recommendation_accepted self d crop_name req
                  (suitability_in_unit self req d Hw)) as Hacc.
    cbv zeta in Hacc.
    destruct (calculate_suitability_score self req d) as [s bd].
    destruct (Py.lt s min_score); [exists recs; exact IH|].
    cbn [fst snd] in Hacc. destruct Hacc as (r & Hr). rewrite Hr, IH. cbn [bind].
    eexists. reflexivity.
Qed.

(** Every crop that is found and reaches the minimum is in the list that
    the loop builds. *)
Lemma score_crops_complete (self : CropMatcher) (d : LocationData) (min_score : Q)
  (name : string) (req : CropRequirements.t) :
  get_crop_requirements (crop_database self) name = Some req ->
  min_score <= fst (calculate_suitability_score self req d) ->
  forall all_crops recs,
    score_crops self d min_score all_crops = Some recs ->
    In name all_crops ->
    exists r,
      In r recs
      /\ CropRecommendation.crop_name r = name
      /\ CropRecommendation.suitability_score r
         = fst (calculate_suitability_score self req d).
Proof.
  intros Hreq Hmin. induction all_crops as [|c rest IH]; intros recs H Hin;
    cbn [score_crops] in H; [destruct Hin|].
  destruct (String.eqb c name) eqn:Ec.
  - apply String.eqb_eq in Ec. subst c. rewrite Hreq in H.
    destruct (calculate_suitability_score self req d) as [s bd]. cbn [fst] in *.
    apply lt_false in Hmin. rewrite Hmin in H.
    apply bind_some in H. destruct H as (r & Hr & H).
    apply bind_some in H. destruct H as (rs & _ & H). injection H as <-.
    apply CropRecommendation_new_fields in Hr. subst r.
    eexists. split; [left; reflexivity|]. split; reflexivity.
  - destruct Hin as [-> | Hin]; [rewrite String.eqb_refl in Ec; discriminate|].
    destruct (get_crop_requirements (crop_database self) c) as [req'|].
    + destruct (calculate_suitability_score self req' d) as [s' bd'].
      destruct (Py.lt s' min_score).
      * apply (IH recs H Hin).
      * apply bind_some in H. destruct H as (r & _ & H).
        apply bind_some in H. destruct H as (rs & Hrs & H). injection H as <-.
        destruct (IH rs Hrs Hin) as (r0 & Hr0 & Hn). exists r0. split; [right; exact Hr0 | exact Hn].
    + apply (IH recs H Hin).
Qed.

Lemma score_crops_length (self : CropMatcher) (d : LocationData) (min_score : Q) :
  forall all_crops recs,
    score_crops self d min_score all_crops = Some recs ->
    (List.length recs <= List.length all_crops)%nat.
Proof.
  induction all_crops as [|c rest IH]; intros recs H; cbn [score_crops] in H.
  - injection H as <-. apply Nat.le_refl.
  - simpl List.length.
    destruct (get_crop_requirements (crop_database self) c) as [req|];
      [|specialize (IH recs H); lia].
    destruct (calculate_suitability_score self req d) as [s bd].
    destruct (Py.lt s min_score); [specialize (IH recs H); lia|].
    apply bind_some in H. destruct H as (r & _ & H).
    apply bind_some in H. destruct H as (rs & Hrs & H). injection H as <-.
    specialize (IH rs Hrs). simpl. lia.
Qed.

Lemma insert_desc_permutation {A} (key : A -> Q) (x : A) (l : list A) :
  Permutation (insert_desc key x l) (x :: l).
Proof.
  induction l as [|y r IH]; simpl; [apply Permutation_refl|].
  destruct (Py.lt (key x) (key y)); [|apply Permutation_refl].
  apply Permutation_trans with (y :: x :: r); [apply perm_skip; exact IH | apply perm_swap].
Qed.

(** The sort rearranges, it neither drops nor repeats. *)
Lemma sort_desc_permutation {A} (key : A -> Q) (l : list A) :
  Permutation (sort_desc key l) l.
Proof.
  induction l as [|x r IH]; simpl; [apply perm_nil|].
  apply Permutation_trans with (x :: sort_desc key r);
    [apply insert_desc_permutation | apply perm_skip; exact IH].
Qed.

Lemma take_all {A} (n : Z) (l : list A) : (Py.len l <= n)%Z -> Py.take n l = l.
Proof.
  intros H. unfold Py.take, Py.len in *.
  destruct (n <? 0)%Z eqn:E; [apply Z.ltb_lt in E; lia|].
  apply firstn_all2. lia.
Qed.

(** X2: with weights that are not negative and add up to at most 1, no
    suitable crop is lost: when [max_crops] is at least the size of the
    catalogue, every listed crop whose requirements are found and whose
    suitability reaches [min_score] has a recommendation, carrying that
    suitability. *)
Theorem suitable_crops_are_recommended :
  forall (self : CropMatcher) (d : LocationData) (max_crops : Z) (min_score : Q)
         (name : string) (req : CropRequirements.t),
    weights_within_unit (scoring_weights self) ->
    (Py.len (get_all_crops (crop_database self)) <= max_crops)%Z ->
    In name (get_all_crops (crop_database self)) ->
    get_crop_requirements (crop_database self) name = Some req ->
    min_score <= fst (calculate_suitability_score self req d) ->
    exists r,
      In r (get_crop_recommendations self d max_crops min_score)
      /\ CropRecommendation.crop_name r = name
      /\ CropRecommendation.suitability_score r
         = fst (calculate_suitability_score self req d).
Proof.
  intros self d max_crops min_score name req Hw Hmax Hin Hreq Hmin.
  unfold get_crop_recommendations.
  destruct (score_crops_total self d min_score Hw (get_all_crops (crop_database self)))
    as (recs & Hrecs).
  rewrite Hrecs.
  destruct (score_crops_complete self d min_score name req Hreq Hmin _ recs Hrecs Hin)
    as (r & Hr & Hn).
  exists r. split; [|exact Hn].
  rewrite take_all.
  - apply In_sort_desc. exact Hr.
  - pose proof (score_crops_length self d min_score _ recs Hrecs) as Hlen.
    pose proof (Permutation_length (sort_desc_permutation sort_key recs)) as Hperm.
    unfold Py.len in *. lia.
Qed.

Lemma suitable_crops_are_recommended_witness :
  exists r,
    In r (get_crop_recommendations default_matcher bare_snapshot 5 0.3)
    /\ CropRecommendation.crop_name r = "wheat"%string
    /\ CropRecommendation.suitability_score r
       = fst (calculate_suitability_score default_matcher scenario_A_requirements
                bare_snapshot).
Proof.
  apply (suitable_crops_are_recommended default_matcher bare_snapshot 5 0.3 "wheat"
           scenario_A_requirements).
  - unfold weights_within_unit. simpl. repeat split; vm_compute; discriminate.
  - vm_compute. discriminate.
  - left. reflexivity.
  - reflexivity.
  - vm_compute. discriminate.
Defined.

Lemma score_crops_fails (self : CropMatcher) (d : LocationData) (min_score : Q)
  (name : string) (req : CropRequirements.t) :
  get_crop_requirements (crop_database self) name = Some req ->
  min_score <= fst (calculate_suitability_score self req d) ->
  ~ in_unit_interval (fst (calculate_suitability_score self req d)) ->
  forall all_crops, In name all_crops -> score_crops self d min_score all_crops = None.
Proof.
  intros Hreq Hmin Hout. induction all_crops as [|c rest IH]; intros Hin;
    [destruct Hin|]. cbn [score_crops].
  destruct (String.eqb c name) eqn:Ec.
  - apply String.eqb_eq in Ec. subst c. rewrite Hreq.
    destruct (calculate_suitability_score self req d) as [s bd]. cbn [fst] in *.
    apply lt_false in Hmin. rewrite Hmin.
    unfold CropRecommendation_new. rewrite field_ge_le_rejects; [reflexivity|].
    intros [H0 H1]. apply Hout. split; lra.
  - destruct Hin as [-> | Hin]; [rewrite String.eqb_refl in Ec; discriminate|].
    rewrite (IH Hin).
    destruct (get_crop_requirements (crop_database self) c) as [req'|]; [|reflexivity].
    destruct (calculate_suitability_score self req' d) as [s' bd'].
    destruct (Py.lt s' min_score); [reflexivity|].
    destruct (CropRecommendation_new _ _ _ _ _ _ _ _ _ _ _); reflexivity.
Qed.

(** X3: if the overall score of one listed crop that reaches
    [min_score] falls outside [0, 1] (weights that add up to more than 1
    allow it), the constructor of its recommendation raises and
    [get_crop_recommendations] returns the empty list: the other crops are
    lost with it. *)
Theorem one_score_out_of_range_empties_the_list :
  forall (self : CropMatcher) (d : LocationData) (max_crops : Z) (min_score : Q)
         (name : string) (req : CropRequirements.t),
    In name (get_all_crops (crop_database self)) ->
    get_crop_requirements (crop_database self) name = Some req ->
    min_score <= fst (calculate_suitability_score self req d) ->
    ~ in_unit_interval (fst (calculate_suitability_score self req d)) ->
    get_crop_recommendations self d max_crops min_score = [].
Proof.
  intros self d max_crops min_score name req Hin Hreq Hmin Hout.
  unfold get_crop_recommendations.
  rewrite (score_crops_fails self d min_score name req Hreq Hmin Hout _ Hin).
  reflexivity.
Qed.

Lemma one_score_out_of_range_empties_the_list_witness :
  get_crop_recommendations overweight_matcher bare_snapshot 5 0.3 = [].
Proof.
  apply (one_score_out_of_range_empties_the_list overweight_matcher bare_snapshot 5 0.3
           "wheat" scenario_A_requirements).
  - left. reflexivity.
  - reflexivity.
  - vm_compute. discriminate.
  - intros [_ H]. vm_compute in H. apply H. reflexivity.
Defined.

(** ** Shape of the ranking *)

(** X4: for 0 <= m <= n, asking for [m] crops returns the first [m] of
    what asking for [n] crops returns, and never more than [m]. *)
Theorem fewer_crops_is_a_prefix :
  forall (self : CropMatcher) (d : LocationData) (min_score : Q) (m n : Z),
    (0 <= m)%Z -> (m <= n)%Z ->
    get_crop_recommendations self d m min_score
    = firstn (Z.to_nat m) (get_crop_recommendations self d n min_score)
    /\ (Py.len (get_crop_recommendations self d m min_score) <= m)%Z.
Proof.
  intros self d min_score m n Hm Hmn. unfold get_crop_recommendations.
  destruct (score_crops self d min_score (get_all_crops (crop_database self))) as [recs|].
  - unfold Py.take, Py.len.
    destruct (m <? 0)%Z eqn:Em; [apply Z.ltb_lt in Em; lia|].
    destruct (n <? 0)%Z eqn:En; [apply Z.ltb_lt in En; lia|].
    split.
    + rewrite firstn_firstn. f_equal. symmetry. apply Nat.min_l. lia.
    + pose proof (firstn_le_length (Z.to_nat m) (sort_desc sort_key recs)) as Hle.
      apply Nat2Z.inj_le in Hle. rewrite Z2Nat.id in Hle by exact Hm. exact Hle.
  - split; [rewrite firstn_nil; reflexivity | exact Hm].
Qed.

Lemma fewer_crops_is_a_prefix_witness :
  get_crop_recommendations wheat_then_barley bare_snapshot 1 0.3
  = firstn 1 (get_crop_recommendations wheat_then_barley bare_snapshot 5 0.3).
Proof.
  apply (fewer_crops_is_a_prefix wheat_then_barley bare_snapshot 0.3 1 5); lia.
Defined.

Lemma score_crops_reach_minimum (self : CropMatcher) (d : LocationData) (min_score : Q) :
  forall all_crops recs,
    score_crops self d min_score all_crops = Some recs ->
    Forall (fun r => min_score <= CropRecommendation.suitability_score r) recs.
Proof.
  induction all_crops as [|c rest IH]; intros recs H; cbn [score_crops] in H.
  - injection H as <-. constructor.
  - destruct (get_crop_requirements (crop_database self) c) as [req|]; [|apply IH; exact H].
    destruct (calculate_suitability_score self req d) as [s bd].
    destruct (Py.lt s min_score) eqn:E; [apply IH; exact H|].
    apply bind_some in H. destruct H as (r & Hr & H).
    apply bind_some in H. destruct H as (rs & Hrs & H). injection H as <-.
    apply CropRecommendation_new_fields in Hr. subst r.
    constructor; [simpl; apply lt_false; exact E | apply IH; exact Hrs].
Qed.

Lemma score_crops_distinct (self : CropMatcher) (d : LocationData) (min_score : Q) :
  forall all_crops recs,
    NoDup all_crops ->
    score_crops self d min_score all_crops = Some recs ->
    NoDup (map CropRecommendation.crop_name recs).
Proof.
  induction all_crops as [|c rest IH]; intros recs Hnd H; cbn [score_crops] in H.
  - injection H as <-. constructor.
  - inversion Hnd as [|? ? Hc Hrest]; subst.
    destruct (get_crop_requirements (crop_database self) c) as [req|];
      [|apply IH; assumption].
    destruct (calculate_suitability_score self req d) as [s bd].
    destruct (Py.lt s min_score); [apply IH; assumption|].
    apply bind_some in H. destruct H as (r & Hr & H).
    apply bind_some in H. destruct H as (rs & Hrs & H). injection H as <-.
    apply CropRecommendation_new_fields in Hr. subst r. simpl.
    constructor; [|apply IH; assumption].
    intros Hin. apply in_map_iff in Hin. destruct Hin as (r' & Hname & Hr').
    apply Hc. rewrite <- Hname.
    apply (score_crops_names self d min_score rest rs); assumption.
Qed.

Lemma NoDup_prefix {A} : forall (n : nat) (l : list A), NoDup l -> NoDup (firstn n l).
Proof.
  induction n as [|n IH]; intros l H; [constructor|].
  destruct H as [|x l Hx Hl]; simpl; [constructor|].
  constructor; [|apply IH; exact Hl].
  intros Hin. apply Hx. apply In_prefix in Hin. exact Hin.
Qed.

(** X5: every recommendation has a suitability of at least
    [min_score] and the name of a crop of the catalogue; and when the
    catalogue lists no name twice, no two recommendations are for the
    same crop. *)
Theorem recommendations_are_filtered_and_distinct :
  forall (self : CropMatcher) (d : LocationData) (max_crops : Z) (min_score : Q),
    Forall (fun r => min_score <= CropRecommendation.suitability_score r
                     /\ In (CropRecommendation.crop_name r)
                           (get_all_crops (crop_database self)))
           (get_crop_recommendations self d max_crops min_score)
    /\ (NoDup (get_all_crops (crop_database self)) ->
        NoDup (map CropRecommendation.crop_name
                   (get_crop_recommendations self d max_crops min_score))).
Proof.
  intros self d max_crops min_score. unfold get_crop_recommendations.
  destruct (score_crops self d min_score (get_all_crops (crop_database self)))
    as [recs|] eqn:E; [|split; constructor].
  split.
  - apply Forall_forall. intros r Hr. apply In_take, In_sort_desc in Hr. split.
    + pose proof (score_crops_reach_minimum self d min_score _ recs E) as Hmin.
      rewrite Forall_forall in Hmin. apply Hmin. exact Hr.
    + apply (score_crops_names self d min_score _ recs); assumption.
  - intros Hnd. unfold Py.take.
    assert (Hs : NoDup (map CropRecommendation.crop_name (sort_desc sort_key recs))).
    { apply Permutation_NoDup with (map CropRecommendation.crop_name recs).
      - apply Permutation_map, Permutation_sym, sort_desc_permutation.
      - apply (score_crops_distinct self d min_score _ recs Hnd E). }
    destruct (max_crops <? 0)%Z; rewrite <- firstn_map; apply NoDup_prefix; exact Hs.
Qed.

(** ** String-keyed dicts *)

Lemma string_eqb_trans (a b c : string) :
  String.eqb a b = true -> String.eqb b c = true -> String.eqb a c = true.
Proof.
  intros H1 H2. apply String.eqb_eq in H1, H2. subst. apply String.eqb_refl.
Qed.

Lemma str_get_none {V} (c : list (string * V)) (k : string) :
  Py.get String.eqb c k = None <-> ~ In k (Py.keys c).
Proof.
  induction c as [|[k0 v0] r IH]; simpl; [tauto|].
  destruct (String.eqb k0 k) eqn:E.
  - apply String.eqb_eq in E. subst. split; [discriminate | intros H; exfalso; apply H; auto].
  - apply String.eqb_neq in E. rewrite IH. tauto.
Qed.

Lemma str_get_some_in {V} (c : list (string * V)) (k : string) (v : V) :
  Py.get String.eqb c k = Some v -> In (k, v) c.
Proof.
  induction c as [|[k0 v0] r IH]; simpl; [discriminate|].
  destruct (String.eqb k0 k) eqn:E.
  - apply String.eqb_eq in E. subst. intros H. injection H as <-. left. reflexivity.
  - intros H. right. apply IH. exact H.
Qed.

Lemma str_keys_assign {V} (c : list (string * V)) (k : string) (v : V) :
  Py.keys (Py.assign String.eqb c k v)
  = if Py.contains String.eqb c k then Py.keys c else Py.keys c ++ [k].
Proof.
  unfold Py.contains. induction c as [|[k0 v0] r IH]; simpl; [reflexivity|].
  destruct (String.eqb k0 k) eqn:E; simpl; [reflexivity|].
  rewrite IH. destruct (Py.get String.eqb r k); reflexivity.
Qed.

Lemma str_get_assign {V} (c : list (string * V)) (k k' : string) (v : V) :
  Py.get String.eqb (Py.assign String.eqb c k v) k'
  = if String.eqb k k' then Some v else Py.get String.eqb c k'.
Proof.
  induction c as [|[k0 v0] r IH]; simpl; [reflexivity|].
  destruct (String.eqb k0 k) eqn:E; simpl.
  - apply String.eqb_eq in E. subst k0. destruct (String.eqb k k'); reflexivity.
  - rewrite IH. destruct (String.eqb k k') eqn:E'; [|reflexivity].
    apply String.eqb_eq in E'. subst k'. rewrite E. reflexivity.
Qed.

Lemma str_keys_assign_nodup {V} (c : list (string * V)) (k : string) (v : V) :
  NoDup (Py.keys c) -> NoDup (Py.keys (Py.assign String.eqb c k v)).
Proof.
  intros H. rewrite str_keys_assign. unfold Py.contains.
  destruct (Py.get String.eqb c k) eqn:E; [exact H|].
  apply str_get_none in E.
  apply Permutation_NoDup with (k :: Py.keys c).
  - apply Permutation_cons_append.
  - constructor; assumption.
Qed.

Lemma str_keys_assign_in {V} (c : list (string * V)) (k k' : string) (v : V) :
  In k' (Py.keys (Py.assign String.eqb c k v)) <-> k' = k \/ In k' (Py.keys c).
Proof.
  rewrite str_keys_assign. unfold Py.contains.
  destruct (Py.get String.eqb c k) eqn:E.
  - apply str_get_some_in in E. split; [tauto|].
    intros [-> | H]; [|exact H]. apply (in_map fst) in E. exact E.
  - rewrite in_app_iff. simpl. intuition.
Qed.

(** ** Loading the catalogue, in general *)

Lemma load_entries_keys (crops_data : list (string * YamlCrop)) :
  forall acc k,
    In k (Py.keys (load_entries crops_data acc))
    <-> In k (Py.keys acc) \/ exists e, In (k, e) crops_data /\ accepted e.
Proof.
  unfold accepted.
  induction crops_data as [|[name e] rest IH]; intros acc k; simpl.
  - split; [tauto|]. intros [H | (e & [] & _)]. exact H.
  - destruct (load_entry e) as [req|] eqn:E; rewrite IH.
    + rewrite str_keys_assign_in. split.
      * intros [[-> | H] | (e' & Hin & Hacc)].
        -- right. exists e. split; [left; reflexivity | congruence].
        -- left. exact H.
        -- right. exists e'. split; [right; exact Hin | exact Hacc].
      * intros [H | (e' & [Heq | Hin] & Hacc)].
        -- left. right. exact H.
        -- injection Heq as <- <-. left. left. reflexivity.
        -- right. exists e'. split; assumption.
    + split.
      * intros [H | (e' & Hin & Hacc)]; [left; exact H|].
        right. exists e'. split; [right; exact Hin | exact Hacc].
      * intros [H | (e' & [Heq | Hin] & Hacc)].
        -- left. exact H.
        -- injection Heq as <- <-. congruence.
        -- right. exists e'. split; assumption.
Qed.

Lemma load_entries_nodup (crops_data : list (string * YamlCrop)) :
  forall acc, NoDup (Py.keys acc) -> NoDup (Py.keys (load_entries crops_data acc)).
Proof.
  induction crops_data as [|[name e] rest IH]; intros acc H; simpl; [exact H|].
  destruct (load_entry e); apply IH; [apply str_keys_assign_nodup|]; exact H.
Qed.

Lemma load_entries_get (crops_data : list (string * YamlCrop)) :
  forall acc k req,
    Py.get String.eqb (load_entries crops_data acc) k = Some req ->
    Py.get String.eqb acc k = Some req
    \/ exists e, In (k, e) crops_data /\ load_entry e = Some req.
Proof.
  induction crops_data as [|[name e] rest IH]; intros acc k req H; simpl in H.
  - left. exact H.
  - destruct (load_entry e) as [req0|] eqn:E.
    + destruct (IH _ _ _ H) as [Hacc | (e' & Hin & He')].
      * rewrite str_get_assign in Hacc. destruct (String.eqb name k) eqn:En.
        -- apply String.eqb_eq in En. subst name. injection Hacc as <-.
           right. exists e. split; [left; reflexivity | exact E].
        -- left. exact Hacc.
      * right. exists e'. split; [right; exact Hin | exact He'].
    + destruct (IH _ _ _ H) as [Hacc | (e' & Hin & He')]; [left; exact Hacc|].
      right. exists e'. split; [right; exact Hin | exact He'].
Qed.

(** X6: loading a catalogue file with a [crops] mapping never raises,
    whatever its entries hold; the loaded catalogue lists no name twice,
    and it lists a name exactly when some entry under that name was
    accepted. *)
Theorem loaded_catalogue_lists_accepted_entries :
  forall (crops_data : list (string * YamlCrop)),
    exists db,
      _load_crop_data (Some crops_data) = Returned db
      /\ NoDup (get_all_crops db)
      /\ forall k, In k (get_all_crops db)
                   <-> exists e, In (k, e) crops_data /\ accepted e.
Proof.
  intros crops_data. eexists. split; [reflexivity|]. unfold get_all_crops. simpl. split.
  - apply load_entries_nodup. constructor.
  - intros k. rewrite load_entries_keys. simpl. tauto.
Qed.

Lemma lower_ascii_idempotent (c : ascii) :
  Py.lower_ascii (Py.lower_ascii c) = Py.lower_ascii c.
Proof. destruct c as [[] [] [] [] [] [] [] []]; reflexivity. Qed.

Lemma lower_idempotent (s : string) : Py.lower (Py.lower s) = Py.lower s.
Proof.
  induction s as [|c r IH]; simpl; [reflexivity|].
  rewrite lower_ascii_idempotent, IH. reflexivity.
Qed.

(** X7: in a loaded catalogue, what [get_crop_requirements] returns for
    a name is the record built from an entry filed under the lower-cased
    name; and a listed name without capital letters is always found. *)
Theorem lookup_after_loading :
  forall (crops_data : list (string * YamlCrop)) (db : CropDatabase) (k : string),
    _load_crop_data (Some crops_data) = Returned db ->
    (forall req,
        get_crop_requirements db k = Some req ->
        exists e, In (Py.lower k, e) crops_data /\ load_entry e = Some req)
    /\ (In k (get_all_crops db) -> Py.lower k = k ->
        exists req, get_crop_requirements db k = Some req).
Proof.
  intros crops_data db k H. injection H as <-.
  unfold get_crop_requirements, get_all_crops. simpl. split.
  - intros req Hget. apply load_entries_get in Hget.
    destruct Hget as [Hget | Hget]; [discriminate | exact Hget].
  - intros Hin Hlow. rewrite Hlow.
    destruct (Py.get String.eqb (load_entries crops_data []) k) as [req|] eqn:E.
    + exists req. reflexivity.
    + apply str_get_none in E. contradiction.
Qed.

Lemma lookup_after_loading_witness :
  exists req,
    get_crop_requirements
      {| crop_requirements := load_entries [("wheat"%string, yaml_wheat)] [] |} "wheat"
    = Some req.
Proof.
  apply (lookup_after_loading [("wheat"%string, yaml_wheat)] _ "wheat" eq_refl).
  - left. reflexivity.
  - reflexivity.
Defined.

(** X8: a name whose lower-cased form is not a key of the catalogue is
    not found by [get_crop_requirements] and is never recommended; so a
    crop filed under a key with a capital letter (and no lower-case twin)
    is listed by [get_all_crops] but left out of every ranking. *)
Theorem capitalised_key_is_never_recommended :
  forall (self : CropMatcher) (d : LocationData) (max_crops : Z) (min_score : Q)
         (k : string),
    ~ In (Py.lower k) (get_all_crops (crop_database self)) ->
    get_crop_requirements (crop_database self) k = None
    /\ forall r, In r (get_crop_recommendations self d max_crops min_score) ->
                 CropRecommendation.crop_name r <> k.
Proof.
  intros self d max_crops min_score k Hk.
  assert (Hnone : get_crop_requirements (crop_database self) k = None).
  { unfold get_crop_requirements. apply str_get_none. exact Hk. }
  split; [exact Hnone|].
  intros r Hr Hname. apply recommendations_built in Hr.
  destruct Hr as (req & Hreq & _). rewrite Hname, Hnone in Hreq. discriminate.
Qed.

Lemma capitalised_key_is_never_recommended_witness :
  In "Wheat"%string (get_all_crops (crop_database capital_key_matcher))
  /\ get_crop_requirements (crop_database capital_key_matcher) "Wheat" = None
  /\ forall r, In r (get_crop_recommendations capital_key_matcher bare_snapshot 5 0.3) ->
               CropRecommendation.crop_name r <> "Wheat"%string.
Proof.
  split; [left; reflexivity|].
  apply (capitalised_key_is_never_recommended capital_key_matcher bare_snapshot 5 0.3
           "Wheat").
  simpl. intros [H | []]. discriminate H.
Defined.

(** ** What the constructor of [CropRequirements] guarantees *)

Lemma field_ge_le_inv (lo hi v v' : Q) :
  field_ge_le lo hi v = Some v' -> v' = v /\ lo <= v /\ v <= hi.
Proof.
  unfold field_ge_le. destruct (Py.le lo v && Py.le v hi) eqn:E; [|discriminate].
  intros H. injection H as <-. reflect_cmp. repeat split; assumption.
Qed.

Lemma field_ge_inv (lo v v' : Q) : field_ge lo v = Some v' -> v' = v /\ lo <= v.
Proof.
  unfold field_ge. destruct (Py.le lo v) eqn:E; [|discriminate].
  intros H. injection H as <-. reflect_cmp. split; [reflexivity | assumption].
Qed.

Lemma validate_ph_range_inv (v v' : Q) (values : Values) :
  validate_ph_range v values = Some v' -> v' = v.
Proof.
  unfold validate_ph_range.
  destruct (values_get values "ph_min"), (values_get values "ph_optimal");
    try (intros H; injection H as <-; reflexivity).
  destruct (_ && _); [discriminate|]. intros H; injection H as <-; reflexivity.
Qed.

Lemma validate_temp_range_inv (v v' : Q) (values : Values) :
  validate_temp_range v values = Some v' -> v' = v.
Proof.
  unfold validate_temp_range.
  destruct (values_get values "temp_min_c"), (values_get values "temp_optimal_c");
    try (intros H; injection H as <-; reflexivity).
  destruct (_ && _); [discriminate|]. intros H; injection H as <-; reflexivity.
Qed.

Lemma truthy_false (x : Q) : Py.truthy x = false <-> x == 0.
Proof.
  unfold Py.truthy. rewrite negb_false_iff. apply Qeq_bool_iff.
Qed.

Lemma validate_rainfall_range_inv (v v' rainfall_min : Q) (values : Values) :
  values_get values "rainfall_min_mm" = Some rainfall_min ->
  validate_rainfall_range v values = Some v' ->
  v' = v /\ (~ v == 0 -> ~ rainfall_min == 0 -> rainfall_min <= v).
Proof.
  intros Hget. unfold validate_rainfall_range. rewrite Hget.
  destruct (Py.truthy rainfall_min) eqn:E1; simpl.
  - destruct (Py.truthy v) eqn:E2; simpl.
    + destruct (Py.gt rainfall_min v) eqn:E3; [discriminate|].
      intros H. injection H as <-. reflect_cmp. split; [reflexivity | intros; assumption].
    + intros H. injection H as <-. apply truthy_false in E2.
      split; [reflexivity | intros Hn; contradiction].
  - intros H. injection H as <-. apply truthy_false in E1.
    split; [reflexivity | intros _ Hn; contradiction].
Qed.

Lemma insert_month_in (m x : Z) (l : list Z) :
  In x (insert_month m l) <-> x = m \/ In x l.
Proof.
  induction l as [|y r IH]; simpl; [intuition|].
  destruct (m <? y)%Z; [simpl; intuition|].
  destruct (m =? y)%Z eqn:E; [apply Z.eqb_eq in E; subst; simpl; intuition|].
  simpl. rewrite IH. intuition.
Qed.

Lemma insert_month_sorted (m : Z) (l : list Z) :
  StronglySorted Z.lt l -> StronglySorted Z.lt (insert_month m l).
Proof.
  induction 1 as [|y r Hr IH Hy]; simpl; [repeat constructor|].
  destruct (m <? y)%Z eqn:E1.
  - apply Z.ltb_lt in E1. constructor; [constructor; assumption|].
    constructor; [exact E1|]. apply Forall_forall. intros z Hz.
    rewrite Forall_forall in Hy. specialize (Hy z Hz). lia.
  - destruct (m =? y)%Z eqn:E2; [constructor; assumption|].
    apply Z.ltb_ge in E1. apply Z.eqb_neq in E2.
    constructor; [exact IH|]. apply Forall_forall. intros z Hz.
    apply insert_month_in in Hz. destruct Hz as [-> | Hz]; [lia|].
    rewrite Forall_forall in Hy. apply Hy. exact Hz.
Qed.

Lemma sorted_set_in (v : list Z) (x : Z) : In x (sorted_set v) <-> In x v.
Proof.
  unfold sorted_set. induction v as [|m r IH]; simpl; [tauto|].
  rewrite insert_month_in, IH. intuition.
Qed.

Lemma sorted_set_sorted (v : list Z) : StronglySorted Z.lt (sorted_set v).
Proof.
  unfold sorted_set. induction v as [|m r IH]; simpl; [constructor|].
  apply insert_month_sorted. exact IH.
Qed.

Lemma validate_growing_months_inv (v ms : list Z) :
  validate_growing_months v = Some ms ->
  v <> []
  /\ Forall (fun m => (1 <= m <= 12)%Z) v
  /\ StronglySorted Z.lt ms
  /\ (forall m, In m ms <-> In m v).
Proof.
  unfold validate_growing_months.
  destruct v as [|m0 r]; [discriminate|].
  destruct (forallb _ (m0 :: r)) eqn:E; [|discriminate].
  intros H. injection H as <-.
  split; [discriminate|]. split; [|split].
  - rewrite forallb_forall in E. apply Forall_forall. intros m Hm.
    specialize (E m Hm). apply andb_true_iff in E. destruct E as [E1 E2].
    apply Z.leb_le in E1, E2. lia.
  - apply (sorted_set_sorted (m0 :: r)).
  - intros m. apply (sorted_set_in (m0 :: r)).
Qed.

(** X9: [validate_growing_months] rejects an empty list and any month
    outside 1..12; what it accepts it returns in strictly ascending order,
    without repetitions, with the same months as given. *)
Theorem growing_months_are_normalised :
  forall (v ms : list Z),
    validate_growing_months v = Some ms ->
    v <> []
    /\ Forall (fun m => (1 <= m <= 12)%Z) v
    /\ StronglySorted Z.lt ms
    /\ (forall m, In m ms <-> In m v).
Proof.
  intros v ms. apply validate_growing_months_inv.
Qed.

Lemma growing_months_are_normalised_witness :
  validate_growing_months [12; 3; 12; 1]%Z = Some [1; 3; 12]%Z
  /\ StronglySorted Z.lt [1; 3; 12]%Z.
Proof.
  split; [reflexivity|].
  apply (growing_months_are_normalised [12; 3; 12; 1]%Z [1; 3; 12]%Z). reflexivity.
Defined.

Ltac break_binds H :=
  repeat match type of H with
  | bind ?o _ = Some _ =>
      let E := fresh "E" in
      destruct o eqn:E; [cbn [bind] in H | discriminate H]
  end.

Lemma constructed_is_validated (kw : CropKwargs) (r : CropRequirements.t) :
  CropRequirements_new kw = Some r -> validated r.
Proof.
  unfold CropRequirements_new. cbv zeta. intros H.
  break_binds H. injection H as <-. unfold validated. simpl.
  repeat match goal with
  | H : bind (field_ge_le _ _ _) _ = Some _ |- _ =>
      apply bind_some in H; destruct H as (? & ? & H)
  | H : validate_ph_range _ _ = Some _ |- _ => apply validate_ph_range_inv in H; subst
  | H : validate_temp_range _ _ = Some _ |- _ => apply validate_temp_range_inv in H; subst
  | H : field_ge_le _ _ _ = Some _ |- _ =>
      apply field_ge_le_inv in H; destruct H as (? & ? & ?); subst
  | H : field_ge _ _ = Some _ |- _ => apply field_ge_inv in H; destruct H as (? & ?); subst
  | H : validate_growing_months _ = Some _ |- _ =>
      apply validate_growing_months_inv in H; destruct H as (? & ? & ? & ?)
  | H : (if ?c then _ else _) = Some _ |- _ =>
      let Ec := fresh "Ec" in
      destruct c eqn:Ec; [injection H as <- | discriminate H];
      apply andb_true_iff in Ec; destruct Ec as [?Ec ?Ec];
      apply Z.leb_le in Ec, Ec0
  end.
  repeat match goal with |- _ /\ _ => split end; try lra; try lia; try assumption.
  - intros m Hm. subst.
    match goal with
    | H : match kw_rainfall_max_mm kw with _ => _ end = Some (Some m) |- _ =>
        destruct (kw_rainfall_max_mm kw) as [v0|]; [|discriminate H];
        apply bind_some in H; destruct H as (v1 & F1 & H);
        apply bind_some in H; destruct H as (v2 & F2 & H); injection H as <-;
        apply field_ge_inv in F1; destruct F1 as (-> & Hv0);
        apply validate_rainfall_range_inv with (rainfall_min := kw_rainfall_min_mm kw) in F2;
        [|reflexivity]; destruct F2 as (-> & Hord)
    end.
    split; assumption.
  - intros Hnil. subst.
    destruct (kw_growing_season_months kw) as [|m0 rest]; [congruence|].
    match goal with Hmem : forall m, In m [] <-> _ |- _ =>
      apply (proj2 (Hmem m0)); left; reflexivity end.
  - apply Forall_forall. intros m Hm.
    match goal with
    | Hmem : forall m, In m _ <-> _, Hall : Forall _ (kw_growing_season_months kw) |- _ =>
        rewrite Forall_forall in Hall; apply Hall; apply Hmem; exact Hm
    end.
Qed.

Lemma load_entry_validated (e : YamlCrop) (r : CropRequirements.t) :
  load_entry e = Some r -> validated r.
Proof.
  unfold load_entry. intros H.
  apply bind_some in H. destruct H as (w & _ & H).
  apply bind_some in H. destruct H as (st & _ & H).
  apply constructed_is_validated in H. exact H.
Qed.

Lemma In_assign {K V} (eqb : K -> K -> bool) (c : list (K * V)) (k : K) (v : V)
  (e : K * V) :
  In e (Py.assign eqb c k v) -> In e c \/ snd e = v.
Proof.
  induction c as [|[k0 v0] r IH]; simpl.
  - intros [<- | []]. right. reflexivity.
  - destruct (eqb k0 k); simpl.
    + intros [<- | H]; [right; reflexivity | left; right; exact H].
    + intros [<- | H]; [left; left; reflexivity|].
      destruct (IH H) as [H' | H']; [left; right; exact H' | right; exact H'].
Qed.

Lemma load_entries_validated (crops_data : list (string * YamlCrop)) :
  forall acc,
    Forall (fun e => validated (snd e)) acc ->
    Forall (fun e => validated (snd e)) (load_entries crops_data acc).
Proof.
  induction crops_data as [|[name e] rest IH]; intros acc H; simpl; [exact H|].
  destruct (load_entry e) as [req|] eqn:E; apply IH; [|exact H].
  apply Forall_forall. intros x Hx. apply In_assign in Hx.
  destruct Hx as [Hx | ->].
  - rewrite Forall_forall in H. apply H. exact Hx.
  - apply (load_entry_validated e). exact E.
Qed.

(** X10: every record of a loaded catalogue has its pH values within
    3..10, its temperatures within -10..50, rainfall, yield and price not
    negative, a rainfall maximum (when given and not zero) not below a
    nonzero minimum, a duration within 30..365 days, and growing months
    that are not empty, strictly ascending and within 1..12; hence
    [get_crops_by_season] returns nothing for a month outside 1..12. *)
Theorem loaded_records_are_validated :
  forall (crops_data : list (string * YamlCrop)) (db : CropDatabase),
    _load_crop_data (Some crops_data) = Returned db ->
    (forall k req, get_crop_requirements db k = Some req -> validated req)
    /\ (forall month, ~ (1 <= month <= 12)%Z -> get_crops_by_season db month = []).
Proof.
  intros crops_data db H. injection H as <-.
  pose proof (load_entries_validated crops_data [] (Forall_nil _)) as Hall.
  rewrite Forall_forall in Hall. split.
  - intros k req Hget. unfold get_crop_requirements in Hget. simpl in Hget.
    apply str_get_some_in in Hget. apply (Hall _ Hget).
  - intros month Hmonth. unfold get_crops_by_season. simpl.
    induction (load_entries crops_data []) as [|[k req] rest IH]; [reflexivity|].
    simpl. assert (Hv : validated req) by (apply (Hall (k, req)); left; reflexivity).
    destruct (existsb (Z.eqb month) (CropRequirements.growing_season_months req)) eqn:E.
    + exfalso. apply existsb_exists in E. destruct E as (m & Hm & Em).
      apply Z.eqb_eq in Em. subst m.
      destruct Hv as (_ & _ & _ & _ & _ & _ & _ & _ & (_ & _ & Hrange) & _).
      rewrite Forall_forall in Hrange. apply Hmonth. apply Hrange. exact Hm.
    + apply IH. intros x Hx. apply Hall. right. exact Hx.
Qed.

Lemma loaded_records_are_validated_witness :
  get_crops_by_season
    {| crop_requirements := load_entries [("wheat"%string, yaml_wheat)] [] |} 13 = [].
Proof.
  apply (loaded_records_are_validated [("wheat"%string, yaml_wheat)] _ eq_refl).
  lia.
Defined.

(** ** Coordinates, once accepted *)

Lemma round_lower (x : Q) (n : nat) (a : Z) :
  inject_Z a / inject_Z (10 ^ Z.of_nat n) <= x ->
  inject_Z a / inject_Z (10 ^ Z.of_nat n) <= Py.round x n.
Proof.
  intros Ha. unfold Py.round. pose proof (scale_positive n) as Hs.
  set (s := inject_Z (10 ^ Z.of_nat n)) in *.
  assert (Hs0 : 0 <= s) by (apply Qlt_le_weak; exact Hs).
  assert (Ha' : inject_Z a <= x * s).
  { assert (E : inject_Z a == inject_Z a / s * s) by (field; lra).
    rewrite E. apply Qmult_le_compat_r; assumption. }
  apply round_half_even_lower in Ha'. rewrite Zle_Qle in Ha'.
  assert (Hi : 0 <= / s) by (apply Qlt_le_weak, Qinv_lt_0_compat; exact Hs).
  unfold Qdiv. apply Qmult_le_compat_r; assumption.
Qed.

Lemma round_upper (x : Q) (n : nat) (b : Z) :
  x <= inject_Z b / inject_Z (10 ^ Z.of_nat n) ->
  Py.round x n <= inject_Z b / inject_Z (10 ^ Z.of_nat n).
Proof.
  intros Hb. unfold Py.round. pose proof (scale_positive n) as Hs.
  set (s := inject_Z (10 ^ Z.of_nat n)) in *.
  assert (Hs0 : 0 <= s) by (apply Qlt_le_weak; exact Hs).
  assert (Hb' : x * s <= inject_Z b).
  { assert (E : inject_Z b == inject_Z b / s * s) by (field; lra).
    rewrite E. apply Qmult_le_compat_r; assumption. }
  apply round_half_even_upper in Hb'. rewrite Zle_Qle in Hb'.
  assert (Hi : 0 <= / s) by (apply Qlt_le_weak, Qinv_lt_0_compat; exact Hs).
  unfold Qdiv. apply Qmult_le_compat_r; assumption.
Qed.

Lemma round6_lower (x : Q) (a : Z) (qa : Q) :
  qa == inject_Z a / inject_Z (10 ^ Z.of_nat 6) -> qa <= x -> qa <= Py.round x 6.
Proof. intros E H. rewrite E in *. apply round_lower. exact H. Qed.

Lemma round6_upper (x : Q) (b : Z) (qb : Q) :
  qb == inject_Z b / inject_Z (10 ^ Z.of_nat 6) -> x <= qb -> Py.round x 6 <= qb.
Proof. intros E H. rewrite E in *. apply round_upper. exact H. Qed.

Lemma round6_error (x : Q) : Qabs (Py.round x 6 - x) <= 0.0000005.
Proof.
  assert (E : 0.0000005 == (1 # 2) / inject_Z (10 ^ Z.of_nat 6)) by reflexivity.
  rewrite E. apply round_error.
Qed.

Lemma validate_coordinates_inv (v v' : Q) :
  validate_coordinates v = Some v' -> ~ tiny v /\ v' = Py.round v 6.
Proof.
  unfold validate_coordinates.
  destruct (Py.gt (Qabs v) 0 && Py.lt (Qabs v) 0.0001) eqn:E; [discriminate|].
  intros H. injection H as <-. split; [|reflexivity].
  intros [H0 H1]. apply gt_true in H0. apply lt_true in H1.
  rewrite H0, H1 in E. discriminate.
Qed.

Lemma rounded_not_tiny (v : Q) : ~ tiny v -> ~ tiny (Py.round v 6).
Proof.
  intros Hv [H0 H1].
  destruct (Qlt_le_dec (Qabs v) 0.0001) as [Hsmall | Hbig].
  - assert (Hz : v == 0).
    { destruct (Qlt_le_dec 0 (Qabs v)) as [Hpos | Hnp].
      - exfalso. apply Hv. split; assumption.
      - pose proof (Qabs_nonneg v). apply Qabs_Qle_condition in Hnp. lra. }
    assert (Er : Py.round v 6 == 0).
    { unfold Py.round.
      rewrite (round_half_even_comp _ (inject_Z 0)) by (rewrite Hz; reflexivity).
      rewrite round_half_even_Z. reflexivity. }
    rewrite Er in H0. vm_compute in H0. discriminate H0.
  - destruct (Qlt_le_dec v 0) as [Hneg | Hpos].
    + rewrite (Qabs_neg v) in Hbig by lra.
      assert (Hr : Py.round v 6 <= - 0.0001).
      { apply (round6_upper v (-100)); [reflexivity | lra]. }
      rewrite (Qabs_neg (Py.round v 6)) in H1 by lra. lra.
    + rewrite (Qabs_pos v) in Hbig by lra.
      assert (Hr : 0.0001 <= Py.round v 6).
      { apply (round6_lower v 100); [reflexivity | lra]. }
      rewrite (Qabs_pos (Py.round v 6)) in H1 by lra. lra.
Qed.

Lemma Coordinates_new_inv (lat lon : Q) (c : Coordinates) :
  Coordinates_new lat lon = Some c ->
  in_range lat lon /\ ~ tiny lat /\ ~ tiny lon
  /\ c = {| latitude := Py.round lat 6; longitude := Py.round lon 6 |}.
Proof.
  unfold Coordinates_new. intros H.
  apply bind_some in H. destruct H as (la & Hla & H).
  apply bind_some in H. destruct H as (lo & Hlo & H). injection H as <-.
  apply bind_some in Hla. destruct Hla as (v1 & F1 & G1).
  apply bind_some in Hlo. destruct Hlo as (v2 & F2 & G2).
  apply field_ge_le_inv in F1, F2. destruct F1 as (-> & ? & ?). destruct F2 as (-> & ? & ?).
  apply validate_coordinates_inv in G1, G2. destruct G1 as (? & ->). destruct G2 as (? & ->).
  unfold in_range. repeat split; assumption.
Qed.

Lemma round6_close (x : Q) : Qabs (Py.round x 6 - x) < 0.000001.
Proof.
  apply Qle_lt_trans with 0.0000005; [apply round6_error | reflexivity].
Qed.

(** X11: [Coordinates] accepts a pair exactly when both components lie
    in their ranges and neither is nonzero below 0.0001 in absolute
    value; the accepted coordinates are [round(latitude, 6)] and
    [round(longitude, 6)], they lie in the same ranges, and each differs
    from its input by less than 0.000001. *)
Theorem accepted_coordinates :
  forall (lat lon : Q),
    (Coordinates_new lat lon <> None
     <-> in_range lat lon /\ ~ tiny lat /\ ~ tiny lon)
    /\ forall c,
         Coordinates_new lat lon = Some c ->
         latitude c = Py.round lat 6
         /\ longitude c = Py.round lon 6
         /\ in_range (latitude c) (longitude c)
         /\ Qabs (latitude c - lat) < 0.000001
         /\ Qabs (longitude c - lon) < 0.000001.
Proof.
  intros lat lon. split.
  - split.
    + intros H. destruct (Coordinates_new lat lon) as [c|] eqn:E; [|congruence].
      apply Coordinates_new_inv in E. tauto.
    + intros (Hr & Hlat & Hlon).
      destruct (in_range_passes lat lon Hr) as (_ & Flat & Flon).
      unfold Coordinates_new. rewrite Flat, Flon. simpl.
      rewrite (not_tiny_rounded lat Hlat), (not_tiny_rounded lon Hlon). discriminate.
  - intros c H. apply Coordinates_new_inv in H.
    destruct H as ([[H1 H2] [H3 H4]] & _ & _ & ->). simpl.
    split; [reflexivity|]. split; [reflexivity|].
    split; [|split; apply round6_close].
    unfold in_range. repeat split.
    + apply (round6_lower lat (-90000000)); [reflexivity | exact H1].
    + apply (round6_upper lat 90000000); [reflexivity | exact H2].
    + apply (round6_lower lon (-180000000)); [reflexivity | exact H3].
    + apply (round6_upper lon 180000000); [reflexivity | exact H4].
Qed.

(** X12: building [Coordinates] again from accepted coordinates
    succeeds and changes nothing: rounding to six places is idempotent and
    never produces a value that the precision check rejects. *)
Theorem coordinates_round_trip :
  forall (lat lon : Q) (c : Coordinates),
    Coordinates_new lat lon = Some c ->
    Coordinates_new (latitude c) (longitude c) = Some c.
Proof.
  intros lat lon c H. apply Coordinates_new_inv in H.
  destruct H as ([[H1 H2] [H3 H4]] & Hlat & Hlon & ->). simpl.
  unfold Coordinates_new.
  rewrite (field_ge_le_accepts (-90) 90 (Py.round lat 6));
    [| apply (round6_lower lat (-90000000)); [reflexivity | exact H1]
     | apply (round6_upper lat 90000000); [reflexivity | exact H2]].
  rewrite (field_ge_le_accepts (-180) 180 (Py.round lon 6));
    [| apply (round6_lower lon (-180000000)); [reflexivity | exact H3]
     | apply (round6_upper lon 180000000); [reflexivity | exact H4]].
  cbn [bind].
  rewrite (not_tiny_rounded _ (rounded_not_tiny lat Hlat)).
  rewrite (not_tiny_rounded _ (rounded_not_tiny lon Hlon)).
  cbn [bind]. rewrite !round_idempotent. reflexivity.
Qed.

Lemma coordinates_round_trip_witness :
  exists c,
    Coordinates_new 18.52045678 73.8567 = Some c
    /\ Coordinates_new (latitude c) (longitude c) = Some c.
Proof.
  assert (H : exists c, Coordinates_new 18.52045678 73.8567 = Some c).
  { eexists. vm_compute. reflexivity. }
  destruct H as (c & H). exists c. split; [exact H|].
  exact (coordinates_round_trip 18.52045678 73.8567 c H).
Defined.

(** ** When the pipeline raises *)




(** ** Size and order of the cache *)

Lemma del_length {K V} (eqb : K -> K -> bool) (c : list (K * V)) (k : K) :
  (List.length (Py.del eqb c k) <= List.length c)%nat.
Proof.
  induction c as [|[k0 v0] r IH]; simpl; [lia|].
  destruct (eqb k0 k); simpl; lia.
Qed.

(** Deleting the first [n] keys one by one removes the first [n]
    entries. *)
Lemma delete_oldest_keys {K V} (eqb : K -> K -> bool) :
  (forall k, eqb k k = true) ->
  forall (n : nat) (c : list (K * V)),
    fold_left (Py.del eqb) (firstn n (Py.keys c)) c = skipn n c.
Proof.
  intros Hrefl. induction n as [|n IH]; intros [|[k v] r]; simpl; try reflexivity.
  rewrite Hrefl. apply IH.
Qed.

Lemma sub_sub_le (n m : nat) : (n - (n - m) <= m)%nat.
Proof. lia. Qed.

Lemma to_nat_sub (n m : nat) : Z.to_nat (Z.of_nat n - Z.of_nat m) = (n - m)%nat.
Proof. lia. Qed.

Lemma cache_data_is_suffix (self : DataPipeline) (lat lon : Q) (d : LocationData) :
  let stored := Py.assign key_eqb (location_cache self) (cache_key lat lon) d in
  location_cache (_cache_data self lat lon d)
  = skipn (List.length stored - 100) stored.
Proof.
  cbv zeta. unfold _cache_data.
  set (stored := Py.assign key_eqb (location_cache self) (cache_key lat lon) d).
  clearbody stored. unfold Py.len, Py.take.
  change 100%Z with (Z.of_nat 100).
  destruct (Z.of_nat (List.length stored) >? Z.of_nat 100)%Z eqn:E; cbn [location_cache with_cache].
  - apply Z.gtb_lt in E. apply Nat2Z.inj_lt in E.
    destruct (Z.of_nat (List.length stored) - Z.of_nat 100 <? 0)%Z eqn:En.
    + apply Z.ltb_lt in En. exfalso. apply (Z.lt_irrefl 0).
      apply Z.le_lt_trans with (Z.of_nat (List.length stored) - Z.of_nat 100)%Z; [|exact En].
      apply Z.le_0_sub. apply Nat2Z.inj_le. apply Nat.lt_le_incl. exact E.
    + rewrite (delete_oldest_keys key_eqb key_eqb_refl). rewrite to_nat_sub. reflexivity.
  - assert (Hle : (List.length stored <= 100)%nat).
    { apply Nat2Z.inj_le.
      destruct (Z.of_nat (List.length stored) ?= Z.of_nat 100)%Z eqn:C;
        unfold Z.gtb in E; rewrite C in E; try discriminate.
      - apply Z.compare_eq in C. rewrite C. apply Z.le_refl.
      - apply Z.compare_lt_iff in C. apply Z.lt_le_incl. exact C. }
    apply Nat.sub_0_le in Hle. rewrite Hle. reflexivity.
Qed.

Lemma cache_data_size (self : DataPipeline) (lat lon : Q) (d : LocationData) :
  (cache_size (_cache_data self lat lon d) <= 100)%nat.
Proof.
  unfold cache_size. rewrite cache_data_is_suffix. cbv zeta.
  rewrite length_skipn. apply sub_sub_le.
Qed.

Lemma lookup_size (self self0 : DataPipeline) (now : Z) (lat lon : Q)
  (r : option LocationData) :
  _get_cached_data self now lat lon = (r, self0) ->
  (cache_size self0 <= cache_size self)%nat.
Proof.
  unfold _get_cached_data, cache_size.
  destruct (Py.get key_eqb (location_cache self) (cache_key lat lon)) as [cached|];
    [|intros H; injection H as _ <-; lia].
  destruct (timestamp cached) as [ts|]; [|intros H; injection H as _ <-; lia].
  destruct (now <? ts + timedelta_days (cache_ttl_days self))%Z;
    intros H; injection H as _ <-; [lia|].
  simpl. apply del_length.
Qed.

Lemma after_call_size (self : DataPipeline) (c : Call) :
  (cache_size self <= 100)%nat -> (cache_size (after_call self c) <= 100)%nat.
Proof.
  intros H. unfold after_call, fetch_location_data.
  destruct (negb (_validate_coordinates (call_lat c) (call_lon c))); [exact H|].
  destruct (_get_cached_data self (now_at_lookup (call_clock c)) (call_lat c) (call_lon c))
    as [[cached|] self0] eqn:E; simpl;
    pose proof (lookup_size _ _ _ _ _ _ E) as Hs; [lia|].
  destruct (Coordinates_new (call_lat c) (call_lon c)); simpl; [|lia].
  apply cache_data_size.
Qed.

(** X14: a pipeline that started with an empty cache never holds more
    than 100 snapshots, whatever calls of [fetch_location_data] and
    [clear_cache] it has served. *)
Theorem cache_never_exceeds_capacity :
  forall (self : DataPipeline), reachable self -> (cache_size self <= 100)%nat.
Proof.
  intros self H. induction H as [m ttl | self c _ IH | self _ IH].
  - unfold cache_size. simpl. lia.
  - apply after_call_size. exact IH.
  - unfold cache_size. simpl. lia.
Qed.

Lemma cache_never_exceeds_capacity_witness :
  (cache_size (run fresh_pipeline hundred_other_sites) <= 100)%nat.
Proof.
  apply cache_never_exceeds_capacity. apply run_reachable. constructor.
Defined.

(** X15: [_cache_data] evicts the oldest first: what it leaves in the
    cache is the tail of the insertion order after the new snapshot has
    been stored, the last 100 entries when there were more. *)
Theorem eviction_drops_the_oldest :
  forall (self : DataPipeline) (lat lon : Q) (d : LocationData),
    let stored := Py.assign key_eqb (location_cache self) (cache_key lat lon) d in
    location_cache (_cache_data self lat lon d)
    = skipn (List.length stored - 100) stored
    /\ (cache_size (_cache_data self lat lon d) <= 100)%nat.
Proof.
  intros self lat lon d. split; [apply cache_data_is_suffix | apply cache_data_size].
Qed.

(** ** The window of a cached snapshot *)








Lemma run_well_formed (calls : list Call) :
  forall self, well_formed self -> well_formed (run self calls).
Proof.
  unfold run. induction calls as [|c calls IH]; intros self H; simpl; [exact H|].
  apply IH. apply fetch_keeps_well_formed. exact H.
Qed.








(** ** Looking at the cache and clearing it *)



(** X17: after [clear_cache], nothing is served from the cache: the
    next call for coordinates that [Coordinates] accepts awaits the four
    clients and returns a snapshot assembled from their answers, at any
    time. *)
Theorem clear_cache_forces_a_fetch :
  forall (self : DataPipeline) (clock : Clock) (clients : Clients) (lat lon : Q)
         (c : Coordinates),
    Coordinates_new lat lon = Some c ->
    exists self',
      fetch_location_data (clear_cache self) clock clients lat lon
      = (Returned (assembled clock clients lat lon c), self', source_names)
      /\ holds self' lat lon (assembled clock clients lat lon c)
      /\ cache_size self' = 1%nat.
Proof.
  intros self clock clients lat lon c Hc.
  pose proof (Coordinates_new_inv lat lon c Hc) as (Hr & _).
  destruct (in_range_passes lat lon Hr) as (Hv & _).
  unfold fetch_location_data. rewrite Hv. simpl negb. cbv iota.
  unfold _get_cached_data, clear_cache. simpl. rewrite Hc.
  eexists. split; [reflexivity|]. split.
  - unfold holds, _cache_data. simpl. unfold key_eqb. simpl.
    rewrite !Qeq_bool_refl. reflexivity.
  - reflexivity.
Qed.

Lemma clear_cache_forces_a_fetch_witness :
  exists c self',
    fetch_location_data (clear_cache fresh_pipeline) (at_time 0) all_down 18.5204 73.8567
    = (Returned (assembled (at_time 0) all_down 18.5204 73.8567 c), self', source_names).
Proof.
  assert (H : exists c, Coordinates_new 18.5204 73.8567 = Some c).
  { eexists. vm_compute. reflexivity. }
  destruct H as (c & H). exists c.
  destruct (clear_cache_forces_a_fetch fresh_pipeline (at_time 0) all_down
              18.5204 73.8567 c H) as (self' & Hf & _).
  exists self'. exact Hf.
Defined.

(** ** Which fields a snapshot carries *)

Lemma field_iff_delivered {M} (b : Behaviour M) (m : M) :
  process_result (_fetch_with_timeout (_fetch_data b)) = Some m <-> delivers b m.
Proof.
  unfold delivers. split.
  - destruct b as [[[| |[m'|]]|]| |]; simpl; try discriminate.
    intros H. injection H as <-. reflexivity.
  - intros ->. reflexivity.
Qed.

(** X18: in the snapshot of a call that awaited the clients, each of
    the four fields holds a model exactly when its client returned in time
    a dict whose entry builds that model; a client that raises, times out,
    returns [None], an empty dict, a dict without the entry or an entry
    that does not validate leaves its field [None], and however many of
    them do so, the call returns. *)
Theorem fields_mirror_the_clients :
  forall (self self' : DataPipeline) (clock : Clock) (clients : Clients) (lat lon : Q)
         (r : Result LocationData),
    fetch_location_data self clock clients lat lon = (r, self', source_names) ->
    exists d,
      r = Returned d
      /\ (forall m, soil_profile d = Some m <-> delivers (soil_client clients) m)
      /\ (forall m, weather_data d = Some m <-> delivers (weather_client clients) m)
      /\ (forall m, rainfall_data d = Some m <-> delivers (rainfall_client clients) m)
      /\ (forall m, market_prices d = Some m <-> delivers (market_client clients) m).
Proof.
  intros self self' clock clients lat lon r H.
  apply fetch_awaited in H. destruct H as (c & self0 & _ & _ & _ & -> & _).
  eexists. split; [reflexivity|]. simpl.
  split; [|split; [|split]]; intros m; apply field_iff_delivered.
Qed.

Lemma fields_mirror_the_clients_witness :
  exists d,
    fst (fst (fetch_location_data fresh_pipeline (at_time 0) empty_answers
                18.5204 73.8567)) = Returned d
    /\ soil_profile d = None /\ weather_data d = None
    /\ rainfall_data d = None /\ market_prices d = None.
Proof.
  assert (Hfetch : exists r self',
             fetch_location_data fresh_pipeline (at_time 0) empty_answers
               18.5204 73.8567 = (r, self', source_names)).
  { eexists. eexists. vm_compute. reflexivity. }
  destruct Hfetch as (r & self' & Hfetch).
  destruct (fields_mirror_the_clients fresh_pipeline self' (at_time 0) empty_answers
              18.5204 73.8567 r Hfetch) as (d & Hr & Hs & Hw & Hrain & Hm).
  exists d. rewrite Hfetch. simpl. split; [exact Hr|].
  repeat split.
  - destruct (soil_profile d) as [m|]; [|reflexivity].
    pose proof (proj1 (Hs m) eq_refl) as Hd. discriminate Hd.
  - destruct (weather_data d) as [m|]; [|reflexivity].
    pose proof (proj1 (Hw m) eq_refl) as Hd. discriminate Hd.
  - destruct (rainfall_data d) as [m|]; [|reflexivity].
    pose proof (proj1 (Hrain m) eq_refl) as Hd. discriminate Hd.
  - destruct (market_prices d) as [m|]; [|reflexivity].
    pose proof (proj1 (Hm m) eq_refl) as Hd. discriminate Hd.
Defined.

(** ** Water stress and irrigation *)

Lemma stress_antitone (t1 t2 : Q) :
  t1 <= t2 -> calculate_water_stress_index t2 <= calculate_water_stress_index t1.
Proof.
  intros H. unfold calculate_water_stress_index.
  destruct (Py.ge t1 150) eqn:A1, (Py.ge t2 150) eqn:A2; reflect_cmp; try lra;
    try (vm_compute; discriminate);
    destruct (Py.ge t1 100) eqn:B1, (Py.ge t2 100) eqn:B2; reflect_cmp; try lra;
    try (vm_compute; discriminate);
    destruct (Py.ge t1 50) eqn:C1, (Py.ge t2 50) eqn:C2; reflect_cmp; try lra;
    vm_compute; discriminate.
Qed.

Lemma stress_vs_tolerance_antitone (s1 s2 tolerance : Q) :
  s1 <= s2 -> stress_vs_tolerance s2 tolerance <= stress_vs_tolerance s1 tolerance.
Proof.
  intros H. unfold stress_vs_tolerance.
  destruct (Py.le s1 tolerance) eqn:A1, (Py.le s2 tolerance) eqn:A2; reflect_cmp; try lra;
    try (vm_compute; discriminate);
    destruct (Py.le s1 (tolerance + 0.2)) eqn:B1, (Py.le s2 (tolerance + 0.2)) eqn:B2;
    reflect_cmp; try lra; try (vm_compute; discriminate);
    destruct (Py.le s1 (tolerance + 0.4)) eqn:C1, (Py.le s2 (tolerance + 0.4)) eqn:C2;
    reflect_cmp; try lra; vm_compute; discriminate.
Qed.

(** X19: for a fixed crop and two rainfall series with records, the
    series with the larger 30-day total never gets the lower
    water-availability sub-score: more recent rain never counts against a
    crop there. *)
Theorem more_rain_never_lowers_water_score :
  forall (req : CropRequirements.t) (rd1 rd2 : RainfallData),
    records rd1 <> [] -> records rd2 <> [] ->
    get_total_precipitation rd1 30 <= get_total_precipitation rd2 30 ->
    _calculate_water_availability_score req (Some rd1)
    <= _calculate_water_availability_score req (Some rd2).
Proof.
  intros req rd1 rd2 H1 H2 Hle. unfold _calculate_water_availability_score.
  destruct (records rd1) eqn:E1; [contradiction|].
  destruct (records rd2) eqn:E2; [contradiction|].
  cbv zeta. apply stress_vs_tolerance_antitone. apply stress_antitone. exact Hle.
Qed.

Lemma more_rain_never_lowers_water_score_witness :
  _calculate_water_availability_score scenario_A_requirements (Some (one_day_of_rain 40))
  <= _calculate_water_availability_score scenario_A_requirements
       (Some (one_day_of_rain 120)).
Proof.
  apply (more_rain_never_lowers_water_score scenario_A_requirements
           (one_day_of_rain 40) (one_day_of_rain 120)).
  - discriminate.
  - discriminate.
  - vm_compute. discriminate.
Defined.

(** X20: [determine_irrigation_requirement] answers "low" for a 30-day
    total from 150mm, "medium" from 100mm, "high" from 50mm and
    "critical" below, and its answer always passes
    [validate_irrigation_level]. *)
Theorem irrigation_requirement_by_band :
  forall (rd : RainfallData) (b : RainBand),
    in_band (get_total_precipitation rd 30) b ->
    determine_irrigation_requirement rd = band_irrigation b
    /\ validate_irrigation_level (Some (determine_irrigation_requirement rd))
       = Some (Some (determine_irrigation_requirement rd)).
Proof.
  intros rd b Hb. unfold determine_irrigation_requirement. cbv zeta.
  rewrite (stress_of_band _ b Hb). destruct b; split; reflexivity.
Qed.

Lemma irrigation_requirement_by_band_witness :
  determine_irrigation_requirement (one_day_of_rain 40) = "critical"%string.
Proof.
  apply (irrigation_requirement_by_band (one_day_of_rain 40) band_below_50).
  reflexivity.
Defined.

(** ** Sums of rainfall *)












(** ** The average temperature *)

Lemma fdiv_monotone (a b c : Q) :
  a <= b -> 0 <= c -> Py.fdiv a c <= Py.fdiv b c.
Proof.
  intros H Hc. unfold Py.fdiv. apply float_monotone.
  apply float_monotone in H. apply float_nonneg in Hc.
  unfold Qdiv. apply Qmult_le_compat_r; [exact H|].
  apply Qinv_le_0_compat. exact Hc.
Qed.

Lemma fold_fadd_monotone (xs ys : list Q) :
  Forall2 Qle xs ys ->
  forall a b, a <= b -> fold_left Py.fadd xs a <= fold_left Py.fadd ys b.
Proof.
  induction 1 as [|x y xs ys Hxy _ IH]; intros a b Hab; simpl; [exact Hab|].
  apply IH. apply fadd_monotone; assumption.
Qed.

Lemma Forall2_prefix {A B} (R : A -> B -> Prop) (n : nat) :
  forall (l1 : list A) (l2 : list B),
    Forall2 R l1 l2 -> Forall2 R (firstn n l1) (firstn n l2).
Proof.
  induction n as [|n IH]; intros l1 l2 H; simpl; [constructor|].
  destruct H; constructor; [assumption | apply IH; assumption].
Qed.

Lemma Forall2_take {A B} (R : A -> B -> Prop) (n : Z) (l1 : list A) (l2 : list B) :
  Forall2 R l1 l2 -> Forall2 R (Py.take n l1) (Py.take n l2).
Proof.
  intros H. unfold Py.take, Py.len. rewrite (Forall2_length H).
  destruct (n <? 0)%Z; apply Forall2_prefix; exact H.
Qed.

(** X22: [get_average_temperature] has no answer exactly when the
    forecast is empty or the number of days is not positive; and it is
    monotone, in the arithmetic of the code: of two forecasts, the one
    that is at least as warm on every day never has the lower average. *)
Theorem average_temperature_is_defined_and_monotone :
  forall (w : WeatherData) (days : Z),
    (get_average_temperature w days = None <-> forecast w = [] \/ (days <= 0)%Z)
    /\ forall w' t t',
         no_warmer w w' ->
         get_average_temperature w days = Some t ->
         get_average_temperature w' days = Some t' ->
         t <= t'.
Proof.
  intros w days. split.
  - unfold get_average_temperature.
    destruct (forecast w) as [|x l] eqn:E; [split; auto|].
    destruct (days <=? 0)%Z eqn:Ed.
    + apply Z.leb_le in Ed. split; auto.
    + apply Z.leb_gt in Ed. cbv zeta.
      assert (Ht : exists y r, Py.take days (x :: l) = y :: r).
      { unfold Py.take. destruct (days <? 0)%Z eqn:En; [apply Z.ltb_lt in En; lia|].
        destruct (Z.to_nat days) as [|n] eqn:Hn; [lia|]. simpl. eexists. eexists. reflexivity. }
      destruct Ht as (y & r & Ht). rewrite Ht.
      split; [discriminate|]. intros [H | H]; [discriminate | lia].
  - intros w' t t' Hw H1 H2. unfold no_warmer in Hw.
    pose proof (Forall2_take _ days _ _ Hw) as Ht.
    unfold get_average_temperature in H1, H2.
    destruct (forecast w) as [|x l]; [discriminate|].
    destruct (forecast w') as [|x' l']; [discriminate|].
    destruct (days <=? 0)%Z; [discriminate|]. cbv zeta in H1, H2.
    set (f := fun day : WeatherForecast =>
                Py.fdiv (Py.fadd (temperature_min_c day) (temperature_max_c day)) 2) in *.
    destruct (Py.take days (x :: l)) as [|y r]; [discriminate|].
    destruct (Py.take days (x' :: l')) as [|y' r']; [discriminate|].
    injection H1 as <-. injection H2 as <-.
    change (Py.fdiv (Py.fsum (map f (y :: r))) (inject_Z (Py.len (map f (y :: r))))
            <= Py.fdiv (Py.fsum (map f (y' :: r')))
                 (inject_Z (Py.len (map f (y' :: r'))))).
    assert (Hlen : Py.len (map f (y :: r)) = Py.len (map f (y' :: r'))).
    { unfold Py.len. rewrite !length_map. rewrite (Forall2_length Ht). reflexivity. }
    rewrite Hlen.
    assert (Hf : Forall2 Qle (map f (y :: r)) (map f (y' :: r'))).
    { clear Hlen. induction Ht as [|a b la lb [Hmin Hmax] _ IH]; [constructor|].
      cbn [map]. constructor; [|exact IH].
      unfold f. apply fdiv_monotone; [|discriminate].
      apply fadd_monotone; assumption. }
    apply fdiv_monotone.
    + unfold Py.fsum. apply fold_fadd_monotone; [exact Hf | apply Qle_refl].
    + unfold Py.len. change 0 with (inject_Z 0). rewrite <- Zle_Qle. lia.
Qed.

(** ** Validators that never compare *)

Lemma optional_range_iff (lo hi : Q) (o o' : option Q) :
  optional_field (field_ge_le lo hi) o = Some o'
  <-> o' = o /\ if_given (fun v => lo <= v /\ v <= hi) o.
Proof.
  destruct o as [v|]; simpl.
  - split.
    + intros H. apply bind_some in H. destruct H as (v' & Hv & H). injection H as <-.
      apply field_ge_le_inv in Hv. destruct Hv as (-> & ? & ?). auto.
    + intros (-> & H0 & H1). rewrite (field_ge_le_accepts lo hi v H0 H1). reflexivity.
  - split; [intros H; injection H as <-; auto | intros (-> & _); reflexivity].
Qed.

Lemma field_ge_iff (lo v v' : Q) : field_ge lo v = Some v' <-> v' = v /\ lo <= v.
Proof.
  split; [apply field_ge_inv|]. intros (-> & H). unfold field_ge.
  apply le_true in H. rewrite H. reflexivity.
Qed.

Lemma optional_ge_iff (lo : Q) (o o' : option Q) :
  optional_field (field_ge lo) o = Some o' <-> o' = o /\ if_given (fun v => lo <= v) o.
Proof.
  destruct o as [v|]; simpl.
  - split.
    + intros H. apply bind_some in H. destruct H as (v' & Hv & H). injection H as <-.
      apply field_ge_iff in Hv. destruct Hv as (-> & ?). auto.
    + intros (-> & H0). rewrite (proj2 (field_ge_iff lo v v) (conj eq_refl H0)). reflexivity.
  - split; [intros H; injection H as <-; auto | intros (-> & _); reflexivity].
Qed.

(** X23: the [WeatherForecast] constructor accepts exactly the days
    whose fields lie in their own ranges, and returns the two
    temperatures as given: its validator of the temperature order finds
    [temperature_max_c] in [values] at no time, so a minimum above the
    maximum is accepted. *)
Theorem forecast_order_is_not_checked :
  forall (kw : WeatherForecastKwargs),
    (WeatherForecast_new kw <> None <-> forecast_fields_in_range kw)
    /\ (forall f, WeatherForecast_new kw = Some f ->
          f = {| temperature_min_c := fk_temperature_min_c kw;
                 temperature_max_c := fk_temperature_max_c kw |})
    /\ WeatherForecast_new upside_down_day
       = Some {| temperature_min_c := 30; temperature_max_c := 10 |}.
Proof.
  intros kw.
  assert (Hinv : forall f, WeatherForecast_new kw = Some f ->
            forecast_fields_in_range kw
            /\ f = {| temperature_min_c := fk_temperature_min_c kw;
                      temperature_max_c := fk_temperature_max_c kw |}).
  { intros f H. unfold WeatherForecast_new in H. cbv zeta in H.
    apply bind_some in H. destruct H as (mn & Hmn & H).
    apply bind_some in H. destruct H as (mx & Hmx & H).
    apply bind_some in H. destruct H as (hu & Hhu & H).
    apply bind_some in H. destruct H as (pr & Hpr & H).
    apply bind_some in H. destruct H as (wi & Hwi & H). injection H as <-.
    apply bind_some in Hmn. destruct Hmn as (v1 & F1 & G1).
    apply bind_some in Hmx. destruct Hmx as (v2 & F2 & G2).
    apply field_ge_le_inv in F1, F2.
    destruct F1 as (-> & ? & ?). destruct F2 as (-> & ? & ?).
    cbv in G1. injection G1 as <-.
    unfold validate_temperature_range in G2. simpl in G2. injection G2 as <-.
    apply optional_range_iff in Hhu. apply optional_ge_iff in Hpr, Hwi.
    unfold forecast_fields_in_range. intuition. }
  split; [split|split].
  - intros H. destruct (WeatherForecast_new kw) as [f|] eqn:E; [|congruence].
    apply (Hinv f eq_refl).
  - intros ([A0 A1] & [B0 B1] & Hh & Hp & Hw).
    unfold WeatherForecast_new. cbv zeta.
    rewrite (field_ge_le_accepts _ _ _ A0 A1), (field_ge_le_accepts _ _ _ B0 B1).
    cbn [bind]. unfold validate_temperature_range. simpl. cbn [bind].
    rewrite (proj2 (optional_range_iff 0 100 _ _) (conj eq_refl Hh)).
    rewrite (proj2 (optional_ge_iff 0 _ _) (conj eq_refl Hp)).
    rewrite (proj2 (optional_ge_iff 0 _ _) (conj eq_refl Hw)).
    discriminate.
  - intros f H. apply (Hinv f H).
  - reflexivity.
Qed.

Lemma texture_sum_skipped (v : option Q) (values : Values) :
  values_get values "silt_content" = None -> validate_texture_sum v values = Some v.
Proof.
  intros H. unfold validate_texture_sum. rewrite H.
  destruct v, (values_get values "clay_content"), (values_get values "sand_content");
    reflexivity.
Qed.

Lemma texture_percentages_iff (v v' : Q) :
  (y <- field_ge_le 0.0 100.0 v ;; validate_texture_percentages y) = Some v'
  <-> v' = v /\ 0 <= v /\ v <= 100.
Proof.
  split.
  - intros H. apply bind_some in H. destruct H as (y & Hy & H).
    apply field_ge_le_inv in Hy. destruct Hy as (-> & H0 & H1).
    unfold validate_texture_percentages in H.
    destruct (Py.lt v 0 || Py.gt v 100); [discriminate|]. injection H as <-.
    repeat split; lra.
  - intros (-> & H0 & H1).
    rewrite (field_ge_le_accepts 0.0 100.0 v) by lra. cbn [bind].
    unfold validate_texture_percentages.
    apply lt_false in H0. apply gt_false in H1. rewrite H0, H1. reflexivity.
Qed.

Lemma texture_field_iff (o o' : option Q) (values : Values) :
  values_get values "silt_content" = None ->
  (texture_field o values = Some o'
   <-> o' = o /\ if_given (fun v => 0 <= v /\ v <= 100) o).
Proof.
  intros Hv. unfold texture_field. destruct o as [v|]; cbn [optional_field bind if_given].
  - split.
    + intros H. apply bind_some in H. destruct H as (w & Hw & H).
      apply bind_some in Hw. destruct Hw as (v' & Hv' & Hw). injection Hw as <-.
      apply texture_percentages_iff in Hv'. destruct Hv' as (-> & ? & ?).
      rewrite (texture_sum_skipped _ _ Hv) in H. injection H as <-. auto.
    + intros (-> & H0 & H1).
      rewrite (proj2 (texture_percentages_iff v v) (conj eq_refl (conj H0 H1))).
      cbn [bind]. apply texture_sum_skipped. exact Hv.
  - rewrite (texture_sum_skipped _ _ Hv).
    split; [intros H; injection H as <-; auto | intros (-> & _); reflexivity].
Qed.

Lemma no_silt_remembered (a b c d e : option Q) :
  values_get
    (remember (remember (remember (remember (remember [] "ph_h2o" a) "organic_carbon" b)
                 "bulk_density" c) "clay_content" d) "sand_content" e)
    "silt_content" = None.
Proof. destruct a, b, c, d, e; reflexivity. Qed.

Lemma no_silt_remembered_4 (a b c d : option Q) :
  values_get
    (remember (remember (remember (remember [] "ph_h2o" a) "organic_carbon" b)
                 "bulk_density" c) "clay_content" d)
    "silt_content" = None.
Proof. destruct a, b, c, d; reflexivity. Qed.

Lemma no_silt_remembered_3 (a b c : option Q) :
  values_get
    (remember (remember (remember [] "ph_h2o" a) "organic_carbon" b) "bulk_density" c)
    "silt_content" = None.
Proof. destruct a, b, c; reflexivity. Qed.

(** X24: the [SoilProperties] constructor accepts exactly the records
    whose given fields lie in their own ranges, and returns them
    unchanged: [validate_texture_sum] looks in [values] for the field it is
    validating, never finds all three fractions, and so never adds them
    up; fractions of 90%, 90% and 90% are accepted. *)
Theorem texture_sum_is_not_checked :
  forall (kw : SoilPropertiesFields),
    (SoilProperties_new kw <> None <-> soil_fields_in_range kw)
    /\ (forall r, SoilProperties_new kw = Some r -> r = kw)
    /\ SoilProperties_new overfull_soil = Some overfull_soil.
Proof.
  intros kw.
  assert (Hinv : forall r, SoilProperties_new kw = Some r ->
            soil_fields_in_range kw /\ r = kw).
  { intros r H. unfold SoilProperties_new in H. cbv zeta in H.
    apply bind_some in H. destruct H as (ph & Hph & H).
    apply bind_some in H. destruct H as (oc & Hoc & H).
    apply bind_some in H. destruct H as (bd & Hbd & H).
    apply bind_some in H. destruct H as (cl & Hcl & H).
    apply bind_some in H. destruct H as (sa & Hsa & H).
    apply bind_some in H. destruct H as (si & Hsi & H). injection H as <-.
    apply optional_range_iff in Hph, Hbd. apply optional_ge_iff in Hoc.
    apply texture_field_iff in Hcl; [|apply no_silt_remembered_3].
    apply texture_field_iff in Hsa; [|apply no_silt_remembered_4].
    apply texture_field_iff in Hsi; [|apply no_silt_remembered].
    destruct Hph as (-> & Hph), Hoc as (-> & Hoc), Hbd as (-> & Hbd),
             Hcl as (-> & Hcl), Hsa as (-> & Hsa), Hsi as (-> & Hsi).
    split; [|destruct kw; reflexivity].
    unfold soil_fields_in_range. repeat split; try assumption.
    - destruct (sf_ph_h2o kw); simpl in *; [lra | exact I].
    - destruct (sf_organic_carbon kw); simpl in *; [lra | exact I]. }
  split; [split|split].
  - intros H. destruct (SoilProperties_new kw) as [r|] eqn:E; [|congruence].
    apply (Hinv r eq_refl).
  - intros (Hph & Hoc & Hbd & Hcl & Hsa & Hsi).
    unfold SoilProperties_new. cbv zeta.
    assert (Hph' : if_given (fun v => 3.0 <= v /\ v <= 10.0) (sf_ph_h2o kw))
      by (destruct (sf_ph_h2o kw); simpl in *; [lra | exact I]).
    assert (Hoc' : if_given (fun v => 0.0 <= v) (sf_organic_carbon kw))
      by (destruct (sf_organic_carbon kw); simpl in *; [lra | exact I]).
    rewrite (proj2 (optional_range_iff _ _ _ _) (conj eq_refl Hph')). cbn [bind].
    rewrite (proj2 (optional_ge_iff _ _ _) (conj eq_refl Hoc')). cbn [bind].
    rewrite (proj2 (optional_range_iff _ _ _ _) (conj eq_refl Hbd)). cbn [bind].
    rewrite (proj2 (texture_field_iff _ _ _ (no_silt_remembered_3 _ _ _))
               (conj eq_refl Hcl)). cbn [bind].
    rewrite (proj2 (texture_field_iff _ _ _ (no_silt_remembered_4 _ _ _ _))
               (conj eq_refl Hsa)). cbn [bind].
    rewrite (proj2 (texture_field_iff _ _ _ (no_silt_remembered _ _ _ _ _))
               (conj eq_refl Hsi)). cbn [bind].
    discriminate.
  - intros r H. apply (Hinv r H).
  - reflexivity.
Qed.

(** ** The derived texture *)

(** X25: [determine_texture] keeps a texture that is given; without
    one it has no answer exactly when a fraction is missing, and what it
    derives from the three fractions is one of clay, sand, silt, clay
    loam, sandy clay loam, loam and sandy loam, never one of the other
    five classes. *)
Theorem derived_texture :
  forall (v : option SoilTexture) (props : SoilPropertiesFields),
    (forall t, v = Some t -> determine_texture v props = Some t)
    /\ (determine_texture v props = None <-> v = None /\ ~ all_fractions_given props)
    /\ (forall t, v = None -> determine_texture v props = Some t ->
          In t derivable_textures).
Proof.
  intros v props. unfold determine_texture, all_fractions_given, derivable_textures.
  split; [intros t ->; reflexivity|].
  destruct v as [t0|].
  - split; [split; [discriminate | intros [H _]; discriminate]|].
    intros t H. discriminate.
  - destruct (sf_clay_content props) as [clay|];
      destruct (sf_sand_content props) as [sand|];
      destruct (sf_silt_content props) as [silt|];
      try (split; [split; [intros _; split; [reflexivity | intros (A & B & C); congruence]
                          | reflexivity]
                  | intros t _ H; discriminate]).
    split.
    + split.
      * split_matches; discriminate.
      * intros [_ H]. exfalso. apply H. repeat split; discriminate.
    + intros t _. split_matches; intros H; injection H as <-; simpl; tauto.
Qed.

(** ** Market analyses *)

Lemma get_crop_analysis_in_some (l : list PriceAnalysis.t) (name : string)
  (x : PriceAnalysis.t) :
  get_crop_analysis_in l name = Some x ->
  exists before after,
    l = before ++ x :: after
    /\ Py.lower (PriceAnalysis.crop_name x) = Py.lower name
    /\ no_match name before.
Proof.
  induction l as [|a r IH]; simpl; [discriminate|].
  destruct (String.eqb (Py.lower (PriceAnalysis.crop_name a)) (Py.lower name)) eqn:E.
  - intros H. injection H as <-. apply String.eqb_eq in E.
    exists [], r. repeat split; [exact E | constructor].
  - intros H. destruct (IH H) as (b & c & -> & Hx & Hb).
    exists (a :: b), c. repeat split; [exact Hx|].
    constructor; [apply String.eqb_neq; exact E | exact Hb].
Qed.

Lemma get_crop_analysis_in_none (l : list PriceAnalysis.t) (name : string) :
  get_crop_analysis_in l name = None <-> no_match name l.
Proof.
  unfold no_match. induction l as [|a r IH]; simpl.
  - split; [constructor | reflexivity].
  - destruct (String.eqb (Py.lower (PriceAnalysis.crop_name a)) (Py.lower name)) eqn:E.
    + split; [discriminate|]. intros H. apply Forall_inv in H.
      apply String.eqb_eq in E. contradiction.
    + rewrite IH. split.
      * intros H. constructor; [apply String.eqb_neq; exact E | exact H].
      * intros H. inversion H; assumption.
Qed.

Lemma get_crop_analysis_in_case (l : list PriceAnalysis.t) (a b : string) :
  Py.lower a = Py.lower b -> get_crop_analysis_in l a = get_crop_analysis_in l b.
Proof.
  intros E. induction l as [|x r IH]; simpl; [reflexivity|].
  rewrite E, IH. reflexivity.
Qed.

(** X26: [get_crop_analysis] returns the first analysis of the list
    whose name is the asked one up to the case of the letters, and [None]
    exactly when there is none; so two names that differ in case only get
    the same analysis and the same profitability score. *)
Theorem analysis_lookup_is_first_match :
  forall (m : MarketPrices) (name : string),
    (forall x, get_crop_analysis m name = Some x ->
        exists before after,
          analyses m = before ++ x :: after
          /\ Py.lower (PriceAnalysis.crop_name x) = Py.lower name
          /\ no_match name before)
    /\ (get_crop_analysis m name = None <-> no_match name (analyses m))
    /\ (forall other y,
          Py.lower other = Py.lower name ->
          get_crop_analysis m other = get_crop_analysis m name
          /\ calculate_profitability_score m other y
             = calculate_profitability_score m name y).
Proof.
  intros m name. unfold get_crop_analysis, calculate_profitability_score, get_crop_analysis.
  split; [|split].
  - intros x H. apply get_crop_analysis_in_some. exact H.
  - apply get_crop_analysis_in_none.
  - intros other y E. rewrite (get_crop_analysis_in_case _ _ _ E). split; reflexivity.
Qed.

Lemma clamp01_monotone (x y : Q) : x <= y -> clamp01 x <= clamp01 y.
Proof.
  intros H. unfold clamp01.
  destruct (Py.lt x 0) eqn:Ex0, (Py.lt y 0) eqn:Ey0; reflect_cmp; try lra;
    destruct (Py.lt 1 x) eqn:Ex1; reflect_cmp; try lra;
    destruct (Py.lt 1 y) eqn:Ey1; reflect_cmp; lra.
Qed.

Lemma trend_multiplier_monotone (t1 t2 : PriceTrend) :
  (trend_rank t1 <= trend_rank t2)%Z ->
  0 < trend_multiplier t1 /\ trend_multiplier t1 <= trend_multiplier t2.
Proof.
  destruct t1, t2; simpl; intros H; try lia; split; reflexivity || discriminate.
Qed.

(** X27: a better market never lowers the profitability score: for a
    yield that is not negative, an analysis with a price at least as
    high, a trend at least as good (falling, volatile, stable, rising) and
    a volatility at most as high gives a score at least as high. *)
Theorem better_market_never_lowers_profitability :
  forall (m1 m2 : MarketPrices) (name : string) (y : Q) (a1 a2 : PriceAnalysis.t),
    get_crop_analysis m1 name = Some a1 ->
    get_crop_analysis m2 name = Some a2 ->
    no_better a1 a2 ->
    0 <= y ->
    exists p1 p2,
      calculate_profitability_score m1 name y = Some p1
      /\ calculate_profitability_score m2 name y = Some p2
      /\ p1 <= p2.
Proof.
  intros m1 m2 name y a1 a2 H1 H2 (Hc0 & Hc & Ht & Hv & Hv1) Hy.
  unfold calculate_profitability_score. rewrite H1, H2. cbv zeta.
  eexists. eexists. split; [reflexivity|]. split; [reflexivity|].
  rewrite !max_min_is_clamp01. apply clamp01_monotone.
  destruct (trend_multiplier_monotone _ _ Ht) as [Ht0 Ht'].
  apply fdiv_monotone; [|discriminate].
  assert (Hb0 : 0 <= Py.fmul (PriceAnalysis.current_price a1) y)
    by (apply fmul_nonneg; assumption).
  assert (Hb : Py.fmul (PriceAnalysis.current_price a1) y
               <= Py.fmul (PriceAnalysis.current_price a2) y)
    by (apply fmul_monotone; assumption).
  assert (Hv0 : Py.fmul (PriceAnalysis.volatility_index a1) 0.3 <= Py.fmul 1 0.3)
    by (apply fmul_monotone; [exact Hv1 | discriminate]).
  assert (Hone : 0 <= Py.fsub 1.0 (Py.fmul 1 0.3)) by (vm_compute; discriminate).
  apply fmul_monotone2.
  - apply fmul_nonneg; [exact Hb0 | apply Qlt_le_weak; exact Ht0].
  - apply fmul_monotone2; [exact Hb0 | exact Hb | apply Qlt_le_weak; exact Ht0 | exact Ht'].
  - apply Qle_trans with (Py.fsub 1.0 (Py.fmul 1 0.3)); [exact Hone|].
    apply fsub_monotone; [apply Qle_refl | exact Hv0].
  - apply fsub_monotone; [apply Qle_refl|].
    apply fmul_monotone; [exact Hv | discriminate].
Qed.

Lemma better_market_never_lowers_profitability_witness :
  exists p1 p2,
    calculate_profitability_score cheap_wheat_market "wheat" 1800 = Some p1
    /\ calculate_profitability_score wheat_market "wheat" 1800 = Some p2
    /\ p1 <= p2.
Proof.
  assert (H1 : get_crop_analysis cheap_wheat_market "wheat" = Some cheap_wheat_analysis)
    by reflexivity.
  assert (H2 : get_crop_analysis wheat_market "wheat" = Some wheat_analysis)
    by reflexivity.
  assert (Hb : no_better cheap_wheat_analysis wheat_analysis).
  { unfold no_better. simpl. repeat split; try discriminate. }
  assert (Hy : 0 <= 1800) by discriminate.
  exact (better_market_never_lowers_profitability cheap_wheat_market wheat_market
           "wheat" 1800 cheap_wheat_analysis wheat_analysis H1 H2 Hb Hy).
Defined.

(** X28: the profitability score that the matcher gives a crop is
    never 0: it lies above 0 and at most at 1, and a market score of
    exactly 0 (a price of 0, say) is replaced by the neutral 0.5 like a
    missing one, while any other market score is kept. *)
Theorem profitability_score_is_never_zero :
  forall (name : string) (d : LocationData) (req : CropRequirements.t),
    0 < _calculate_profitability_score name d req
    /\ _calculate_profitability_score name d req <= 1
    /\ (forall mp p,
          market_prices d = Some mp ->
          calculate_profitability_score mp name
            (CropRequirements.typical_yield_per_acre req) = Some p ->
          (p == 0 -> _calculate_profitability_score name d req = 0.5)
          /\ (~ p == 0 -> _calculate_profitability_score name d req = p)).
Proof.
  intros name d req.
  assert (Hz : forall mp p,
             market_prices d = Some mp ->
             calculate_profitability_score mp name
               (CropRequirements.typical_yield_per_acre req) = Some p ->
             0 <= p /\ p <= 1
             /\ _calculate_profitability_score name d req
                = (if Qeq_bool p 0 then 0.5 else p)).
  { intros mp p Hm Hp. split; [|split].
    - unfold calculate_profitability_score in Hp.
      destruct (get_crop_analysis mp name); [|discriminate]. injection Hp as <-.
      rewrite max_min_is_clamp01. apply clamp01_bounds.
    - unfold calculate_profitability_score in Hp.
      destruct (get_crop_analysis mp name); [|discriminate]. injection Hp as <-.
      rewrite max_min_is_clamp01. apply clamp01_bounds.
    - apply (zero_profitability_becomes_half name d req mp p Hm Hp). }
  assert (Hb : 0 < _calculate_profitability_score name d req
               /\ _calculate_profitability_score name d req <= 1).
  { destruct (market_prices d) as [mp|] eqn:Em.
    - destruct (calculate_profitability_score mp name
                  (CropRequirements.typical_yield_per_acre req)) as [p|] eqn:Ep.
      + destruct (Hz mp p eq_refl Ep) as (H0 & H1 & ->).
        destruct (Qeq_bool p 0) eqn:E; [split; reflexivity || discriminate|].
        apply Qeq_bool_neq in E. split; [|exact H1].
        apply Qle_lteq in H0. destruct H0 as [H0 | H0]; [exact H0|].
        exfalso. apply E. symmetry. exact H0.
      + unfold _calculate_profitability_score. rewrite Em, Ep.
        split; reflexivity || discriminate.
    - unfold _calculate_profitability_score. rewrite Em.
      split; reflexivity || discriminate. }
  split; [apply Hb|]. split; [apply Hb|].
  intros mp p Hm Hp. destruct (Hz mp p Hm Hp) as (_ & _ & ->). split.
  - intros E. apply Qeq_bool_iff in E. rewrite E. reflexivity.
  - intros E. destruct (Qeq_bool p 0) eqn:Eb; [|reflexivity].
    apply Qeq_bool_iff in Eb. contradiction.
Qed.

(** ** The two risk rules *)

Lemma combined_score_monotone (s1 p1 s2 p2 : Q) :
  s1 <= s2 -> p1 <= p2 -> combined_score s1 p1 <= combined_score s2 p2.
Proof.
  intros Hs Hp. unfold combined_score.
  apply fadd_monotone; apply fmul_monotone; try assumption; discriminate.
Qed.

(** The matcher's tier from a lower bound of the two scores. *)
Lemma risk_level_not_high (s0 p0 s p : Q) :
  Py.float 0.6 <= Py.float (combined_score s0 p0) ->
  s0 <= s -> p0 <= p -> _calculate_risk_level s p <> "high"%string.
Proof.
  intros H0 Hs Hp. unfold _calculate_risk_level. cbv zeta.
  assert (H6 : Py.fge (combined_score s p) 0.6 = true).
  { apply fge_true. apply Qle_trans with (Py.float (combined_score s0 p0)); [exact H0|].
    apply float_monotone, combined_score_monotone; assumption. }
  rewrite H6. destruct (Py.fge (combined_score s p) 0.8); discriminate.
Qed.

Lemma risk_level_low (s0 p0 s p : Q) :
  Py.float 0.8 <= Py.float (combined_score s0 p0) ->
  s0 <= s -> p0 <= p -> _calculate_risk_level s p = "low"%string.
Proof.
  intros H0 Hs Hp. unfold _calculate_risk_level. cbv zeta.
  assert (H8 : Py.fge (combined_score s p) 0.8 = true).
  { apply fge_true. apply Qle_trans with (Py.float (combined_score s0 p0)); [exact H0|].
    apply float_monotone, combined_score_monotone; assumption. }
  rewrite H8. reflexivity.
Qed.

Lemma risk_level_high (s0 p0 s p : Q) :
  Py.float (combined_score s0 p0) < Py.float 0.6 ->
  Py.float 0.6 <= Py.float 0.8 ->
  s <= s0 -> p <= p0 -> _calculate_risk_level s p = "high"%string.
Proof.
  intros H0 H68 Hs Hp. unfold _calculate_risk_level. cbv zeta.
  assert (Hc : Py.float (combined_score s p) < Py.float 0.6).
  { apply Qle_lt_trans with (Py.float (combined_score s0 p0)); [|exact H0].
    apply float_monotone, combined_score_monotone; assumption. }
  assert (H8 : Py.fge (combined_score s p) 0.8 = false).
  { apply fge_false. apply Qlt_le_trans with (Py.float 0.6); assumption. }
  assert (H6 : Py.fge (combined_score s p) 0.6 = false) by (apply fge_false; exact Hc).
  rewrite H8, H6. reflexivity.
Qed.

(** X29: the model's own [calculate_risk_level] and the matcher's
    [_calculate_risk_level], which fills the [risk_level] of every
    recommendation, are two rules: they agree on "low" when both scores
    reach 0.9 and on "high" when both are below 0.5, and the matcher never
    says "high" where the model says "low"; but for a suitability of 1 and
    a profitability of 0.4 the matcher says "low" and the model "high",
    and for 0.8 and 0.8 the model says "low" and the matcher, whose blend
    is 0.7999999999999999 in binary64, "medium". *)
Theorem two_risk_rules :
  forall (r : CropRecommendation.t),
    let s := CropRecommendation.suitability_score r in
    let p := CropRecommendation.profitability_score r in
    (calculate_risk_level r = "low"%string -> _calculate_risk_level s p <> "high"%string)
    /\ (0.9 <= s -> 0.9 <= p ->
        calculate_risk_level r = "low"%string /\ _calculate_risk_level s p = "low"%string)
    /\ (s < 0.5 -> p < 0.5 ->
        calculate_risk_level r = "high"%string /\ _calculate_risk_level s p = "high"%string)
    /\ (forall self d max_crops min_score,
          In r (get_crop_recommendations self d max_crops min_score) ->
          CropRecommendation.risk_level r = _calculate_risk_level s p)
    /\ (calculate_risk_level suitable_but_poor = "high"%string
        /\ _calculate_risk_level (CropRecommendation.suitability_score suitable_but_poor)
             (CropRecommendation.profitability_score suitable_but_poor) = "low"%string)
    /\ (calculate_risk_level evenly_good = "low"%string
        /\ _calculate_risk_level (CropRecommendation.suitability_score evenly_good)
             (CropRecommendation.profitability_score evenly_good) = "medium"%string).
Proof.
  intros r s p. unfold calculate_risk_level. fold s p.
  split; [|split; [|split; [|split; [|split]]]].
  - destruct (Py.ge s 0.8 && Py.ge p 0.7) eqn:E1.
    + intros _. reflect_cmp.
      apply (risk_level_not_high 0.8 0.7); [vm_compute; discriminate | assumption | assumption].
    + destruct (Py.ge s 0.6 && Py.ge p 0.5); intros H; discriminate H.
  - intros Hs Hp.
    assert (A : Py.ge s 0.8 = true) by (apply ge_true; lra).
    assert (B : Py.ge p 0.7 = true) by (apply ge_true; lra).
    rewrite A, B. split; [reflexivity|].
    apply (risk_level_low 0.9 0.9); [vm_compute; discriminate | assumption | assumption].
  - intros Hs Hp.
    assert (A : Py.ge s 0.8 = false) by (apply ge_false; lra).
    assert (B : Py.ge s 0.6 = false) by (apply ge_false; lra).
    rewrite A, B. split; [reflexivity|].
    apply (risk_level_high 0.5 0.5);
      [vm_compute; reflexivity | vm_compute; discriminate
      | apply Qlt_le_weak; exact Hs | apply Qlt_le_weak; exact Hp].
  - intros self d max_crops min_score Hr.
    apply recommendations_built in Hr. destruct Hr as (req & _ & Hb).
    destruct Hb as (_ & _ & _ & _ & _ & _ & _ & _ & Hrisk & _). exact Hrisk.
  - split; vm_compute; reflexivity.
  - split; vm_compute; reflexivity.
Qed.

(** ** Place names *)

Lemma closest_cons (la lo : Q) (name : string) (rest : list (Q * Q * string))
  (within lat lon : Q) :
  closest ((la, lo, name) :: rest) within lat lon
  = if Py.lt (Qabs (lat - la)) within && Py.lt (Qabs (lon - lo)) within
    then Some name else closest rest within lat lon.
Proof.
  unfold closest. cbn [find fst snd].
  destruct (Py.lt (Qabs (lat - la)) within && Py.lt (Qabs (lon - lo)) within); reflexivity.
Qed.

Lemma within_true (a b w : Q) : Py.lt (Qabs (a - b)) w = true <-> b - w < a /\ a < b + w.
Proof.
  rewrite lt_true, Qabs_Qlt_condition. split; intros [H1 H2]; split; lra.
Qed.

Lemma closest_hit (la lo : Q) (name : string) (rest : list (Q * Q * string))
  (within lat lon : Q) :
  la - within < lat -> lat < la + within -> lo - within < lon -> lon < lo + within ->
  closest ((la, lo, name) :: rest) within lat lon = Some name.
Proof.
  intros H1 H2 H3 H4. rewrite closest_cons.
  rewrite (proj2 (within_true lat la within) (conj H1 H2)).
  rewrite (proj2 (within_true lon lo within) (conj H3 H4)). reflexivity.
Qed.

Lemma closest_miss (la lo : Q) (name : string) (rest : list (Q * Q * string))
  (within lat lon : Q) :
  lat <= la - within \/ la + within <= lat \/ lon <= lo - within \/ lo + within <= lon ->
  closest ((la, lo, name) :: rest) within lat lon = closest rest within lat lon.
Proof.
  intros H. rewrite closest_cons.
  destruct (Py.lt (Qabs (lat - la)) within) eqn:E1;
    [destruct (Py.lt (Qabs (lon - lo)) within) eqn:E2|]; try reflexivity.
  apply within_true in E1, E2. exfalso. lra.
Qed.

Lemma closest_found (mapping : list (Q * Q * string)) (within lat lon : Q) (name : string) :
  closest mapping within lat lon = Some name ->
  exists la lo,
    In (la, lo, name) mapping
    /\ la - within < lat /\ lat < la + within
    /\ lo - within < lon /\ lon < lo + within.
Proof.
  induction mapping as [|[[la lo] n] rest IH]; [discriminate|].
  rewrite closest_cons.
  destruct (Py.lt (Qabs (lat - la)) within) eqn:E1;
    [destruct (Py.lt (Qabs (lon - lo)) within) eqn:E2|]; cbn [andb].
  - intros H. injection H as <-. apply within_true in E1, E2.
    exists la, lo. split; [left; reflexivity | tauto].
  - intros H. destruct (IH H) as (a & b & Hin & Hb). exists a, b. split; [right; exact Hin | exact Hb].
  - intros H. destruct (IH H) as (a & b & Hin & Hb). exists a, b. split; [right; exact Hin | exact Hb].
Qed.

Ltac walk_states :=
  repeat first
    [ rewrite closest_hit by lra
    | rewrite closest_miss
        by first [ left; lra | right; left; lra | right; right; left; lra
                 | right; right; right; lra ] ].

(** X30: the city and the state that [fetch_location_data] writes into
    a location agree with the map: wherever [_get_city_name] finds a city
    of India, [_get_state_name] finds the state of that city, and where it
    finds Dubai there is no state. *)
Theorem city_and_state_agree :
  forall (lat lon : Q) (city : string),
    _get_city_name lat lon = Some city ->
    _get_state_name lat lon = state_of city.
Proof.
  intros lat lon city H. unfold _get_city_name in H.
  apply closest_found in H. destruct H as (la & lo & Hin & H1 & H2 & H3 & H4).
  unfold _get_state_name, state_mapping.
  unfold city_mapping in Hin. cbn [In] in Hin.
  destruct Hin as [E | [E | [E | [E | [E | [E | [E | [E | []]]]]]]]];
    injection E as <- <- <-; cbn [state_of String.eqb Ascii.eqb Bool.eqb];
    walk_states; try reflexivity.
  - rewrite closest_cons.
    destruct (Py.lt (Qabs (lat - 18.5204)) 1.0 && Py.lt (Qabs (lon - 73.8567)) 1.0);
      [reflexivity|]. walk_states. reflexivity.
Qed.

Lemma city_and_state_agree_witness :
  _get_city_name 18.6 73.9 = Some "Pune"%string
  /\ _get_state_name 18.6 73.9 = Some "Maharashtra"%string.
Proof.
  assert (H : _get_city_name 18.6 73.9 = Some "Pune"%string) by reflexivity.
  split; [exact H|].
  exact (city_and_state_agree 18.6 73.9 "Pune" H).
Defined.
